(** * Bullet-item ordering, soft-delete CRUD and cache-aside reads

    A shallow embedding of the backend's service layer:

    - [app/utils/validators.py], [app/utils/helpers.py],
      [app/utils/constants.py], [app/utils/exceptions.py];
    - [app/models/base.py], [app/models/user.py], [app/models/project.py],
      [app/models/specification.py], [app/models/bullet_item.py];
    - [app/database/operations.py];
    - [app/schemas/bullet_item.py], [app/schemas/project.py];
    - [app/cache/keys.py], [app/cache/redis.py],
      [app/services/cache_service.py], [app/middleware/rate_limiter.py];
    - [app/services/bullet_item_service.py],
      [app/services/specification_service.py],
      [app/services/project_service.py].

    Modelling conventions.

    - A [UUID] is identified with its canonical text, the value of
      [str(uuid)]; a [datetime] with its ISO-8601 text.  Python compares
      both by value, and the text is an injective rendering of it.
    - A Python [str] is a Rocq [string] (code points below 256).
    - The relational store is the record [Database]: one list of rows per
      table, in insertion order, as [Base.metadata.create_all] builds the
      tables from the ORM classes the services use: the primary key on
      [id] and the foreign keys of the three models ([user_id] of a
      project, [project_id] of a specification, [spec_id] of a bullet
      item), no other constraint.  The services modelled here never write
      the [users] table and read it through the foreign key of [projects]
      alone.  The Alembic migration declares other tables (integer keys,
      other column names, a uniqueness constraint on [(spec_id, order)])
      than the ORM classes map to; it is not modelled.
      Every call of [session_scope] commits on exit, so a service raising
      after a write leaves the write in place.
    - Calls are sequential: one request at a time reads and writes the
      store and the cache.
    - The store itself never fails: a statement raises only when a
      constraint refuses it.  Every function of [operations.py] turns an
      exception of the session into [DatabaseError]; for a lost
      connection or a timeout that path is not modelled, and what is
      proved of a call that reaches the store is proved of a store that
      answers.  The cache backend can fail, see [RedisCache].
    - [uuid4()] and [datetime.utcnow()] are inputs of the operation that
      calls them.
    - Exceptions are values of [exn]; a service call is a function from the
      state to a [result] and the state it leaves. *)

From stdpp Require Import base gmap strings list.
From Stdlib Require Import ZArith QArith Ascii Lia Sorted.

Set Warnings "-register-all".
Set Default Proof Using "Type".

Local Close Scope Q_scope.
Local Open Scope string_scope.

(** ** Values *)

Abbreviation UUID := string (only parsing).
Abbreviation datetime := string (only parsing).

(** A value produced by [json.loads] / [request.get_json()]. *)
Inductive json :=
| JNull
| JBool (b : bool)
| JInt (z : Z)
| JFloat (q : Q)
| JStr (s : string)
| JArr (l : list json)
| JObj (d : list (string * json)).

(** A Python [dict] with string keys: the first binding of a key is its
    value. *)
Abbreviation pydict := (list (string * json)) (only parsing).

Fixpoint dict_lookup (d : list (string * json)) (k : string) : option json :=
  match d with
  | [] => None
  | (k', v) :: d' => if decide (k' = k) then Some v else dict_lookup d' k
  end.

(** [d.get(k)]: [None] when the key is absent. *)
Definition dict_get (d : list (string * json)) (k : string) : json :=
  default JNull (dict_lookup d k).

(** Truth value of a JSON value, as [if v:] / [not v] see it. *)
Definition truthy (v : json) : bool :=
  match v with
  | JNull => false
  | JBool b => b
  | JInt z => negb (z =? 0)%Z
  | JFloat q => negb (Qeq_bool q 0%Q)
  | JStr s => negb (bool_decide (s = ""))
  | JArr l => negb (bool_decide (l = []))
  | JObj d => negb (bool_decide (d = []))
  end.

(** The integer value of [v] when [isinstance(v, int)] holds; [bool] is a
    subclass of [int], with [True] equal to 1 and [False] to 0. *)
Definition int_value (v : json) : option Z :=
  match v with
  | JInt z => Some z
  | JBool b => Some (if b then 1 else 0)%Z
  | _ => None
  end.

(** [str.isspace] on one character, and [str.strip()]. *)
Definition isspace (c : ascii) : bool :=
  let n := nat_of_ascii c in
  (((9 <=? n) && (n <=? 13)) || ((28 <=? n) && (n <=? 32))
   || (n =? 133) || (n =? 160))%nat.

Fixpoint lstrip_chars (l : list ascii) : list ascii :=
  match l with
  | [] => []
  | c :: l' => if isspace c then lstrip_chars l' else l
  end.

Definition strip (s : string) : string :=
  String.string_of_list_ascii
    (rev (lstrip_chars (rev (lstrip_chars (String.list_ascii_of_string s))))).

(** ** Exceptions ([app/utils/exceptions.py]) *)

Inductive exn :=
| ValidationError (code : string) (errors : list (string * list string))
| ResourceNotFoundError (code : string)
| AuthorizationError (code : string)
| DatabaseError
(** [marshmallow.ValidationError], raised by a schema's [load]. *)
| SchemaValidationError (messages : list (string * list string))
(** Built-in exceptions. *)
| ValueError (message : string)
| KeyError (key : string)
| TypeError.

Inductive result (A : Type) :=
| Ok (a : A)
| Raise (e : exn).
Arguments Ok {A} a.
Arguments Raise {A} e.

(** A call that reads and writes a state [S] and returns or raises. *)
Definition M (S A : Type) : Type := S → result A * S.

#[global] Instance M_ret {S} : MRet (M S) := λ A a s, (Ok a, s).
#[global] Instance M_bind {S} : MBind (M S) := λ A B f m s,
  match m s with
  | (Ok a, s') => f a s'
  | (Raise e, s') => (Raise e, s')
  end.

Definition raise {S A} (e : exn) : M S A := λ s, (Raise e, s).
Definition lift {S A} (r : result A) : M S A := λ s, (r, s).
Definition gets {S A} (f : S → A) : M S A := λ s, (Ok (f s), s).

(** [try: m except Exception as e: raise h(e)]. *)
Definition try_except {S A} (m : M S A) (h : exn → exn) : M S A := λ s,
  match m s with
  | (Ok a, s') => (Ok a, s')
  | (Raise e, s') => (Raise (h e), s')
  end.

(** [ERROR_CODES] ([app/utils/constants.py]). *)
Definition ERROR_CODES : list (string * string) :=
  [("AUTH001", "Invalid token");
   ("AUTH002", "Token expired");
   ("AUTH003", "Invalid Google token");
   ("PRJ001", "Project not found");
   ("PRJ002", "Unauthorized access");
   ("SPEC001", "Specification not found");
   ("SPEC002", "Invalid project reference");
   ("ITEM001", "Maximum items reached");
   ("ITEM002", "Invalid order value");
   ("SYS001", "Database error");
   ("SYS002", "Rate limit exceeded")].

Fixpoint error_code_message (codes : list (string * string)) (code : string)
    : option string :=
  match codes with
  | [] => None
  | (c, m) :: codes' =>
      if decide (c = code) then Some m else error_code_message codes' code
  end.

(** The [message] and [status_code] the constructors of
    [app/utils/exceptions.py] give an exception: the message is
    [ERROR_CODES[code]].  Exceptions of other classes have neither. *)
Definition api_message (e : exn) : option string :=
  match e with
  | ValidationError code _ | ResourceNotFoundError code
  | AuthorizationError code => error_code_message ERROR_CODES code
  | DatabaseError => error_code_message ERROR_CODES "SYS001"
  | _ => None
  end.

Definition api_status_code (e : exn) : option Z :=
  match e with
  | ValidationError _ _ => Some 400%Z
  | ResourceNotFoundError _ => Some 404%Z
  | AuthorizationError _ => Some 403%Z
  | DatabaseError => Some 500%Z
  | _ => None
  end.

(** ** Constants ([app/utils/constants.py]) *)

Definition MAX_BULLET_ITEMS : Z := 10.
Definition CACHE_TTL : Z := 300.

(** ** Validators ([app/utils/validators.py])

    [content] and [order] arrive typed, so the [isinstance] tests of the
    source hold. *)

Definition MAX_CONTENT_LENGTH : Z := 5000.

Definition validate_bullet_item (content : string) (order : Z) : result bool :=
  if bool_decide (content = "") then
    Raise (ValidationError "ITEM002" [("content", ["Content is required"])])
  else
    let content := strip content in
    if (String.length content =? 0)%nat then
      Raise (ValidationError "ITEM002" [("content", ["Content cannot be empty"])])
    else if (MAX_CONTENT_LENGTH <? Z.of_nat (String.length content))%Z then
      Raise (ValidationError "ITEM002"
        [("content", ["Content exceeds maximum length of 5000 characters"])])
    else if ((order <? 0) || (MAX_BULLET_ITEMS <=? order))%Z then
      Raise (ValidationError "ITEM002"
        [("order", ["Order must be between 0 and 9"])])
    else Ok true.

Definition validate_bullet_items_count (current_count : Z) : result bool :=
  if (MAX_BULLET_ITEMS <=? current_count)%Z then
    Raise (ValidationError "ITEM001"
      [("count", ["Cannot exceed maximum of 10 bullet items"])])
  else Ok true.

Definition MAX_TITLE_LENGTH : Z := 100.

(** One character of [TITLE_PATTERN], the class
    [[a-zA-Z0-9\s\-_\.]]; [\s] is the whitespace of [str.isspace]. *)
Definition title_char (c : ascii) : bool :=
  let n := nat_of_ascii c in
  (((97 <=? n) && (n <=? 122)) || ((65 <=? n) && (n <=? 90))
   || ((48 <=? n) && (n <=? 57)) || isspace c
   || (n =? 45) || (n =? 95) || (n =? 46))%nat.

(** [re.match(TITLE_PATTERN, title)] on a stripped, non-empty title: the
    pattern is one or more characters of the class up to the end (the
    stripped title has no final newline for [$] to skip). *)
Definition validate_project_title (title : string) : result bool :=
  if bool_decide (title = "") then
    Raise (ValidationError "PRJ001" [("title", ["Title is required"])])
  else
    let title := strip title in
    if (String.length title =? 0)%nat
       || (MAX_TITLE_LENGTH <? Z.of_nat (String.length title))%Z then
      Raise (ValidationError "PRJ001"
        [("title", ["Title must be between 1 and 100 characters"])])
    else if negb (forallb title_char (String.list_ascii_of_string title)) then
      Raise (ValidationError "PRJ001"
        [("title", ["Title contains invalid characters"])])
    else Ok true.

Definition validate_specification_content (content : string) : result bool :=
  if bool_decide (content = "") then
    Raise (ValidationError "SPEC001" [("content", ["Content is required"])])
  else
    let content := strip content in
    if (String.length content =? 0)%nat then
      Raise (ValidationError "SPEC001" [("content", ["Content cannot be empty"])])
    else if (MAX_CONTENT_LENGTH <? Z.of_nat (String.length content))%Z then
      Raise (ValidationError "SPEC001"
        [("content", ["Content exceeds maximum length of 5000 characters"])])
    else Ok true.

(** [app/utils/helpers.py]: [isinstance(order, int) and 0 <= order <= 9]. *)
Definition validate_bullet_order (order : json) : bool :=
  match int_value order with
  | Some z => ((0 <=? z) && (z <=? 9))%Z
  | None => false
  end.

(** ** Models ([app/models]) *)

(** A row of [users]: the columns of [Base] and those of
    [app/models/user.py]; [email] is the stored, encrypted text. *)
Module User.
Record t := mk {
  id : UUID;
  created_at : datetime;
  updated_at : datetime;
  is_deleted : bool;
  email : string;
  name : string;
  last_login : option datetime
}.
End User.

Module Project.
Record t := mk {
  id : UUID;
  created_at : datetime;
  updated_at : datetime;
  is_deleted : bool;
  title : string;
  user_id : UUID
}.

#[global] Instance eq_dec : EqDecision t.
Proof. solve_decision. Defined.

Definition __init__ (new_id : UUID) (now : datetime)
    (title : string) (user_id : UUID) : result t :=
  if bool_decide (title = "") || bool_decide (strip title = "") then
    Raise (ValueError "Project title cannot be empty")
  else Ok (mk new_id now now false (strip title) user_id).

Definition validate_ownership (self : t) (user_id : UUID) : bool :=
  bool_decide (Project.user_id self = user_id).

Definition set_is_deleted (b : bool) (self : t) : t :=
  mk (id self) (created_at self) (updated_at self) b (title self)
     (Project.user_id self).
Definition set_updated_at (now : datetime) (self : t) : t :=
  mk (id self) (created_at self) now (is_deleted self) (title self)
     (Project.user_id self).
End Project.

Module Specification.
Record t := mk {
  id : UUID;
  created_at : datetime;
  updated_at : datetime;
  is_deleted : bool;
  project_id : UUID;
  content : string
}.

#[global] Instance eq_dec : EqDecision t.
Proof. solve_decision. Defined.

Definition __init__ (new_id : UUID) (now : datetime)
    (project_id : UUID) (content : string) : result t :=
  if bool_decide (content = "") || bool_decide (strip content = "") then
    Raise (ValueError "Specification content cannot be empty")
  else Ok (mk new_id now now false project_id (strip content)).

Definition validate_project_access (self : t) (project_id : UUID) : bool :=
  bool_decide (Specification.project_id self = project_id).

Definition set_is_deleted (b : bool) (self : t) : t :=
  mk (id self) (created_at self) (updated_at self) b (project_id self)
     (content self).
Definition set_updated_at (now : datetime) (self : t) : t :=
  mk (id self) (created_at self) now (is_deleted self) (project_id self)
     (content self).
End Specification.

Module BulletItem.
Record t := mk {
  id : UUID;
  created_at : datetime;
  updated_at : datetime;
  is_deleted : bool;
  spec_id : UUID;
  content : string;
  order : Z
}.

#[global] Instance eq_dec : EqDecision t.
Proof. solve_decision. Defined.

Definition validate_order (order : Z) : bool :=
  ((0 <=? order) && (order <=? 9))%Z.

Definition __init__ (new_id : UUID) (now : datetime)
    (spec_id : UUID) (content : string) (order : Z) : result t :=
  if bool_decide (content = "") || bool_decide (strip content = "") then
    Raise (ValueError "Bullet item content cannot be empty")
  else if negb (validate_order order) then
    Raise (ValueError "Bullet item order must be between 0 and 9")
  else Ok (mk new_id now now false spec_id (strip content) order).

Definition validate_spec_access (self : t) (spec_id : UUID) : bool :=
  bool_decide (BulletItem.spec_id self = spec_id).

Definition set_is_deleted (b : bool) (self : t) : t :=
  mk (id self) (created_at self) (updated_at self) b (spec_id self)
     (content self) (order self).
Definition set_updated_at (now : datetime) (self : t) : t :=
  mk (id self) (created_at self) now (is_deleted self) (spec_id self)
     (content self) (order self).
Definition set_content (c : string) (self : t) : t :=
  mk (id self) (created_at self) (updated_at self) (is_deleted self)
     (spec_id self) c (order self).
Definition set_order (o : Z) (self : t) : t :=
  mk (id self) (created_at self) (updated_at self) (is_deleted self)
     (spec_id self) (content self) o.
End BulletItem.

(** ** The store *)

Record Database := mkDatabase {
  users : list User.t;
  projects : list Project.t;
  specifications : list Specification.t;
  bullet_items : list BulletItem.t
}.

(** The columns and methods every model inherits from [Base]
    ([app/models/base.py]), with the table the class is mapped to. *)
Class Base (T : Type) := {
  Base_eq_dec :: EqDecision T;
  pk : T → UUID;
  deleted : T → bool;
  set_is_deleted : bool → T → T;
  set_updated_at : datetime → T → T;
  table : Database → list T;
  set_table : list T → Database → Database
}.

#[global] Instance Project_Base : Base Project.t := {|
  pk := Project.id;
  deleted := Project.is_deleted;
  set_is_deleted := Project.set_is_deleted;
  set_updated_at := Project.set_updated_at;
  table := projects;
  set_table rows db :=
    mkDatabase (users db) rows (specifications db) (bullet_items db)
|}.

#[global] Instance Specification_Base : Base Specification.t := {|
  pk := Specification.id;
  deleted := Specification.is_deleted;
  set_is_deleted := Specification.set_is_deleted;
  set_updated_at := Specification.set_updated_at;
  table := specifications;
  set_table rows db :=
    mkDatabase (users db) (projects db) rows (bullet_items db)
|}.

#[global] Instance BulletItem_Base : Base BulletItem.t := {|
  pk := BulletItem.id;
  deleted := BulletItem.is_deleted;
  set_is_deleted := BulletItem.set_is_deleted;
  set_updated_at := BulletItem.set_updated_at;
  table := bullet_items;
  set_table rows db :=
    mkDatabase (users db) (projects db) (specifications db) rows
|}.

(** The foreign keys of a model ([ForeignKey(...)], [nullable=False]):
    whether the row that a new row refers to is in its table.  The
    constraint looks at the presence of the parent row, soft deleted or
    not. *)
Class References (T : Type) := references : T → Database → bool.

(** [projects.user_id] refers to [users.id]. *)
#[global] Instance Project_References : References Project.t :=
  λ project db,
    existsb (λ user, bool_decide (User.id user = Project.user_id project))
      (users db).

(** [specifications.project_id] refers to [projects.id]. *)
#[global] Instance Specification_References : References Specification.t :=
  λ specification db,
    existsb
      (λ project,
         bool_decide (Project.id project
                      = Specification.project_id specification))
      (projects db).

(** [bullet_items.spec_id] refers to [specifications.id]. *)
#[global] Instance BulletItem_References : References BulletItem.t :=
  λ item db,
    existsb
      (λ specification,
         bool_decide (Specification.id specification
                      = BulletItem.spec_id item))
      (specifications db).

(** [Base.soft_delete]: flag the record and restamp it. *)
Definition soft_delete `{Base T} (now : datetime) (self : T) : T :=
  set_updated_at now (set_is_deleted true self).

(** ** Generic CRUD ([app/database/operations.py]) *)

Section operations.
Context `{Base T} `{References T}.

(** [UPDATE ... WHERE id = key]: every row with that primary key. *)
Definition update_where_pk (key : UUID) (f : T → T) (rows : list T) : list T :=
  (λ r, if decide (pk r = key) then f r else r) <$> rows.

Definition select_pk (key : UUID) (rows : list T) : option T :=
  List.find (λ r, bool_decide (pk r = key)) rows.

(** The instance built by calling the model class on [data] is the
    argument [construct]; a constructor that raises, a primary key
    already present and a foreign key without its parent row surface as
    [DatabaseError], and the insert is rolled back. *)
Definition create_record (construct : result T) : M Database T := λ db,
  match construct with
  | Raise _ => (Raise DatabaseError, db)
  | Ok instance =>
      match select_pk (pk instance) (table db) with
      | Some _ => (Raise DatabaseError, db)
      | None =>
          if references instance db
          then (Ok instance, set_table (table db ++ [instance]) db)
          else (Raise DatabaseError, db)
      end
  end.

(** The first row with that id that is not soft deleted.  The [except]
    clause of the source, which turns an exception of the session into
    [DatabaseError], is not reached on a store that answers. *)
Definition get_record (record_id : UUID) : M Database (option T) :=
  gets (λ db, List.find
    (λ r, bool_decide (pk r = record_id) && negb (deleted r)) (table db)).

(** What a flush writes for a record whose attributes were assigned by
    [assign]: nothing when no column changed, otherwise the new column
    values with [updated_at] restamped by its [onupdate] default. *)
Definition flush_row (now : datetime) (assign : T → T) (r : T) : T :=
  let r' := assign r in
  if decide (r' = r) then r else set_updated_at now r'.

(** [data] is the effect [assign] of the [setattr] loop.  The record is
    written by primary key and read back ([session.refresh]).  On a store
    that answers, the [except] clause of the source is reached only by a
    record whose row is gone. *)
Definition update_record (record : T) (assign : T → T) (now : datetime)
    : M Database T := λ db,
  let rows := update_where_pk (pk record) (flush_row now assign) (table db) in
  match select_pk (pk record) rows with
  | None => (Raise DatabaseError, db)
  | Some r => (Ok r, set_table rows db)
  end.

(** [record.soft_delete()], written by primary key; a record whose row is
    gone cannot be written. *)
Definition delete_record (record : T) (now : datetime) : M Database unit := λ db,
  match select_pk (pk record) (table db) with
  | None => (Raise DatabaseError, db)
  | Some _ =>
      (Ok tt,
       set_table (update_where_pk (pk record) (soft_delete now) (table db)) db)
  end.

(** [filters] holds one equality test per key of the Python dict. *)
Definition list_records (filters : list (T → bool)) : M Database (list T) :=
  gets (λ db, List.filter
    (λ r, negb (deleted r) && forallb (λ f, f r) filters) (table db)).
End operations.

(** [result] is an error monad of its own, for code that only validates. *)
#[global] Instance result_ret : MRet result := λ A a, Ok a.
#[global] Instance result_bind : MBind result := λ A B f r,
  match r with
  | Ok a => f a
  | Raise e => Raise e
  end.

(** [d[k]]: [KeyError] when the key is absent. *)
Definition subscript (d : list (string * json)) (k : string) : result json :=
  match dict_lookup d k with
  | Some v => Ok v
  | None => Raise (KeyError k)
  end.

(** ** Schemas ([app/schemas/bullet_item.py])

    The marshmallow fields have already turned the request body into typed
    values; the [@validates] hooks of the repository run on them. *)

Module BulletItemSchema.
Definition dump (item : BulletItem.t) : json :=
  JObj [("id", JStr (BulletItem.id item));
        ("spec_id", JStr (BulletItem.spec_id item));
        ("content", JStr (BulletItem.content item));
        ("order", JInt (BulletItem.order item));
        ("created_at", JStr (BulletItem.created_at item));
        ("updated_at", JStr (BulletItem.updated_at item))].
End BulletItemSchema.

Module BulletItemCreateSchema.
Record data := mk {
  content : string;
  order : Z;
  spec_id : UUID
}.

(** The hook catches marshmallow's [ValidationError] only, so the
    application's [ValidationError] raised by [validate_bullet_item]
    leaves [load] as it is. *)
Definition validate_content (content : string) : result bool :=
  validate_bullet_item content 0.

Definition validate_order (order : Z) : result bool :=
  if ((order <? 0) || (9 <? order))%Z then
    Raise (SchemaValidationError [("order", ["Order must be between 0 and 9"])])
  else Ok true.

Definition load (d : data) : result data :=
  _ ← validate_content (content d);
  _ ← validate_order (order d);
  mret d.
End BulletItemCreateSchema.

(** [BulletItemUpdateSchema]: both fields are optional, and a hook runs
    only on a field that is present. *)
Module BulletItemUpdateSchema.
Record data := mk {
  content : option string;
  order : option Z
}.

Definition validate_content (content : string) : result bool :=
  validate_bullet_item content 0.

Definition validate_order (order : Z) : result bool :=
  if ((order <? 0) || (9 <? order))%Z then
    Raise (SchemaValidationError [("order", ["Order must be between 0 and 9"])])
  else Ok true.

Definition load (d : data) : result data :=
  _ ← match content d with
      | Some c => validate_content c
      | None => Ok true
      end;
  _ ← match order d with
      | Some o => validate_order o
      | None => Ok true
      end;
  mret d.

(** The [setattr] loop of [update_record] on the validated dict. *)
Definition assign (d : data) (item : BulletItem.t) : BulletItem.t :=
  let item :=
    match content d with
    | Some c => BulletItem.set_content c item
    | None => item
    end in
  match order d with
  | Some o => BulletItem.set_order o item
  | None => item
  end.
End BulletItemUpdateSchema.

(** ** Bullet items ([app/services/bullet_item_service.py]) *)

Module BulletItemService.

(** [filters={'spec_id': spec_id}] *)
Definition by_spec (spec_id : UUID) : list (BulletItem.t → bool) :=
  [λ item, bool_decide (BulletItem.spec_id item = spec_id)].

Definition create_bullet_item (data : BulletItemCreateSchema.data)
    (new_id : UUID) (now : datetime) : M Database json :=
  validated_data ← lift (BulletItemCreateSchema.load data);
  existing_items ← list_records
    (by_spec (BulletItemCreateSchema.spec_id validated_data));
  if (10 <=? length existing_items)%nat then
    raise (ValidationError "ITEM001"
      [("items", ["Maximum number of bullet items (10) reached"])])
  else
    bullet_item ← create_record
      (BulletItem.__init__ new_id now
         (BulletItemCreateSchema.spec_id validated_data)
         (BulletItemCreateSchema.content validated_data)
         (BulletItemCreateSchema.order validated_data));
    mret (BulletItemSchema.dump bullet_item).

Definition get_bullet_item (item_id : UUID) : M Database json :=
  bullet_item ← get_record item_id;
  match bullet_item with
  | None => raise (ResourceNotFoundError "ITEM001")
  | Some bullet_item => mret (BulletItemSchema.dump bullet_item)
  end.

Definition update_bullet_item (item_id : UUID)
    (data : BulletItemUpdateSchema.data) (now : datetime) : M Database json :=
  validated_data ← lift (BulletItemUpdateSchema.load data);
  bullet_item ← get_record item_id;
  match bullet_item with
  | None => raise (ResourceNotFoundError "ITEM001")
  | Some bullet_item =>
      updated_item ← update_record bullet_item
        (BulletItemUpdateSchema.assign validated_data) now;
      mret (BulletItemSchema.dump updated_item)
  end.

Definition delete_bullet_item (item_id : UUID) (now : datetime)
    : M Database json :=
  bullet_item ← get_record item_id;
  match bullet_item with
  | None => raise (ResourceNotFoundError "ITEM001")
  | Some bullet_item =>
      _ ← delete_record bullet_item now;
      mret (JObj [("message", JStr "Bullet item deleted successfully")])
  end.

(** [items.sort(key=lambda x: x.order)]: a stable sort. *)
Fixpoint insert_by_order (x : BulletItem.t) (l : list BulletItem.t)
    : list BulletItem.t :=
  match l with
  | [] => [x]
  | y :: l' =>
      if (BulletItem.order x <=? BulletItem.order y)%Z then x :: l
      else y :: insert_by_order x l'
  end.

Definition sort_by_order (items : list BulletItem.t) : list BulletItem.t :=
  foldr insert_by_order [] items.

Definition list_specification_items (spec_id : UUID)
    : M Database (list json) :=
  items ← list_records (by_spec spec_id);
  mret (BulletItemSchema.dump <$> sort_by_order items).

(** [{str(item.id): item for item in existing_items}]: the objects the
    call works on, by key; a later item replaces an earlier one. *)
Definition existing_map_of (existing_items : list BulletItem.t)
    : gmap string BulletItem.t :=
  foldl (λ m item, <[BulletItem.id item := item]> m) ∅ existing_items.

(** [str(v)] as a key of [existing_map].  The keys are canonical UUID
    texts, which [str] yields for no JSON value but that text itself. *)
Definition str_key (v : json) : option string :=
  match v with
  | JStr s => Some s
  | _ => None
  end.

Definition contains (existing_map : gmap string BulletItem.t) (v : json)
    : bool :=
  match str_key v with
  | Some key => bool_decide (is_Some (existing_map !! key))
  | None => false
  end.

(** The body of the first loop. *)
Definition validate_update (existing_map : gmap string BulletItem.t)
    (update : list (string * json)) : result unit :=
  let item_id := dict_get update "id" in
  if negb (truthy item_id) || negb (contains existing_map item_id) then
    Raise (ResourceNotFoundError "ITEM001")
  else
    let new_order := dict_get update "order" in
    match int_value new_order with
    | None =>
        Raise (ValidationError "ITEM002"
          [("order", ["Order must be between 0 and 9"])])
    | Some z =>
        if ((z <? 0) || (9 <? z))%Z then
          Raise (ValidationError "ITEM002"
            [("order", ["Order must be between 0 and 9"])])
        else Ok tt
    end.

Fixpoint validate_updates (existing_map : gmap string BulletItem.t)
    (order_updates : list (list (string * json))) : result unit :=
  match order_updates with
  | [] => Ok tt
  | update :: rest =>
      _ ← validate_update existing_map update;
      validate_updates existing_map rest
  end.

(** [existing_map[str(v)]] *)
Definition item_of (existing_map : gmap string BulletItem.t) (v : json)
    : result (string * BulletItem.t) :=
  match str_key v with
  | Some key =>
      match existing_map !! key with
      | Some item => Ok (key, item)
      | None => Raise (KeyError key)
      end
  | None => Raise (KeyError "")
  end.

(** [update_record(item, {'order': v})]; the integer column takes the
    value of a Python [int] and refuses anything else. *)
Definition update_order (item : BulletItem.t) (v : json) (now : datetime)
    : M Database BulletItem.t :=
  match int_value v with
  | Some z => update_record item (BulletItem.set_order z) now
  | None => raise DatabaseError
  end.

(** The second loop.  [update_record] mutates the object held by
    [existing_map] and returns that same object, so [updated_items]
    holds references (keys), not copies. *)
Fixpoint update_loop (now : datetime)
    (order_updates : list (list (string * json)))
    (existing_map : gmap string BulletItem.t) (updated_items : list string)
    : M Database (gmap string BulletItem.t * list string) :=
  match order_updates with
  | [] => mret (existing_map, updated_items)
  | update :: rest =>
      item_id ← lift (subscript update "id");
      entry ← lift (item_of existing_map item_id);
      new_order ← lift (subscript update "order");
      updated_item ← update_order entry.2 new_order now;
      update_loop now rest (<[entry.1 := updated_item]> existing_map)
        (updated_items ++ [entry.1])
  end.

(** [schema.dump(updated_items, many=True)], reading each referenced
    object in the state the loop left it in. *)
Fixpoint dump_many (existing_map : gmap string BulletItem.t)
    (updated_items : list string) : result (list json) :=
  match updated_items with
  | [] => Ok []
  | key :: rest =>
      match existing_map !! key with
      | None => Raise (KeyError key)
      | Some item =>
          dumped ← dump_many existing_map rest;
          mret (BulletItemSchema.dump item :: dumped)
      end
  end.

(** [order_updates] is a list of dicts, as its annotation says, so the
    [isinstance(order_updates, list)] test holds. *)
Definition reorder_items (spec_id : UUID)
    (order_updates : list (list (string * json))) (now : datetime)
    : M Database (list json) :=
  existing_items ← list_records (by_spec spec_id);
  let existing_map := existing_map_of existing_items in
  _ ← lift (validate_updates existing_map order_updates);
  updated ← update_loop now order_updates existing_map [];
  lift (dump_many updated.1 updated.2).

End BulletItemService.

(** ** The cache ([app/cache/keys.py], [app/cache/redis.py]) *)

Definition DEFAULT_TTL : Z := CACHE_TTL.
Definition KEY_SEPARATOR : string := ":".
Definition PROJECT_PREFIX : string := "project".
Definition SPEC_PREFIX : string := "spec".

(** [make_key] on a single component. *)
Definition make_key (prefix : string) (component : string) : string :=
  prefix +:+ KEY_SEPARATOR +:+ component.
Definition make_project_key (project_id : string) : string :=
  make_key PROJECT_PREFIX project_id.
Definition make_spec_key (spec_id : string) : string :=
  make_key SPEC_PREFIX spec_id.

Definition RATE_LIMIT_PREFIX : string := "rate".

(** [make_key] on a list of components:
    [KEY_SEPARATOR.join([prefix] + components)]. *)
Definition make_key_of_list (prefix : string) (components : list string)
    : string :=
  String.concat KEY_SEPARATOR (prefix :: components).

Definition make_rate_limit_key (user_id endpoint : string) : string :=
  make_key_of_list RATE_LIMIT_PREFIX [user_id; endpoint].

(** The Redis database behind the client of [RedisCache].  [entries]
    holds the values as [json.dumps] wrote them, which [json.loads] reads
    back unchanged.
    [faults] is the fate of the coming calls to the backend, one flag per
    call: [true] when the call raises (connection lost, timeout); past the
    end of the list every call succeeds.  Expiry is not modelled: what is
    proved holds for every content of the cache. *)
Module RedisCache.
Record t := mk {
  entries : gmap string json;
  faults : list bool
}.

(** One call of the client: [Raise] when the backend fails. *)
Definition call {A} (op : gmap string json → A * gmap string json)
    : M RedisCache.t A := λ c,
  match faults c with
  | true :: rest => (Raise DatabaseError, mk (entries c) rest)
  | false :: rest =>
      let '(a, es) := op (entries c) in (Ok a, mk es rest)
  | [] =>
      let '(a, es) := op (entries c) in (Ok a, mk es [])
  end.

(** [RedisCache.get]: the stored value, or [None]. *)
Definition get (key : string) : M RedisCache.t json :=
  call (λ es, (default JNull (es !! key), es)).

(** [RedisCache.set]; the time to live only bounds how long the entry
    stays. *)
Definition set (key : string) (value : json) : M RedisCache.t bool :=
  call (λ es, (true, <[key := value]> es)).

(** [RedisCache.clear]: [flushdb]. *)
Definition clear : M RedisCache.t bool :=
  call (λ _, (true, ∅)).
(** [RedisCache.delete]: whether the key was there. *)
Definition delete (key : string) : M t bool :=
  call (λ es, (bool_decide (is_Some (es !! key)), base.delete key es)).

(** [INCR] on the stored text: a missing key counts from 0, the text of a
    64-bit integer is incremented, anything else (and an overflow) is
    refused by the server.  The stored texts are those of [json.dumps], so
    only a JSON integer is the text of an integer. *)
Definition incr (key : string) (es : gmap string json)
    : option (Z * gmap string json) :=
  match es !! key with
  | None => Some (1, <[key := JInt 1]> es)%Z
  | Some (JInt z) =>
      if ((- 2 ^ 63 <=? z) && (z <? 2 ^ 63 - 1))%Z
      then Some (z + 1, <[key := JInt (z + 1)]> es)%Z
      else None
  | Some _ => None
  end.

(** [RedisCache.increment]: the pipeline is one round trip to the
    backend; a refused [INCR] raises like a failed connection.  The expiry
    set on the key is not modelled. *)
Definition increment (key : string) : M t Z := λ c,
  match faults c with
  | true :: rest => (Raise DatabaseError, mk (entries c) rest)
  | fs =>
      match incr key (entries c) with
      | Some (n, es) => (Ok n, mk es (tail fs))
      | None => (Raise DatabaseError, mk (entries c) (tail fs))
      end
  end.

End RedisCache.

(** ** [app/services/cache_service.py] *)

Module CacheService.
Definition get_project (project_id : string) : M RedisCache.t json :=
  RedisCache.get (make_project_key project_id).
Definition set_project (project_id : string) (project_data : json)
    : M RedisCache.t bool :=
  RedisCache.set (make_project_key project_id) project_data.
Definition get_specification (spec_id : string) : M RedisCache.t json :=
  RedisCache.get (make_spec_key spec_id).
Definition set_specification (spec_id : string) (spec_data : json)
    : M RedisCache.t bool :=
  RedisCache.set (make_spec_key spec_id) spec_data.
Definition clear_cache : M RedisCache.t bool :=
  try_except RedisCache.clear (λ _, DatabaseError).
Definition check_rate_limit (user_id endpoint : string) (limit : Z)
    : M RedisCache.t bool :=
  try_except (
    counter ← RedisCache.increment (make_rate_limit_key user_id endpoint);
    mret (counter <=? limit)%Z) (λ _, DatabaseError).
End CacheService.

(** ** [app/middleware/rate_limiter.py] *)

Module RateLimiter.
Definition RATE_LIMIT_REQUESTS : Z := 100.
Definition RATE_LIMIT_WINDOW : Z := 60.

(** The limiter's settings; its cache is the state it runs in. *)
Record t := mk {
  max_requests : Z;
  window : Z
}.

(** [x or default] on an optional integer: [None] and [0] give the
    default. *)
Definition or_default (x : option Z) (default : Z) : Z :=
  match x with
  | Some n => if (n =? 0)%Z then default else n
  | None => default
  end.

Definition __init__ (max_requests window : option Z) : t :=
  mk (or_default max_requests RATE_LIMIT_REQUESTS)
     (or_default window RATE_LIMIT_WINDOW).

Definition check_rate_limit (self : t) (user_id endpoint : string)
    : M RedisCache.t bool :=
  current_count ← RedisCache.increment (make_rate_limit_key user_id endpoint);
  mret (current_count <=? max_requests self)%Z.
End RateLimiter.

(** ** Services over the store and the cache *)

Record World := mkWorld {
  db : Database;
  cache : RedisCache.t
}.

Definition on_db {A} (m : M Database A) : M World A := λ w,
  let '(r, d) := m (db w) in (r, mkWorld d (cache w)).
Definition on_cache {A} (m : M RedisCache.t A) : M World A := λ w,
  let '(r, c) := m (cache w) in (r, mkWorld (db w) c).

(** [v[k]] for a string [k]: only a dict has string keys. *)
Definition getitem (v : json) (k : string) : result json :=
  match v with
  | JObj d => subscript d k
  | _ => Raise TypeError
  end.

(** [v != s] for a Python [str] [s]. *)
Definition ne_str (v : json) (s : string) : bool :=
  match v with
  | JStr s' => negb (bool_decide (s' = s))
  | _ => true
  end.

Module ProjectSchema.
Definition dump (project : Project.t) : json :=
  JObj [("id", JStr (Project.id project));
        ("title", JStr (Project.title project));
        ("user_id", JStr (Project.user_id project));
        ("created_at", JStr (Project.created_at project));
        ("updated_at", JStr (Project.updated_at project));
        ("is_deleted", JBool (Project.is_deleted project))].
End ProjectSchema.

(** [ProjectCreateSchema.validate] on a body whose [title] the
    marshmallow field has read: the hook catches marshmallow's
    [ValidationError] only, so the application's [ValidationError] raised
    by [validate_project_title] leaves [validate]; otherwise there is no
    error to report. *)
Module ProjectCreateSchema.
Record data := mk {
  title : string
}.

Definition validate (d : data) : result (list (string * list string)) :=
  _ ← validate_project_title (title d);
  mret [].
End ProjectCreateSchema.

(** [app/services/project_service.py] *)
Module ProjectService.
Definition get_project (project_id : UUID) (user_id : UUID) : M World json :=
  cached_project ← on_cache (CacheService.get_project project_id);
  if truthy cached_project then
    owner ← lift (getitem cached_project "user_id");
    if ne_str owner user_id then raise (AuthorizationError "PRJ002")
    else mret cached_project
  else
    project ← on_db (get_record project_id);
    match project with
    | None => raise (ResourceNotFoundError "PRJ001")
    | Some project =>
        if negb (Project.validate_ownership project user_id) then
          raise (AuthorizationError "PRJ002")
        else
          let project_dict := ProjectSchema.dump project in
          _ ← on_cache (CacheService.set_project project_id project_dict);
          mret project_dict
    end.

Definition delete_project (project_id : UUID) (user_id : UUID)
    (now : datetime) : M World unit :=
  project ← on_db (get_record project_id);
  match project with
  | None => raise (ResourceNotFoundError "PRJ001")
  | Some project =>
      if negb (Project.validate_ownership project user_id) then
        raise (AuthorizationError "PRJ002")
      else
        _ ← on_db (delete_record project now);
        _ ← on_cache (CacheService.set_project project_id JNull);
        mret tt
  end.

Definition create_project (user_id : UUID)
    (project_data : ProjectCreateSchema.data) (new_id : UUID) (now : datetime)
    : M World json :=
  errors ← lift (ProjectCreateSchema.validate project_data);
  if negb (bool_decide (errors = [])) then
    raise (ValidationError "PRJ001" errors)
  else
    project ← on_db (create_record
      (Project.__init__ new_id now (ProjectCreateSchema.title project_data)
         user_id));
    let project_dict := ProjectSchema.dump project in
    _ ← on_cache (CacheService.set_project (Project.id project) project_dict);
    mret project_dict.

Definition list_user_projects (user_id : UUID) : M World (list json) :=
  projects ← on_db (list_records
    [λ project : Project.t, bool_decide (Project.user_id project = user_id)]);
  mret (ProjectSchema.dump <$> projects).
End ProjectService.

(** A call per element, in order. *)
Fixpoint mapM {S A B} (f : A → M S B) (l : list A) : M S (list B) :=
  match l with
  | [] => mret []
  | x :: l' =>
      y ← f x;
      ys ← mapM f l';
      mret (y :: ys)
  end.

(** [app/services/specification_service.py] *)
Module SpecificationService.

(** [except ResourceNotFoundError: raise / except Exception: raise
    DatabaseError()] *)
Definition reraise (e : exn) : exn :=
  match e with
  | ResourceNotFoundError code => ResourceNotFoundError code
  | _ => DatabaseError
  end.

Section schema.
(** [SpecificationSchema.dump] serialises, besides the columns, the
    [bullet_items] relationship, which the ORM loads from the store
    when it is read; that load is outside the repository, so the
    serialiser is a parameter. *)
Context (schema_dump : Specification.t → M Database json).

Definition get_specification (spec_id : UUID) : M World json :=
  try_except (
    cached_spec ← on_cache (CacheService.get_specification spec_id);
    if truthy cached_spec then mret cached_spec
    else
      specification ← on_db (get_record spec_id);
      match specification with
      | None => raise (ResourceNotFoundError "SPEC001")
      | Some specification =>
          spec_dict ← on_db (schema_dump specification);
          _ ← on_cache (CacheService.set_specification spec_id spec_dict);
          mret spec_dict
      end) reraise.

(** [schema.dump(specifications, many=True)] serialises the records one
    by one. *)
Definition list_project_specifications (project_id : UUID)
    : M World (list json) :=
  try_except (
    specifications ← on_db (list_records
      [λ spec : Specification.t,
         bool_decide (Specification.project_id spec = project_id)]);
    specs_dict ← on_db (mapM schema_dump specifications);
    _ ← on_cache (CacheService.set_project project_id
           (JObj [("specifications", JArr specs_dict)]));
    mret specs_dict) (λ _, DatabaseError).
End schema.

Definition delete_specification (spec_id : UUID) (now : datetime)
    : M World unit :=
  try_except (
    specification ← on_db (get_record (T := Specification.t) spec_id);
    match specification with
    | None => raise (ResourceNotFoundError "SPEC001")
    | Some specification =>
        _ ← on_db (delete_record specification now);
        _ ← on_cache CacheService.clear_cache;
        mret tt
    end) reraise.
End SpecificationService.

(** * Properties *)

(** ** Active items and the operations' footprint *)

(** An item counts for a specification when it belongs to it and is not
    soft deleted. *)
Definition is_active (spec_id : UUID) (item : BulletItem.t) : bool :=
  negb (BulletItem.is_deleted item)
  && bool_decide (BulletItem.spec_id item = spec_id).

Definition active_items (spec_id : UUID) (d : Database) : list BulletItem.t :=
  List.filter (is_active spec_id) (bullet_items d).

Definition active_count (spec_id : UUID) (d : Database) : nat :=
  length (active_items spec_id d).

(** The create and delete requests of a client session. *)
Inductive request :=
| Create (data : BulletItemCreateSchema.data) (new_id : UUID) (now : datetime)
| Delete (item_id : UUID) (now : datetime).

Definition serve (d : Database) (r : request) : Database :=
  match r with
  | Create data new_id now =>
      (BulletItemService.create_bullet_item data new_id now d).2
  | Delete item_id now =>
      (BulletItemService.delete_bullet_item item_id now d).2
  end.

Definition serve_all (rs : list request) (d : Database) : Database :=
  foldl serve d rs.

(** Input that passes [BulletItemCreateSchema]. *)
Definition valid_input (data : BulletItemCreateSchema.data) : Prop :=
  strip (BulletItemCreateSchema.content data) ≠ ""
  ∧ (Z.of_nat (String.length (strip (BulletItemCreateSchema.content data)))
     ≤ 5000)%Z
  ∧ (0 ≤ BulletItemCreateSchema.order data ≤ 9)%Z.

(** ** Vocabulary for reorder payloads *)

(** [v] is the text of the id of an active bullet item of the
    specification (the text of a UUID is never empty). *)
Definition names_active_item (spec_id : UUID) (d : Database) (v : json) : Prop :=
  ∃ item, item ∈ bullet_items d
    ∧ BulletItem.is_deleted item = false
    ∧ BulletItem.spec_id item = spec_id
    ∧ BulletItem.id item ≠ ""
    ∧ v = JStr (BulletItem.id item).

(** [v] is a Python [int] between 0 and 9. *)
Definition order_in_range (v : json) : Prop :=
  ∃ z, int_value v = Some z ∧ (0 ≤ z ≤ 9)%Z.

(** The entry passes the checks made on it alone. *)
Definition entry_passes (spec_id : UUID) (d : Database)
    (update : list (string * json)) : Prop :=
  names_active_item spec_id d (dict_get update "id")
  ∧ order_in_range (dict_get update "order").

Definition NotFound : exn := ResourceNotFoundError "ITEM001".
Definition InvalidOrder : exn :=
  ValidationError "ITEM002" [("order", ["Order must be between 0 and 9"])].
Definition CapacityExceeded : exn :=
  ValidationError "ITEM001"
    [("items", ["Maximum number of bullet items (10) reached"])].

(** The write one entry makes, to one row and to the table. *)
Definition row_step (now : datetime) (update : list (string * json))
    (r : BulletItem.t) : BulletItem.t :=
  match BulletItemService.str_key (dict_get update "id"),
        int_value (dict_get update "order") with
  | Some key, Some z =>
      if decide (BulletItem.id r = key)
      then flush_row now (BulletItem.set_order z) r else r
  | _, _ => r
  end.

Definition row_final (now : datetime) (order_updates : list (list (string * json)))
    (r : BulletItem.t) : BulletItem.t :=
  foldl (λ r update, row_step now update r) r order_updates.

Definition apply_update (now : datetime) (rows : list BulletItem.t)
    (update : list (string * json)) : list BulletItem.t :=
  match BulletItemService.str_key (dict_get update "id"),
        int_value (dict_get update "order") with
  | Some key, Some z =>
      update_where_pk key (flush_row now (BulletItem.set_order z)) rows
  | _, _ => rows
  end.

(** The loop's objects mirror rows of the table, under their own id. *)
Definition heap_ok (heap : gmap string BulletItem.t) (rows : list BulletItem.t)
    : Prop :=
  ∀ key item, heap !! key = Some item →
    BulletItem.id item = key ∧ ∃ r, r ∈ rows ∧ BulletItem.id r = key.

Definition writable (heap : gmap string BulletItem.t)
    (update : list (string * json)) : Prop :=
  ∃ key v z, dict_lookup update "id" = Some (JStr key)
    ∧ is_Some (heap !! key)
    ∧ dict_lookup update "order" = Some v
    ∧ int_value v = Some z.

(** The orders carried by a payload, entry by entry. *)
Definition payload_orders (order_updates : list (list (string * json)))
    : list (option Z) :=
  (λ update, int_value (dict_get update "order")) <$> order_updates.

(** The world once the backend calls that consumed the head of [faults]
    are over: same store, same entries, [rest] still to come. *)
Definition after_faults (rest : list bool) (w : World) : World :=
  mkWorld (db w) (RedisCache.mk (RedisCache.entries (cache w)) rest).

(** ** Concrete stores and payloads *)

Module Examples.
Definition item (i : string) (spec : string) (o : Z) : BulletItem.t :=
  BulletItem.mk i "2024-01-01T00:00:00" "2024-01-01T00:00:00" false spec
    "text" o.

Definition alice : User.t :=
  User.mk "alice" "2024-01-01T00:00:00" "2024-01-01T00:00:00" false
    "gAAAAABl" "Alice" None.

Definition alice_project : Project.t :=
  Project.mk "P" "2024-01-01T00:00:00" "2024-01-01T00:00:00" false "proj"
    "alice".

Definition spec_S : Specification.t :=
  Specification.mk "S" "2024-01-01T00:00:00" "2024-01-01T00:00:00" false "P"
    "spec".

(** One project, one specification, three items with orders 0, 1, 2. *)
Definition db3 : Database :=
  mkDatabase [alice] [alice_project] [spec_S]
    [item "a" "S" 0; item "b" "S" 1; item "c" "S" 2].

(** The same with ten active items. *)
Definition db10 : Database :=
  mkDatabase [alice] [alice_project] [spec_S]
    [item "a" "S" 0; item "b" "S" 1; item "c" "S" 2; item "d" "S" 3;
     item "e" "S" 4; item "f" "S" 5; item "g" "S" 6; item "h" "S" 7;
     item "i" "S" 8; item "j" "S" 9].

Definition entry (i : string) (o : Z) : list (string * json) :=
  [("id", JStr i); ("order", JInt o)].

Definition healthy (es : gmap string json) : RedisCache.t :=
  RedisCache.mk es [].
Definition failing (es : gmap string json) : RedisCache.t :=
  RedisCache.mk es [true].

Definition now : datetime := "2024-06-01T12:00:00".
End Examples.

(** ** Vocabulary for the other operations *)

(** What the setters and the table accessors of a model satisfy. *)
Class BaseLaws (T : Type) `{Base T} : Prop := {
  table_set_table rows d : table (set_table rows d) = rows;
  pk_soft_delete now r : pk (soft_delete now r) = pk r;
  deleted_soft_delete now r : deleted (soft_delete now r) = true
}.

#[global] Instance Project_BaseLaws : BaseLaws Project.t.
Proof. by split. Qed.
#[global] Instance Specification_BaseLaws : BaseLaws Specification.t.
Proof. by split. Qed.
#[global] Instance BulletItem_BaseLaws : BaseLaws BulletItem.t.
Proof. by split. Qed.

(** Every request that writes bullet items. *)
Inductive operation :=
| OpCreate (data : BulletItemCreateSchema.data) (new_id : UUID) (now : datetime)
| OpUpdate (item_id : UUID) (data : BulletItemUpdateSchema.data) (now : datetime)
| OpDelete (item_id : UUID) (now : datetime)
| OpReorder (spec_id : UUID) (order_updates : list (list (string * json)))
    (now : datetime).

Definition perform (d : Database) (op : operation) : Database :=
  match op with
  | OpCreate data new_id now =>
      (BulletItemService.create_bullet_item data new_id now d).2
  | OpUpdate item_id data now =>
      (BulletItemService.update_bullet_item item_id data now d).2
  | OpDelete item_id now =>
      (BulletItemService.delete_bullet_item item_id now d).2
  | OpReorder spec_id order_updates now =>
      (BulletItemService.reorder_items spec_id order_updates now d).2
  end.

Definition perform_all (ops : list operation) (d : Database) : Database :=
  foldl perform d ops.

(** The columns no update of a bullet item writes. *)
Definition same_identity (r r' : BulletItem.t) : Prop :=
  BulletItem.id r' = BulletItem.id r
  ∧ BulletItem.created_at r' = BulletItem.created_at r
  ∧ BulletItem.is_deleted r' = BulletItem.is_deleted r
  ∧ BulletItem.spec_id r' = BulletItem.spec_id r.

(** The primary key of the bullet items holds. *)
Definition unique_ids (d : Database) : Prop :=
  NoDup (BulletItem.id <$> bullet_items d).

(** Input that passes [BulletItemUpdateSchema]. *)
Definition valid_update (data : BulletItemUpdateSchema.data) : Prop :=
  (∀ c, BulletItemUpdateSchema.content data = Some c →
     strip c ≠ "" ∧ (Z.of_nat (String.length (strip c)) ≤ 5000)%Z)
  ∧ (∀ o, BulletItemUpdateSchema.order data = Some o → (0 ≤ o ≤ 9)%Z).

(** The state of the cache after [n] more requests of one client to one
    endpoint. *)
Fixpoint after_requests (limiter : RateLimiter.t) (user_id endpoint : string)
    (n : nat) (c : RedisCache.t) : RedisCache.t :=
  match n with
  | O => c
  | S n' =>
      (RateLimiter.check_rate_limit limiter user_id endpoint
         (after_requests limiter user_id endpoint n' c)).2
  end.

(** No [:] in the text. *)
Definition colon_free (s : string) : Prop :=
  ":"%char ∉ String.list_ascii_of_string s.

(** What no request changes in a row of the table: its id, its creation
    time and its specification; and a deleted row stays deleted. *)
Definition keeps (r r' : BulletItem.t) : Prop :=
  BulletItem.id r' = BulletItem.id r
  ∧ BulletItem.created_at r' = BulletItem.created_at r
  ∧ BulletItem.spec_id r' = BulletItem.spec_id r
  ∧ (BulletItem.is_deleted r = true → BulletItem.is_deleted r' = true).

(** The order of a listing: by the [order] column, ascending. *)
Definition in_order (a b : BulletItem.t) : Prop :=
  (BulletItem.order a <= BulletItem.order b)%Z.

(** The items of a list that carry a given [order] value, in list order. *)
Definition with_order (o : Z) (items : list BulletItem.t)
    : list BulletItem.t :=
  List.filter (λ item, (BulletItem.order item =? o)%Z) items.

Ltac unfold_m :=
  unfold mbind, M_bind, mret, M_ret, result_bind, result_ret,
    lift, raise, gets, try_except, on_db, on_cache in *.

Lemma list_records_by_spec spec_id d :
  list_records (BulletItemService.by_spec spec_id) d
  = (Ok (active_items spec_id d), d).
Proof.
  unfold list_records, gets, active_items. do 2 f_equal.
  apply List.filter_ext. intros r. unfold is_active. simpl.
  by rewrite andb_true_r.
Qed.

Lemma strip_empty : strip "" = "".
Proof. reflexivity. Qed.

Lemma string_length_0 (s : string) : String.length s = 0%nat → s = "".
Proof. by destruct s. Qed.

Lemma load_valid data :
  valid_input data → BulletItemCreateSchema.load data = Ok data.
Proof.
  intros (Hne & Hlen & Hlo & Hhi).
  unfold BulletItemCreateSchema.load, BulletItemCreateSchema.validate_content,
    BulletItemCreateSchema.validate_order, validate_bullet_item.
  unfold_m.
  case_bool_decide as Hc.
  { rewrite Hc in Hne. by rewrite strip_empty in Hne. }
  destruct (String.length _ =? 0)%nat eqn:E.
  { apply Nat.eqb_eq, string_length_0 in E. done. }
  unfold MAX_CONTENT_LENGTH, MAX_BULLET_ITEMS.
  destruct (5000 <? _)%Z eqn:E2; [apply Z.ltb_lt in E2; lia|].
  simpl.
  destruct (_ <? 0)%Z eqn:E3; [apply Z.ltb_lt in E3; lia|].
  destruct (9 <? _)%Z eqn:E4; [apply Z.ltb_lt in E4; lia|].
  done.
Qed.

Lemma active_count_app spec_id u p s rows item :
  active_count spec_id (mkDatabase u p s (rows ++ [item]))
  = (active_count spec_id (mkDatabase u p s rows)
     + (if is_active spec_id item then 1 else 0))%nat.
Proof.
  unfold active_count, active_items. simpl.
  rewrite List.filter_app, length_app. simpl.
  by destruct (is_active spec_id item).
Qed.

(** What [create_bullet_item] does to the store: nothing, or one more
    active row for the specification, which was below the cap. *)
Lemma create_bullet_item_footprint data new_id now d :
  let d' := (BulletItemService.create_bullet_item data new_id now d).2 in
  d' = d
  ∨ ∃ item,
      d' = mkDatabase (users d) (projects d) (specifications d)
             (bullet_items d ++ [item])
      ∧ BulletItem.spec_id item = BulletItemCreateSchema.spec_id data
      ∧ (active_count (BulletItemCreateSchema.spec_id data) d < 10)%nat.
Proof.
  unfold BulletItemService.create_bullet_item. unfold_m.
  destruct (BulletItemCreateSchema.load data) as [vd|e] eqn:Hload; [|by left].
  assert (vd = data) as ->.
  { revert Hload. unfold BulletItemCreateSchema.load. unfold_m.
    destruct (BulletItemCreateSchema.validate_content _); [|done].
    destruct (BulletItemCreateSchema.validate_order _); [|done].
    by intros [= ->]. }
  rewrite list_records_by_spec.
  fold (active_count (BulletItemCreateSchema.spec_id data) d).
  destruct (10 <=? _)%nat eqn:Hcap; [by left|].
  apply Nat.leb_gt in Hcap.
  unfold create_record, BulletItem.__init__.
  destruct (_ || _); [by left|].
  destruct (negb _); [by left|].
  destruct (select_pk _ _); [by left|].
  destruct (references _ _); [|by left].
  right. eexists. simpl. split; [done|]. split; [done|]. done.
Qed.

Lemma update_where_pk_soft_delete_count spec_id key now rows :
  (length (List.filter (is_active spec_id)
     (update_where_pk key (soft_delete now) rows))
   ≤ length (List.filter (is_active spec_id) rows))%nat.
Proof.
  induction rows as [|r rows IH]; [done|].
  unfold update_where_pk in *. rewrite fmap_cons. cbn [List.filter].
  destruct (decide (pk r = key)).
  - replace (is_active spec_id (soft_delete now r)) with false by done.
    destruct (is_active spec_id r); cbn [length]; lia.
  - destruct (is_active spec_id r); cbn [length]; lia.
Qed.

(** What [delete_bullet_item] does to the store: nothing, or a soft delete
    of the rows with that id. *)
Lemma delete_bullet_item_footprint item_id now d :
  let d' := (BulletItemService.delete_bullet_item item_id now d).2 in
  d' = d
  ∨ d' = mkDatabase (users d) (projects d) (specifications d)
           (update_where_pk item_id (soft_delete now) (bullet_items d)).
Proof.
  unfold BulletItemService.delete_bullet_item, get_record. unfold_m.
  destruct (List.find _ _) as [item|] eqn:Hfind; [|by left].
  apply List.find_some in Hfind as [_ Hp].
  apply andb_true_iff in Hp as [Hp _]. apply bool_decide_eq_true in Hp.
  unfold delete_record. simpl in *.
  destruct (select_pk _ _); [|by left].
  right. simpl. by rewrite Hp.
Qed.

Lemma serve_keeps_cap spec_id d r :
  (active_count spec_id d ≤ 10)%nat →
  (active_count spec_id (serve d r) ≤ 10)%nat.
Proof.
  intros Hcap. destruct r as [data new_id now|item_id now]; simpl.
  - destruct (create_bullet_item_footprint data new_id now d)
      as [->|(item & -> & Hspec & Hlt)]; [done|].
    destruct d as [us ps ss rows];
      cbn [users projects specifications bullet_items] in *.
    rewrite active_count_app.
    destruct (is_active spec_id item) eqn:Hact; [|lia].
    apply andb_true_iff in Hact as [_ Hs]. apply bool_decide_eq_true in Hs.
    rewrite Hspec in Hs. rewrite <- Hs. lia.
  - destruct (delete_bullet_item_footprint item_id now d) as [->| ->]; [done|].
    unfold active_count, active_items in *. simpl.
    etrans; [apply update_where_pk_soft_delete_count|done].
Qed.

(** C1.  Starting from a store in which specification [spec_id] has at most
    10 active bullet items, it still has at most 10 after any sequence of
    [create_bullet_item] and [delete_bullet_item] calls, whatever their
    arguments and outcomes. *)
Theorem active_count_never_exceeds_cap (spec_id : UUID) (rs : list request)
    (d : Database) :
  (active_count spec_id d ≤ 10)%nat →
  (active_count spec_id (serve_all rs d) ≤ 10)%nat.
Proof.
  revert d. induction rs as [|r rs IH]; intros d Hcap; [done|].
  simpl. apply IH. by apply serve_keeps_cap.
Qed.

(** C2.  When the specification already has 10 active bullet items,
    [create_bullet_item] on valid input raises the capacity error
    [ValidationError('ITEM001')] ("Maximum items reached") and returns the
    store as it was: no row is added and no row is changed.  The validator
    [validate_bullet_items_count] refuses the same count with the same
    code. *)
Theorem create_at_capacity_fails (data : BulletItemCreateSchema.data)
    (new_id : UUID) (now : datetime) (d : Database) :
  valid_input data →
  active_count (BulletItemCreateSchema.spec_id data) d = 10%nat →
  BulletItemService.create_bullet_item data new_id now d
  = (Raise (ValidationError "ITEM001"
       [("items", ["Maximum number of bullet items (10) reached"])]), d)
  ∧ validate_bullet_items_count
      (Z.of_nat (active_count (BulletItemCreateSchema.spec_id data) d))
    = Raise (ValidationError "ITEM001"
        [("count", ["Cannot exceed maximum of 10 bullet items"])]).
Proof.
  intros Hvalid Hcount. split.
  - unfold BulletItemService.create_bullet_item. unfold_m.
    rewrite (load_valid _ Hvalid), list_records_by_spec.
    fold (active_count (BulletItemCreateSchema.spec_id data) d).
    by rewrite Hcount.
  - by rewrite Hcount.
Qed.

(** A witness of C1: ten items, one more refused, one deleted, one
    created. *)
Lemma active_count_never_exceeds_cap_witness :
  (active_count "S"
     (serve_all
        [Create (BulletItemCreateSchema.mk "k" 3 "S") "k" Examples.now;
         Delete "a" Examples.now;
         Create (BulletItemCreateSchema.mk "l" 0 "S") "l" Examples.now]
        Examples.db10) ≤ 10)%nat.
Proof.
  apply active_count_never_exceeds_cap. vm_compute. lia.
Defined.

Lemma create_at_capacity_fails_witness :
  BulletItemService.create_bullet_item
    (BulletItemCreateSchema.mk " eleventh " 3 "S") "k" Examples.now
    Examples.db10
  = (Raise CapacityExceeded, Examples.db10)
  ∧ validate_bullet_items_count (Z.of_nat (active_count "S" Examples.db10))
    = Raise (ValidationError "ITEM001"
        [("count", ["Cannot exceed maximum of 10 bullet items"])]).
Proof.
  apply (create_at_capacity_fails
           (BulletItemCreateSchema.mk " eleventh " 3 "S") "k" Examples.now
           Examples.db10).
  - unfold valid_input. vm_compute. repeat split; congruence.
  - reflexivity.
Defined.

(** ** Soft delete *)

Lemma elem_of_insert_by_order x y l :
  x ∈ BulletItemService.insert_by_order y l ↔ x = y ∨ x ∈ l.
Proof.
  induction l as [|z l IH]; simpl.
  - by rewrite elem_of_cons.
  - destruct (_ <=? _)%Z.
    + by rewrite elem_of_cons.
    + rewrite !elem_of_cons, IH. tauto.
Qed.

Lemma elem_of_sort_by_order x l :
  x ∈ BulletItemService.sort_by_order l ↔ x ∈ l.
Proof.
  unfold BulletItemService.sort_by_order.
  induction l as [|y l IH]; simpl; [done|].
  by rewrite elem_of_insert_by_order, elem_of_cons, IH.
Qed.

Lemma elem_of_active_items spec_id d item :
  item ∈ active_items spec_id d
  ↔ item ∈ bullet_items d
    ∧ BulletItem.is_deleted item = false
    ∧ BulletItem.spec_id item = spec_id.
Proof.
  unfold active_items. rewrite !list_elem_of_In, List.filter_In.
  unfold is_active. rewrite andb_true_iff, negb_true_iff, bool_decide_eq_true.
  done.
Qed.

Lemma list_specification_items_eq spec_id d :
  BulletItemService.list_specification_items spec_id d
  = (Ok (BulletItemSchema.dump
           <$> BulletItemService.sort_by_order (active_items spec_id d)), d).
Proof.
  unfold BulletItemService.list_specification_items. unfold_m.
  by rewrite list_records_by_spec.
Qed.

Lemma find_is_Some {A} (p : A → bool) (l : list A) (x : A) :
  x ∈ l → p x = true → ∃ y, List.find p l = Some y ∧ p y = true.
Proof.
  intros Hin Hp. destruct (List.find p l) as [y|] eqn:Hfind.
  - exists y. split; [done|]. by apply List.find_some in Hfind as [_ ?].
  - apply list_elem_of_In in Hin.
    pose proof (List.find_none _ _ Hfind _ Hin). congruence.
Qed.

Lemma elem_of_update_where_pk `{Base T} key (f : T → T) (rows : list T) r :
  r ∈ rows → pk r = key → f r ∈ update_where_pk key f rows.
Proof.
  intros Hin Hpk. unfold update_where_pk.
  apply list_elem_of_fmap. exists r. split; [|done].
  by rewrite decide_True.
Qed.

(** C6.  Deleting an active bullet item succeeds; its row is still in the
    table with [is_deleted] set, [updated_at] restamped and [id],
    [created_at], [spec_id], [content] and [order] as they were; no row is
    removed; the item was listed by [list_specification_items] before the
    call and no listed entry carries its id afterwards. *)
Theorem delete_bullet_item_soft_deletes (item : BulletItem.t) (now : datetime)
    (d : Database) :
  item ∈ bullet_items d →
  BulletItem.is_deleted item = false →
  ∃ d' listed_before listed_after,
    BulletItemService.delete_bullet_item (BulletItem.id item) now d
    = (Ok (JObj [("message", JStr "Bullet item deleted successfully")]), d')
    ∧ BulletItem.mk (BulletItem.id item) (BulletItem.created_at item) now true
        (BulletItem.spec_id item) (BulletItem.content item)
        (BulletItem.order item) ∈ bullet_items d'
    ∧ length (bullet_items d') = length (bullet_items d)
    ∧ BulletItemService.list_specification_items (BulletItem.spec_id item) d
      = (Ok listed_before, d)
    ∧ BulletItemSchema.dump item ∈ listed_before
    ∧ BulletItemService.list_specification_items (BulletItem.spec_id item) d'
      = (Ok listed_after, d')
    ∧ ∀ out, out ∈ listed_after →
        getitem out "id" ≠ Ok (JStr (BulletItem.id item)).
Proof.
  intros Hin Hact.
  unfold BulletItemService.delete_bullet_item, get_record. unfold_m.
  assert (item ∈ table (T := BulletItem.t) d) as Hin' by exact Hin.
  destruct (find_is_Some
    (λ r : BulletItem.t, bool_decide (pk r = BulletItem.id item) && negb (deleted r))
    _ item Hin') as (found & -> & Hfound).
  { simpl. rewrite Hact. by rewrite bool_decide_eq_true_2. }
  apply andb_true_iff in Hfound as [Hpk _]. apply bool_decide_eq_true in Hpk.
  unfold delete_record. rewrite Hpk.
  destruct (find_is_Some
    (λ r : BulletItem.t, bool_decide (pk r = BulletItem.id item))
    _ item Hin') as (found' & Hsel & _).
  { by apply bool_decide_eq_true_2. }
  unfold select_pk. rewrite Hsel.
  eexists _, _, _. split; [reflexivity|].
  split.
  { exact (@elem_of_update_where_pk _ BulletItem_Base (BulletItem.id item)
             (soft_delete now) (bullet_items d) item Hin eq_refl). }
  split.
  { simpl. unfold update_where_pk. by rewrite length_fmap. }
  split; [apply list_specification_items_eq|].
  split.
  { apply list_elem_of_fmap. exists item. split; [done|].
    apply elem_of_sort_by_order, elem_of_active_items. done. }
  split; [apply list_specification_items_eq|].
  intros out Hout.
  apply list_elem_of_fmap in Hout as (row & -> & Hrow).
  apply elem_of_sort_by_order, elem_of_active_items in Hrow
    as (Hrow & Hdel & _).
  simpl in Hrow. unfold update_where_pk in Hrow.
  apply list_elem_of_fmap in Hrow as (r0 & -> & _).
  simpl in Hdel |- *.
  destruct (decide (BulletItem.id r0 = BulletItem.id item)) as [Heq|Hne].
  - done.
  - change (Ok (JStr (BulletItem.id r0)) ≠ Ok (JStr (BulletItem.id item))).
    congruence.
Qed.

Lemma delete_bullet_item_soft_deletes_witness :
  ∃ d' listed_before listed_after,
    BulletItemService.delete_bullet_item "b" Examples.now Examples.db3
    = (Ok (JObj [("message", JStr "Bullet item deleted successfully")]), d')
    ∧ BulletItem.mk "b" "2024-01-01T00:00:00" Examples.now true "S" "text" 1
        ∈ bullet_items d'
    ∧ length (bullet_items d') = length (bullet_items Examples.db3)
    ∧ BulletItemService.list_specification_items "S" Examples.db3
      = (Ok listed_before, Examples.db3)
    ∧ BulletItemSchema.dump (Examples.item "b" "S" 1) ∈ listed_before
    ∧ BulletItemService.list_specification_items "S" d'
      = (Ok listed_after, d')
    ∧ ∀ out, out ∈ listed_after → getitem out "id" ≠ Ok (JStr "b").
Proof.
  apply (delete_bullet_item_soft_deletes (Examples.item "b" "S" 1)
           Examples.now Examples.db3).
  - simpl. rewrite !elem_of_cons. right. by left.
  - reflexivity.
Defined.

(** ** Deleting a specification *)

(** C7, as the code has it.  [delete_specification] soft-deletes the
    specification row and no other: the rows of [specifications] with
    another id, and the [bullet_items], [projects] and [users] tables, are
    exactly as before, whatever the outcome of the call, so every bullet
    item of the specification that was active is still active.  A
    specification that is not found makes the call raise
    [ResourceNotFoundError] and write nothing.  On a specification that is
    found, the row gets [is_deleted] set and [updated_at] restamped and
    keeps its other columns, and then the whole cache is cleared; when the
    backend fails at that call, [DatabaseError] is raised, the cache is as
    it was and the soft delete stays. *)
Theorem delete_specification_leaves_bullet_items (spec_id : UUID)
    (now : datetime) (w : World) :
  let result := SpecificationService.delete_specification spec_id now w in
  let w' := result.2 in
  bullet_items (db w') = bullet_items (db w)
  ∧ projects (db w') = projects (db w)
  ∧ users (db w') = users (db w)
  ∧ (∀ s, active_items s (db w') = active_items s (db w))
  ∧ ((get_record (T := Specification.t) spec_id (db w)).1 = Ok None →
     result = (Raise (ResourceNotFoundError "SPEC001"), w))
  ∧ ∀ spec, (get_record spec_id (db w)).1 = Ok (Some spec) →
      soft_delete now spec ∈ specifications (db w')
      ∧ specifications (db w')
        = (λ row,
             if decide (Specification.id row = spec_id)
             then Specification.mk (Specification.id row)
                    (Specification.created_at row) now true
                    (Specification.project_id row)
                    (Specification.content row)
             else row) <$> specifications (db w)
      ∧ match RedisCache.faults (cache w) with
        | true :: rest =>
            result.1 = Raise DatabaseError
            ∧ cache w' = RedisCache.mk (RedisCache.entries (cache w)) rest
        | faults =>
            result.1 = Ok tt
            ∧ cache w' = RedisCache.mk ∅ (tail faults)
        end.
Proof.
  unfold SpecificationService.delete_specification, get_record. unfold_m.
  destruct w as [d c]. cbn [db cache].
  destruct (List.find _ _) as [spec|] eqn:Hfind; cbn [fst snd db cache].
  2:{ repeat split; try done. }
  unfold delete_record.
  apply List.find_some in Hfind as [Hin Hp].
  apply andb_true_iff in Hp as [Hp _]. apply bool_decide_eq_true in Hp.
  apply list_elem_of_In in Hin.
  destruct (find_is_Some
    (λ r : Specification.t, bool_decide (pk r = pk spec)) _ spec Hin)
    as (found & Hsel & _).
  { by apply bool_decide_eq_true_2. }
  unfold select_pk. rewrite Hsel. cbn [fst snd db cache].
  unfold CacheService.clear_cache, RedisCache.clear, RedisCache.call.
  unfold_m.
  assert (update_where_pk (pk spec) (soft_delete now) (specifications d)
          = (λ row,
               if decide (Specification.id row = spec_id)
               then Specification.mk (Specification.id row)
                      (Specification.created_at row) now true
                      (Specification.project_id row)
                      (Specification.content row)
               else row) <$> specifications d) as Hrows.
  { unfold update_where_pk. apply list_fmap_ext. intros ? row _.
    rewrite Hp. cbn [pk Specification_Base]. by case_decide. }
  pose proof (@elem_of_update_where_pk _ Specification_Base (pk spec)
                (soft_delete now) (specifications d) spec Hin eq_refl)
    as Hdeleted.
  destruct (RedisCache.faults c) as [|[] rest];
    cbn [fst snd db cache bullet_items projects users specifications
         set_table table Specification_Base tail];
    (split; [done|]; split; [done|]; split; [done|]; split; [done|];
     split; [done|]);
    intros spec' [= <-]; (split; [exact Hdeleted|]); (split; [exact Hrows|]);
    by split.
Qed.

Lemma delete_specification_leaves_bullet_items_witness :
  let w :=
    mkWorld Examples.db3
      (Examples.healthy {[ make_spec_key "S" := JStr "cached" ]}) in
  let w' := (SpecificationService.delete_specification "S" Examples.now w).2 in
  bullet_items (db w') = bullet_items Examples.db3
  ∧ soft_delete Examples.now Examples.spec_S ∈ specifications (db w')
  ∧ cache w' = RedisCache.mk ∅ [].
Proof.
  intros w w'.
  destruct (delete_specification_leaves_bullet_items "S" Examples.now w)
    as (Hitems & _ & _ & _ & _ & Hspec).
  split; [exact Hitems|].
  destruct (Hspec Examples.spec_S) as (Hrow & _ & _ & Hcache);
    [reflexivity|].
  split; [exact Hrow|exact Hcache].
Defined.

(** C7 as stated fails: after a successful [delete_specification] the three
    bullet items of the specification are still active. *)
Lemma delete_specification_does_not_cascade :
  ¬ (∀ (spec_id : UUID) (now : datetime) (w w' : World),
       SpecificationService.delete_specification spec_id now w = (Ok tt, w') →
       ∀ item, item ∈ bullet_items (db w') →
         BulletItem.spec_id item = spec_id →
         BulletItem.is_deleted item = true).
Proof.
  intros Hclaim.
  pose (w := mkWorld Examples.db3 (Examples.healthy ∅)).
  assert (SpecificationService.delete_specification "S" Examples.now w
          = (Ok tt, (SpecificationService.delete_specification "S"
                       Examples.now w).2)) as Hrun by (vm_compute; reflexivity).
  specialize (Hclaim _ _ _ _ Hrun (Examples.item "a" "S" 0)).
  assert (Examples.item "a" "S" 0
          ∈ bullet_items (db (SpecificationService.delete_specification "S"
                                Examples.now w).2)) as Hin.
  { vm_compute. constructor. }
  specialize (Hclaim Hin eq_refl). discriminate Hclaim.
Qed.

(** ** Reordering: validation *)

Lemma existing_map_of_lookup_acc (l : list BulletItem.t)
    (m : gmap string BulletItem.t) key item :
  foldl (λ m item, <[BulletItem.id item := item]> m) m l !! key = Some item →
  m !! key = Some item ∨ (item ∈ l ∧ BulletItem.id item = key).
Proof.
  revert m. induction l as [|x l IH]; intros m; simpl; [by left|].
  intros [Hm|[Hin Hid]]%IH.
  - destruct (decide (BulletItem.id x = key)) as [<-|Hne].
    + rewrite lookup_insert_eq in Hm. injection Hm as <-.
      right. split; [apply elem_of_cons; by left|done].
    + rewrite lookup_insert_ne in Hm by done. by left.
  - right. split; [apply elem_of_cons; by right|done].
Qed.

Lemma existing_map_of_is_Some_acc (l : list BulletItem.t)
    (m : gmap string BulletItem.t) key :
  is_Some (m !! key) ∨ (∃ item, item ∈ l ∧ BulletItem.id item = key) →
  is_Some (foldl (λ m item, <[BulletItem.id item := item]> m) m l !! key).
Proof.
  revert m. induction l as [|x l IH]; intros m; simpl.
  - intros [?|(item & Hin & _)]; [done|]. by apply elem_of_nil in Hin.
  - intros [Hm|(item & Hin & Hid)]; apply IH.
    + left. destruct (decide (BulletItem.id x = key)) as [<-|Hne].
      * by rewrite lookup_insert_eq.
      * by rewrite lookup_insert_ne.
    + apply elem_of_cons in Hin as [->|Hin].
      * left. rewrite Hid. by rewrite lookup_insert_eq.
      * right. by exists item.
Qed.

Lemma existing_map_of_lookup l key item :
  BulletItemService.existing_map_of l !! key = Some item →
  item ∈ l ∧ BulletItem.id item = key.
Proof.
  intros [Hm|?]%existing_map_of_lookup_acc; [|done].
  by rewrite lookup_empty in Hm.
Qed.

Lemma existing_map_of_is_Some l key :
  is_Some (BulletItemService.existing_map_of l !! key)
  ↔ ∃ item, item ∈ l ∧ BulletItem.id item = key.
Proof.
  split.
  - intros [item Hitem]. exists item. by apply existing_map_of_lookup.
  - intros H. apply existing_map_of_is_Some_acc. by right.
Qed.

(** The id check of the loop is the membership it is meant to be. *)
Lemma id_check_spec spec_id d v :
  let existing_map :=
    BulletItemService.existing_map_of (active_items spec_id d) in
  negb (truthy v) || negb (BulletItemService.contains existing_map v) = false
  ↔ names_active_item spec_id d v.
Proof.
  simpl. rewrite orb_false_iff, !negb_false_iff.
  unfold BulletItemService.contains, names_active_item. split.
  - intros [Htruthy Hin].
    destruct v as [| | | |s| |]; simpl in Hin; try done.
    apply bool_decide_eq_true, existing_map_of_is_Some in Hin
      as (item & Hitem & <-).
    apply elem_of_active_items in Hitem as (? & ? & ?).
    exists item. repeat split; try done.
    intros Hempty. simpl in Htruthy. rewrite Hempty in Htruthy. done.
  - intros (item & Hin & Hdel & Hspec & Hne & ->). simpl. split.
    + apply negb_true_iff, bool_decide_eq_false. done.
    + apply bool_decide_eq_true, existing_map_of_is_Some.
      exists item. split; [|done]. by apply elem_of_active_items.
Qed.

Lemma order_check_spec v :
  (match int_value v with
   | None => false
   | Some z => negb ((z <? 0) || (9 <? z))%Z
   end = true) ↔ order_in_range v.
Proof.
  unfold order_in_range. destruct (int_value v) as [z|]; split.
  - intros H. exists z. split; [done|].
    apply negb_true_iff, orb_false_iff in H as [H1 H2].
    apply Z.ltb_ge in H1, H2. lia.
  - intros (z' & [= <-] & Hz). apply negb_true_iff, orb_false_iff.
    split; apply Z.ltb_ge; lia.
  - done.
  - by intros (? & ? & _).
Qed.

(** One pass of the first loop: it accepts exactly the entries that pass,
    raises [NotFound] on a bad id, and [InvalidOrder] on a bad order of an
    entry whose id is fine. *)
Lemma validate_update_spec spec_id d update :
  match BulletItemService.validate_update
          (BulletItemService.existing_map_of (active_items spec_id d)) update
  with
  | Ok _ => entry_passes spec_id d update
  | Raise e =>
      (e = NotFound ∧ ¬ names_active_item spec_id d (dict_get update "id"))
      ∨ (e = InvalidOrder
         ∧ names_active_item spec_id d (dict_get update "id")
         ∧ ¬ order_in_range (dict_get update "order"))
  end.
Proof.
  unfold BulletItemService.validate_update.
  pose proof (id_check_spec spec_id d (dict_get update "id")) as Hid.
  simpl in Hid.
  destruct (negb (truthy _) || negb _) eqn:Hcheck.
  { left. split; [done|]. intros H. apply Hid in H. done. }
  assert (names_active_item spec_id d (dict_get update "id")) as Hname
    by by apply Hid.
  pose proof (order_check_spec (dict_get update "order")) as Hord.
  destruct (int_value (dict_get update "order")) as [z|].
  - destruct ((z <? 0) || (9 <? z))%Z; simpl in Hord.
    + right. split; [done|]. split; [done|]. intros H. by apply Hord in H.
    + split; [done|]. by apply Hord.
  - right. split; [done|]. split; [done|]. intros H. by apply Hord in H.
Qed.

(** The whole first loop: it stops at the first entry that does not
    pass. *)
Lemma validate_updates_spec spec_id d order_updates :
  match BulletItemService.validate_updates
          (BulletItemService.existing_map_of (active_items spec_id d))
          order_updates
  with
  | Ok _ => Forall (entry_passes spec_id d) order_updates
  | Raise e =>
      ∃ pre update post,
        order_updates = (pre ++ update :: post)%list
        ∧ Forall (entry_passes spec_id d) pre
        ∧ ((e = NotFound
            ∧ ¬ names_active_item spec_id d (dict_get update "id"))
           ∨ (e = InvalidOrder
              ∧ names_active_item spec_id d (dict_get update "id")
              ∧ ¬ order_in_range (dict_get update "order")))
  end.
Proof.
  induction order_updates as [|update rest IH]; simpl; [done|].
  pose proof (validate_update_spec spec_id d update) as Hupdate.
  unfold_m.
  destruct (BulletItemService.validate_update _ update) as [[]|e].
  - destruct (BulletItemService.validate_updates _ rest) as [[]|e].
    + by constructor.
    + destruct IH as (pre & u & post & -> & Hpre & Hu).
      exists (update :: pre), u, post. split; [done|].
      split; [by constructor|done].
  - exists [], update, rest. split; [done|]. split; [constructor|done].
Qed.

Lemma reorder_items_raises spec_id order_updates now d e :
  BulletItemService.validate_updates
    (BulletItemService.existing_map_of (active_items spec_id d)) order_updates
  = Raise e →
  BulletItemService.reorder_items spec_id order_updates now d = (Raise e, d).
Proof.
  intros Hval. unfold BulletItemService.reorder_items. unfold_m.
  rewrite list_records_by_spec. by rewrite Hval.
Qed.

Lemma entry_passes_intro spec_id d item z update :
  item ∈ bullet_items d →
  BulletItem.is_deleted item = false →
  BulletItem.spec_id item = spec_id →
  BulletItem.id item ≠ "" →
  dict_get update "id" = JStr (BulletItem.id item) →
  dict_get update "order" = JInt z →
  (0 ≤ z ≤ 9)%Z →
  entry_passes spec_id d update.
Proof.
  intros Hin Hdel Hspec Hne Hid Hord Hz. split.
  - by exists item.
  - exists z. by rewrite Hord.
Qed.

Lemma db3_entry_passes_a z :
  (0 ≤ z ≤ 9)%Z → entry_passes "S" Examples.db3 (Examples.entry "a" z).
Proof.
  intros Hz. apply (entry_passes_intro _ _ (Examples.item "a" "S" 0) z);
    try done.
  simpl. rewrite !elem_of_cons. by left.
Qed.

Lemma db3_entry_passes_b z :
  (0 ≤ z ≤ 9)%Z → entry_passes "S" Examples.db3 (Examples.entry "b" z).
Proof.
  intros Hz. apply (entry_passes_intro _ _ (Examples.item "b" "S" 1) z);
    try done.
  simpl. rewrite !elem_of_cons. right. by left.
Qed.




(** ** Reordering: the empty payload *)

(** C5, as the code has it.  [reorder_items] on the empty payload modifies
    nothing and returns the empty list, the list of the items it
    updated. *)
Theorem reorder_items_empty (spec_id : UUID) (now : datetime) (d : Database) :
  BulletItemService.reorder_items spec_id [] now d = (Ok [], d).
Proof.
  unfold BulletItemService.reorder_items. unfold_m.
  by rewrite list_records_by_spec.
Qed.

(** C5 as stated fails: on a specification with three active items the
    empty payload returns [[]], which is neither the list of its active
    items nor what [list_specification_items] returns. *)
Lemma empty_reorder_returns_no_items :
  ¬ (∀ (spec_id : UUID) (now : datetime) (d : Database),
       (BulletItemService.reorder_items spec_id [] now d).1
       = Ok (BulletItemSchema.dump <$> active_items spec_id d)
       ∨ (BulletItemService.reorder_items spec_id [] now d).1
         = (BulletItemService.list_specification_items spec_id d).1).
Proof.
  intros Hclaim.
  destruct (Hclaim "S" Examples.now Examples.db3) as [H|H];
    vm_compute in H; discriminate H.
Qed.

(** ** Reordering: the writes *)

Lemma flush_row_set_order_id now z (r : BulletItem.t) :
  BulletItem.id (flush_row now (BulletItem.set_order z) r) = BulletItem.id r.
Proof. unfold flush_row. by case_decide. Qed.

Lemma flush_row_set_order_order now z (r : BulletItem.t) :
  BulletItem.order (flush_row now (BulletItem.set_order z) r) = z.
Proof.
  unfold flush_row. case_decide as Heq; [|done].
  by rewrite <- Heq.
Qed.

(** [update_record] on an object whose row is in the table: the rows with
    its id are rewritten and the refreshed object is returned. *)
Lemma update_record_set_order (item : BulletItem.t) z now d :
  (∃ r, r ∈ bullet_items d ∧ BulletItem.id r = BulletItem.id item) →
  ∃ item',
    update_record item (BulletItem.set_order z) now d
    = (Ok item',
       mkDatabase (users d) (projects d) (specifications d)
         (update_where_pk (BulletItem.id item)
            (flush_row now (BulletItem.set_order z)) (bullet_items d)))
    ∧ BulletItem.id item' = BulletItem.id item.
Proof.
  intros (r & Hin & Hid). unfold update_record. cbn [pk table BulletItem_Base].
  pose proof (@elem_of_update_where_pk _ BulletItem_Base (BulletItem.id item)
    (flush_row now (BulletItem.set_order z)) (bullet_items d) r Hin Hid) as Hin'.
  destruct (find_is_Some
    (λ r : BulletItem.t, bool_decide (BulletItem.id r = BulletItem.id item))
    _ _ Hin') as (item' & Hsel & Hitem').
  { apply bool_decide_eq_true_2. by rewrite flush_row_set_order_id. }
  unfold select_pk. cbn [pk table BulletItem_Base]. rewrite Hsel.
  exists item'. split; [done|]. by apply bool_decide_eq_true in Hitem'.
Qed.

Lemma update_where_pk_ids key (f : BulletItem.t → BulletItem.t) rows :
  (∀ r, BulletItem.id (f r) = BulletItem.id r) →
  BulletItem.id <$> update_where_pk key f rows = BulletItem.id <$> rows.
Proof.
  intros Hf. unfold update_where_pk. rewrite <- list_fmap_compose.
  apply list_fmap_ext. intros ? r _. simpl. by case_decide.
Qed.

Lemma heap_ok_ids heap rows rows' :
  BulletItem.id <$> rows' = BulletItem.id <$> rows →
  heap_ok heap rows → heap_ok heap rows'.
Proof.
  intros Hids Hok key item Hitem.
  destruct (Hok key item Hitem) as (Hid & r & Hin & Hr). split; [done|].
  assert (key ∈ BulletItem.id <$> rows') as Hkey.
  { rewrite Hids. apply list_elem_of_fmap. by exists r. }
  apply list_elem_of_fmap in Hkey as (r' & -> & Hin'). by exists r'.
Qed.

Lemma writable_insert heap key item update :
  is_Some (heap !! key) →
  writable heap update → writable (<[key := item]> heap) update.
Proof.
  intros Hkey (k & v & z & Hid & Hk & Hv & Hz).
  exists k, v, z. repeat split; try done.
  rewrite lookup_insert_is_Some. destruct (decide (key = k)); [by left|by right].
Qed.

Lemma apply_update_writable now rows update key v z :
  dict_lookup update "id" = Some (JStr key) →
  dict_lookup update "order" = Some v →
  int_value v = Some z →
  apply_update now rows update
  = update_where_pk key (flush_row now (BulletItem.set_order z)) rows.
Proof.
  intros Hid Hv Hz. unfold apply_update, dict_get. rewrite Hid, Hv. simpl.
  by rewrite Hz.
Qed.

(** The second loop on entries that passed the first: it does not raise,
    every object it returns is still held by the map, and the table ends
    as the fold of the entries' writes. *)
Lemma update_loop_spec now order_updates :
  ∀ heap updated_items d,
    heap_ok heap (bullet_items d) →
    Forall (writable heap) order_updates →
    Forall (λ key, is_Some (heap !! key)) updated_items →
    ∃ heap' updated_items',
      BulletItemService.update_loop now order_updates heap updated_items d
      = (Ok (heap', updated_items'),
         mkDatabase (users d) (projects d) (specifications d)
           (foldl (apply_update now) (bullet_items d) order_updates))
      ∧ Forall (λ key, is_Some (heap' !! key)) updated_items'.
Proof.
  induction order_updates as [|update rest IH];
    intros heap updated_items d Hheap Hwr Hupd.
  { exists heap, updated_items. split; [|done]. by destruct d. }
  apply Forall_cons in Hwr as [Hupdate Hrest].
  pose proof Hupdate as (key & v & z & Hid & [item Hitem] & Hv & Hz).
  destruct (Hheap key item Hitem) as (Hitem_id & Hrow).
  rewrite <- Hitem_id in Hrow.
  destruct (update_record_set_order item z now d Hrow)
    as (item' & Hrun & Hitem'_id).
  rewrite Hitem_id in Hrun.
  set (rows' := update_where_pk key (flush_row now (BulletItem.set_order z))
                  (bullet_items d)) in *.
  set (d' := mkDatabase (users d) (projects d) (specifications d) rows') in *.
  assert (BulletItem.id <$> rows' = BulletItem.id <$> bullet_items d) as Hids.
  { apply update_where_pk_ids. intros r. apply flush_row_set_order_id. }
  destruct (IH (<[key := item']> heap) (updated_items ++ [key])%list d')
    as (heap' & updated_items' & Hloop & Hfinal).
  - intros k it Hk. destruct (decide (key = k)) as [<-|Hne].
    + rewrite lookup_insert_eq in Hk. injection Hk as <-.
      split; [congruence|].
      destruct (heap_ok_ids heap _ rows' Hids Hheap key item Hitem)
        as (_ & Hr). done.
    + rewrite lookup_insert_ne in Hk by done.
      by apply (heap_ok_ids heap _ rows' Hids Hheap).
  - eapply Forall_impl; [exact Hrest|].
    intros u Hu. by apply writable_insert.
  - apply Forall_app. split.
    + eapply Forall_impl; [exact Hupd|]. intros k Hk. simpl in Hk.
      rewrite lookup_insert_is_Some.
      destruct (decide (key = k)); [by left|by right].
    + apply Forall_singleton. by rewrite lookup_insert_eq.
  - exists heap', updated_items'. split; [|done].
    cbn [BulletItemService.update_loop]. unfold_m.
    unfold subscript. rewrite Hid. unfold BulletItemService.item_of.
    cbn [BulletItemService.str_key]. rewrite Hitem, Hv.
    unfold BulletItemService.update_order. rewrite Hz.
    cbn [fst snd]. rewrite Hrun. cbn [fst snd].
    rewrite Hloop. cbn [foldl projects specifications bullet_items d'].
    by rewrite (apply_update_writable now _ update key v z).
Qed.

Lemma dump_many_ok heap keys :
  Forall (λ key, is_Some (heap !! key)) keys →
  ∃ dumped, BulletItemService.dump_many heap keys = Ok dumped.
Proof.
  induction keys as [|key keys IH]; intros Hkeys; [by eexists|].
  apply Forall_cons in Hkeys as [[item Hitem] Hrest].
  destruct (IH Hrest) as (dumped & Hdumped).
  simpl. rewrite Hitem, Hdumped. by eexists.
Qed.

Lemma dict_get_lookup update key v :
  dict_get update key = v → v ≠ JNull → dict_lookup update key = Some v.
Proof.
  unfold dict_get. destruct (dict_lookup update key); simpl; congruence.
Qed.

Lemma entry_passes_writable spec_id d update :
  entry_passes spec_id d update →
  writable (BulletItemService.existing_map_of (active_items spec_id d)) update.
Proof.
  intros [(item & Hin & Hdel & Hspec & Hne & Hid) (z & Hz & _)].
  exists (BulletItem.id item), (dict_get update "order"), z.
  split; [by apply dict_get_lookup|].
  split.
  { apply existing_map_of_is_Some. exists item. split; [|done].
    by apply elem_of_active_items. }
  split; [|done].
  apply dict_get_lookup; [done|]. intros Hnull. by rewrite Hnull in Hz.
Qed.

(** A payload whose entries all pass is accepted, and the table ends as the
    fold of the entries' writes, in payload order. *)
Lemma reorder_items_runs spec_id order_updates now d :
  Forall (entry_passes spec_id d) order_updates →
  ∃ dumped,
    BulletItemService.reorder_items spec_id order_updates now d
    = (Ok dumped,
       mkDatabase (users d) (projects d) (specifications d)
         (foldl (apply_update now) (bullet_items d) order_updates)).
Proof.
  intros Hpass.
  pose proof (validate_updates_spec spec_id d order_updates) as Hval.
  unfold BulletItemService.reorder_items. unfold_m.
  rewrite list_records_by_spec.
  destruct (BulletItemService.validate_updates _ order_updates)
    as [[]|e] eqn:Hrun.
  2:{ destruct Hval as (pre & u & post & -> & _ & Hu).
      apply Forall_app in Hpass as [_ Hpass].
      apply Forall_cons in Hpass as [[Hid Hord] _].
      destruct Hu as [[_ ?]|(_ & _ & ?)]; done. }
  destruct (update_loop_spec now order_updates
    (BulletItemService.existing_map_of (active_items spec_id d)) [] d)
    as (heap' & updated_items' & Hloop & Hkeys).
  - intros key item Hitem.
    apply existing_map_of_lookup in Hitem as [Hin Hid].
    split; [done|]. exists item. split; [|done].
    by apply elem_of_active_items in Hin as [? _].
  - eapply Forall_impl; [exact Hpass|]. apply entry_passes_writable.
  - constructor.
  - rewrite Hloop. cbn [fst snd].
    destruct (dump_many_ok heap' updated_items' Hkeys) as (dumped & ->).
    by exists dumped.
Qed.

Lemma apply_update_fmap now rows update :
  apply_update now rows update = row_step now update <$> rows.
Proof.
  unfold apply_update, row_step.
  destruct (BulletItemService.str_key _) as [key|];
    [destruct (int_value _) as [z|]|]; try by rewrite list_fmap_id.
  done.
Qed.

Lemma foldl_apply_update now order_updates :
  ∀ rows,
    foldl (apply_update now) rows order_updates
    = row_final now order_updates <$> rows.
Proof.
  induction order_updates as [|update rest IH]; intros rows; simpl.
  - by rewrite list_fmap_id.
  - rewrite IH, apply_update_fmap, <- list_fmap_compose. done.
Qed.

Lemma row_step_id now update r :
  BulletItem.id (row_step now update r) = BulletItem.id r.
Proof.
  unfold row_step. repeat case_match; try done.
  apply flush_row_set_order_id.
Qed.

Lemma row_final_snoc now order_updates update r :
  row_final now (order_updates ++ [update]) r
  = row_step now update (row_final now order_updates r).
Proof. unfold row_final. by rewrite foldl_app. Qed.

Lemma row_final_id now order_updates r :
  BulletItem.id (row_final now order_updates r) = BulletItem.id r.
Proof.
  induction order_updates as [|update rest IH] using rev_ind; [done|].
  by rewrite row_final_snoc, row_step_id.
Qed.

Lemma row_step_other now update r :
  dict_get update "id" ≠ JStr (BulletItem.id r) → row_step now update r = r.
Proof.
  intros Hne. unfold row_step.
  destruct (dict_get update "id") as [| | | |s| |]; simpl; try done.
  destruct (int_value _); [|done].
  case_decide; [congruence|done].
Qed.

Lemma row_step_named now update r z :
  dict_get update "id" = JStr (BulletItem.id r) →
  int_value (dict_get update "order") = Some z →
  BulletItem.order (row_step now update r) = z.
Proof.
  intros Hid Hz. unfold row_step. rewrite Hid, Hz. simpl.
  rewrite decide_True by done. apply flush_row_set_order_order.
Qed.

Lemma row_final_unnamed now order_updates r :
  Forall (λ update, dict_get update "id" ≠ JStr (BulletItem.id r))
    order_updates →
  row_final now order_updates r = r.
Proof.
  induction order_updates as [|update rest IH]; intros Hall; [done|].
  apply Forall_cons in Hall as [Hupdate Hrest].
  unfold row_final in *. simpl. rewrite row_step_other by done. by apply IH.
Qed.

(** The order a row ends with is that of the last entry naming it. *)
Lemma row_final_last now pre update post r z :
  dict_get update "id" = JStr (BulletItem.id r) →
  int_value (dict_get update "order") = Some z →
  Forall (λ later, dict_get later "id" ≠ JStr (BulletItem.id r)) post →
  BulletItem.order (row_final now (pre ++ update :: post) r) = z.
Proof.
  intros Hid Hz Hpost. unfold row_final. rewrite foldl_app. simpl.
  fold (row_final now pre r).
  set (r1 := row_step now update (row_final now pre r)).
  fold (row_final now post r1).
  assert (BulletItem.id r1 = BulletItem.id r) as Hr1.
  { unfold r1. by rewrite row_step_id, row_final_id. }
  rewrite row_final_unnamed by by rewrite Hr1.
  unfold r1. apply row_step_named; [|done].
  by rewrite row_final_id.
Qed.

(** A row named by the payload ends with the order of one of the entries
    naming it. *)
Lemma row_final_named now order_updates r :
  Forall (λ update, order_in_range (dict_get update "order")) order_updates →
  Exists (λ update, dict_get update "id" = JStr (BulletItem.id r))
    order_updates →
  ∃ update, update ∈ order_updates
    ∧ dict_get update "id" = JStr (BulletItem.id r)
    ∧ int_value (dict_get update "order")
      = Some (BulletItem.order (row_final now order_updates r)).
Proof.
  induction order_updates as [|update rest IH] using rev_ind;
    intros Hord Hnamed.
  { by apply Exists_nil in Hnamed. }
  apply Forall_app in Hord as [Hrest Hupdate].
  apply Forall_singleton in Hupdate as (z & Hz & _).
  rewrite row_final_snoc.
  assert (dict_get update "id" = JStr (BulletItem.id r)
          ∨ dict_get update "id" ≠ JStr (BulletItem.id r)) as [Hid|Hne].
  { destruct (dict_get update "id") as [| | | |s| |]; try by right.
    destruct (decide (s = BulletItem.id r)) as [->|]; [by left|].
    right. congruence. }
  - exists update. split; [apply elem_of_app; right; by apply list_elem_of_singleton|].
    split; [done|]. rewrite Hz. f_equal. symmetry.
    apply row_step_named; [|done]. by rewrite row_final_id.
  - rewrite row_step_other by by rewrite row_final_id.
    apply Exists_app in Hnamed as [Hnamed|Hnamed].
    + destruct (IH Hrest Hnamed) as (u & Hin & Hu).
      exists u. split; [apply elem_of_app; by left|done].
    + apply Exists_cons in Hnamed as [?|Hnil]; [done|].
      by apply Exists_nil in Hnil.
Qed.

Lemma NoDup_fmap_inj_on {A B} (f : A → B) (l : list A) x y :
  NoDup (f <$> l) → x ∈ l → y ∈ l → f x = f y → x = y.
Proof.
  induction l as [|a l IH]; intros Hnd Hx Hy Hf.
  { by apply elem_of_nil in Hx. }
  rewrite fmap_cons in Hnd. apply NoDup_cons in Hnd as [Ha Hnd].
  apply elem_of_cons in Hx as [->|Hx]; apply elem_of_cons in Hy as [->|Hy].
  - done.
  - destruct Ha. rewrite Hf. apply list_elem_of_fmap. by exists y.
  - destruct Ha. rewrite <- Hf. apply list_elem_of_fmap. by exists x.
  - by apply IH.
Qed.

(** The example of the specification: items with orders 0, 1, 2 and a
    payload moving the first to 2 and the second to 0 leave the orders
    2, 0, 2. *)
Example reorder_items_partial_payload :
  BulletItem.order
    <$> bullet_items
          (BulletItemService.reorder_items "S"
             [Examples.entry "a" 2; Examples.entry "b" 0]
             Examples.now Examples.db3).2
  = [2; 0; 2]%Z.
Proof. reflexivity. Qed.

(** C10.  A payload whose entries each pass validation is accepted, also
    when the same item id appears in several entries; the entries are
    written in payload order, so an item named by the payload ends with the
    order of the last entry naming it. *)
Theorem reorder_items_last_entry_wins (spec_id : UUID)
    (order_updates : list (list (string * json))) (now : datetime)
    (d : Database) :
  Forall (entry_passes spec_id d) order_updates →
  ∃ dumped d',
    BulletItemService.reorder_items spec_id order_updates now d
    = (Ok dumped, d')
    ∧ bullet_items d'
      = foldl (apply_update now) (bullet_items d) order_updates
    ∧ ∀ pre update post key z,
        order_updates = (pre ++ update :: post)%list →
        dict_get update "id" = JStr key →
        int_value (dict_get update "order") = Some z →
        Forall (λ later, dict_get later "id" ≠ JStr key) post →
        (∃ item, item ∈ bullet_items d' ∧ BulletItem.id item = key)
        ∧ ∀ item, item ∈ bullet_items d' → BulletItem.id item = key →
            BulletItem.order item = z.
Proof.
  intros Hpass.
  destruct (reorder_items_runs spec_id order_updates now d Hpass)
    as (dumped & Hrun).
  eexists dumped, _. split; [exact Hrun|]. split; [done|].
  intros pre update post key z -> Hid Hz Hpost.
  cbn [bullet_items]. rewrite foldl_apply_update. split.
  - apply Forall_app in Hpass as [_ Hpass].
    apply Forall_cons in Hpass as [[(item & Hin & _ & _ & _ & Hitem) _] _].
    rewrite Hid in Hitem. injection Hitem as ->.
    exists (row_final now (pre ++ update :: post) item).
    split; [|apply row_final_id].
    apply list_elem_of_fmap. by exists item.
  - intros item' Hin Hkey.
    apply list_elem_of_fmap in Hin as (item & -> & _).
    rewrite row_final_id in Hkey. subst key.
    by apply row_final_last.
Qed.

Lemma reorder_items_last_entry_wins_witness :
  ∃ dumped d',
    BulletItemService.reorder_items "S"
      [Examples.entry "a" 2; Examples.entry "b" 0; Examples.entry "a" 7]
      Examples.now Examples.db3
    = (Ok dumped, d')
    ∧ (∃ item, item ∈ bullet_items d' ∧ BulletItem.id item = "a")
    ∧ ∀ item, item ∈ bullet_items d' → BulletItem.id item = "a" →
        BulletItem.order item = 7%Z.
Proof.
  destruct (reorder_items_last_entry_wins "S"
    [Examples.entry "a" 2; Examples.entry "b" 0; Examples.entry "a" 7]
    Examples.now Examples.db3) as (dumped & d' & Hrun & _ & Hlast).
  - apply List.Forall_cons; [apply db3_entry_passes_a; lia|].
    apply List.Forall_cons; [apply db3_entry_passes_b; lia|].
    apply List.Forall_cons; [apply db3_entry_passes_a; lia|].
    apply List.Forall_nil.
  - exists dumped, d'. split; [exact Hrun|].
    apply (Hlast [Examples.entry "a" 2; Examples.entry "b" 0]
             (Examples.entry "a" 7) [] "a" 7%Z); try done.
Defined.

(** ** Reordering: duplicate orders *)

(** C3, as the code has it.  [reorder_items] checks each order on its own
    and never compares two entries: a payload whose entries each pass is
    accepted and written, whether or not two of them carry the same order.
    When the orders of the payload are pairwise distinct, no two items
    named by the payload share an order after the call. *)
Theorem reorder_items_checks_orders_individually (spec_id : UUID)
    (order_updates : list (list (string * json))) (now : datetime)
    (d : Database) :
  Forall (entry_passes spec_id d) order_updates →
  ∃ dumped d',
    BulletItemService.reorder_items spec_id order_updates now d
    = (Ok dumped, d')
    ∧ bullet_items d'
      = foldl (apply_update now) (bullet_items d) order_updates
    ∧ (NoDup (payload_orders order_updates) →
       ∀ item1 item2,
         item1 ∈ bullet_items d' → item2 ∈ bullet_items d' →
         Exists (λ update, dict_get update "id" = JStr (BulletItem.id item1))
           order_updates →
         Exists (λ update, dict_get update "id" = JStr (BulletItem.id item2))
           order_updates →
         BulletItem.id item1 ≠ BulletItem.id item2 →
         BulletItem.order item1 ≠ BulletItem.order item2).
Proof.
  intros Hpass.
  destruct (reorder_items_runs spec_id order_updates now d Hpass)
    as (dumped & Hrun).
  eexists dumped, _. split; [exact Hrun|]. split; [done|].
  intros Hnodup item1' item2' Hin1 Hin2 Hnamed1 Hnamed2 Hids Horders.
  cbn [bullet_items] in Hin1, Hin2. rewrite foldl_apply_update in Hin1, Hin2.
  apply list_elem_of_fmap in Hin1 as (item1 & -> & _).
  apply list_elem_of_fmap in Hin2 as (item2 & -> & _).
  rewrite !row_final_id in *.
  assert (Forall (λ update, order_in_range (dict_get update "order"))
            order_updates) as Hord.
  { eapply Forall_impl; [exact Hpass|]. by intros u [_ ?]. }
  destruct (row_final_named now order_updates item1 Hord Hnamed1)
    as (u1 & Hu1 & Hid1 & Hz1).
  destruct (row_final_named now order_updates item2 Hord Hnamed2)
    as (u2 & Hu2 & Hid2 & Hz2).
  assert (u1 = u2) as ->.
  { apply (NoDup_fmap_inj_on
             (λ update, int_value (dict_get update "order")) order_updates);
      try done.
    simpl. by rewrite Hz1, Hz2, Horders. }
  congruence.
Qed.

Lemma reorder_items_checks_orders_individually_witness :
  (∃ dumped d',
     BulletItemService.reorder_items "S"
       [Examples.entry "a" 5; Examples.entry "b" 5] Examples.now Examples.db3
     = (Ok dumped, d')
     ∧ bullet_items d'
       = foldl (apply_update Examples.now) (bullet_items Examples.db3)
           [Examples.entry "a" 5; Examples.entry "b" 5])
  ∧ (∃ dumped d',
       BulletItemService.reorder_items "S"
         [Examples.entry "a" 5; Examples.entry "b" 6] Examples.now
         Examples.db3
       = (Ok dumped, d')
       ∧ ∀ item1 item2,
           item1 ∈ bullet_items d' → item2 ∈ bullet_items d' →
           BulletItem.id item1 = "a" → BulletItem.id item2 = "b" →
           BulletItem.order item1 ≠ BulletItem.order item2).
Proof.
  split.
  - destruct (reorder_items_checks_orders_individually "S"
      [Examples.entry "a" 5; Examples.entry "b" 5]
      Examples.now Examples.db3) as (dumped & d' & Hrun & Hrows & _).
    + apply List.Forall_cons; [apply db3_entry_passes_a; lia|].
      apply List.Forall_cons; [apply db3_entry_passes_b; lia|].
      apply List.Forall_nil.
    + by exists dumped, d'.
  - destruct (reorder_items_checks_orders_individually "S"
      [Examples.entry "a" 5; Examples.entry "b" 6]
      Examples.now Examples.db3) as (dumped & d' & Hrun & _ & Hdistinct).
    + apply List.Forall_cons; [apply db3_entry_passes_a; lia|].
      apply List.Forall_cons; [apply db3_entry_passes_b; lia|].
      apply List.Forall_nil.
    + exists dumped, d'. split; [exact Hrun|].
      intros item1 item2 Hin1 Hin2 Hid1 Hid2.
      apply Hdistinct; try done.
      * vm_compute. apply NoDup_cons. split.
        { intros Hin. apply list_elem_of_singleton in Hin. discriminate Hin. }
        apply NoDup_singleton.
      * apply Exists_cons_hd. by rewrite Hid1.
      * apply Exists_cons_tl, Exists_cons_hd. by rewrite Hid2.
      * by rewrite Hid1, Hid2.
Defined.

(** C3 as stated fails: a payload giving order 5 to two items is not
    refused; both rows are written and end with order 5. *)
Lemma reorder_items_accepts_duplicate_orders :
  ¬ (∀ (spec_id : UUID) (order_updates : list (list (string * json)))
       (now : datetime) (d : Database),
       ¬ NoDup (payload_orders order_updates) →
       ∃ e, BulletItemService.reorder_items spec_id order_updates now d
            = (Raise e, d)).
Proof.
  intros Hclaim.
  destruct (Hclaim "S" [Examples.entry "a" 5; Examples.entry "b" 5]
              Examples.now Examples.db3) as (e & He).
  - intros Hnodup. vm_compute in Hnodup.
    apply NoDup_cons in Hnodup as [Hnotin _].
    apply Hnotin. constructor.
  - vm_compute in He. discriminate He.
Qed.

(** ** Cache-aside reads *)

Lemma dict_lookup_nonempty (d : list (string * json)) key v :
  dict_lookup d key = Some v → truthy (JObj d) = true.
Proof. by destruct d. Qed.



(** [get_project] on a cache hit: the decision is taken on the payload's
    [user_id] alone. *)
Lemma get_project_hit project_id user_id d es cached owner :
  es !! make_project_key project_id = Some (JObj cached) →
  dict_lookup cached "user_id" = Some (JStr owner) →
  ProjectService.get_project project_id user_id
    (mkWorld d (RedisCache.mk es []))
  = (if decide (owner = user_id) then Ok (JObj cached)
     else Raise (AuthorizationError "PRJ002"),
     mkWorld d (RedisCache.mk es [])).
Proof.
  intros Hhit Howner.
  unfold ProjectService.get_project, CacheService.get_project,
    RedisCache.get, RedisCache.call. unfold_m.
  cbn [cache db RedisCache.faults RedisCache.entries].
  rewrite Hhit. cbn [default from_option id].
  rewrite (dict_lookup_nonempty _ _ _ Howner).
  unfold getitem, subscript. rewrite Howner. cbn [ne_str].
  case_decide as Heq.
  - by rewrite bool_decide_eq_true_2.
  - by rewrite bool_decide_eq_false_2.
Qed.



(** A cached value that is a dict without [user_id] (the specification
    list that [list_project_specifications] stores under the project key
    is one) makes the read raise [KeyError]: no data is returned and no
    decision is taken. *)
Example get_project_payload_without_owner :
  (ProjectService.get_project "P" "alice"
     (mkWorld Examples.db3
        (RedisCache.mk
           {[ make_project_key "P" := JObj [("specifications", JArr [])] ]}
           []))).1
  = Raise (KeyError "user_id").
Proof. reflexivity. Qed.



(** C9, as the code has it.  A failure of the cache backend fails the
    read: when the lookup in the cache raises, [get_project] and
    [get_specification] raise [DatabaseError] without reading the store;
    when the lookup succeeds and misses but the write-back raises,
    [get_project] raises [DatabaseError] although the record was found and
    belongs to the requester. *)
Theorem cache_failure_fails_the_read (w : World) :
  (∀ rest project_id user_id spec_id schema_dump,
     RedisCache.faults (cache w) = true :: rest →
     ProjectService.get_project project_id user_id w
     = (Raise DatabaseError, after_faults rest w)
     ∧ SpecificationService.get_specification schema_dump spec_id w
       = (Raise DatabaseError, after_faults rest w))
  ∧ (∀ rest project_id project,
       RedisCache.faults (cache w) = false :: true :: rest →
       truthy (default JNull
                 (RedisCache.entries (cache w)
                    !! make_project_key project_id)) = false →
       (get_record project_id (db w)).1 = Ok (Some project) →
       ProjectService.get_project project_id (Project.user_id project) w
       = (Raise DatabaseError, after_faults rest w)).
Proof.
  destruct w as [d [es fs]]. unfold after_faults.
  cbn [db cache RedisCache.faults RedisCache.entries]. split.
  - intros rest project_id user_id spec_id schema_dump ->. split.
    + reflexivity.
    + reflexivity.
  - intros rest project_id project -> Hmiss Hrecord.
    unfold ProjectService.get_project, CacheService.get_project,
      CacheService.set_project, RedisCache.get, RedisCache.set,
      RedisCache.call.
    unfold_m. cbn [cache db RedisCache.faults RedisCache.entries].
    rewrite Hmiss.
    unfold get_record, gets in *. cbn [fst] in Hrecord.
    injection Hrecord as Hfind.
  cbn [fst snd db cache pk deleted table Project_Base]. rewrite Hfind.
    unfold Project.validate_ownership.
    rewrite bool_decide_eq_true_2 by done. reflexivity.
Qed.

Lemma cache_failure_fails_the_read_witness :
  ProjectService.get_project "P" "alice"
    (mkWorld Examples.db3 (Examples.failing ∅))
  = (Raise DatabaseError, mkWorld Examples.db3 (RedisCache.mk ∅ []))
  ∧ ProjectService.get_project "P" "alice"
      (mkWorld Examples.db3 (RedisCache.mk ∅ [false; true]))
    = (Raise DatabaseError, mkWorld Examples.db3 (RedisCache.mk ∅ [])).
Proof.
  split.
  - destruct (cache_failure_fails_the_read
                (mkWorld Examples.db3 (Examples.failing ∅))) as [Hfirst _].
    destruct (Hfirst [] "P" "alice" "S" (λ _, mret JNull) eq_refl)
      as [Hproject _].
    exact Hproject.
  - destruct (cache_failure_fails_the_read
                (mkWorld Examples.db3 (RedisCache.mk ∅ [false; true])))
      as [_ Hsecond].
    exact (Hsecond [] "P" Examples.alice_project eq_refl eq_refl eq_refl).
Defined.

(** C9 as stated fails: the store holds Alice's project, the cache backend
    is down, and Alice's read raises [DatabaseError] instead of returning
    the record. *)
Lemma cache_failure_is_not_absorbed :
  ¬ (∀ (w : World) (project_id user_id : UUID) (project : Project.t),
       head (RedisCache.faults (cache w)) = Some true →
       (get_record project_id (db w)).1 = Ok (Some project) →
       Project.user_id project = user_id →
       (ProjectService.get_project project_id user_id w).1
       = Ok (ProjectSchema.dump project)).
Proof.
  intros Hclaim.
  specialize (Hclaim (mkWorld Examples.db3 (Examples.failing ∅))
                "P" "alice" Examples.alice_project eq_refl eq_refl eq_refl).
  vm_compute in Hclaim. discriminate Hclaim.
Qed.

(** * Further properties of the code *)

(** ** The generic store operations *)

Lemma find_app_l {A} (p : A → bool) (l1 l2 : list A) :
  List.find p (l1 ++ l2)%list
  = match List.find p l1 with
    | Some x => Some x
    | None => List.find p l2
    end.
Proof.
  induction l1 as [|x l1 IH]; simpl; [done|]. by destruct (p x).
Qed.

Lemma find_weaken {A} (p q : A → bool) (l : list A) :
  (∀ x, q x = true → p x = true) →
  List.find p l = None → List.find q l = None.
Proof.
  intros Hqp. induction l as [|x l IH]; simpl; [done|].
  destruct (p x) eqn:Hp; [done|]. intros Hnone.
  destruct (q x) eqn:Hq; [|by apply IH].
  apply Hqp in Hq. congruence.
Qed.



Lemma find_update_where_pk_deleted `{BaseLaws T} key now (rows : list T) :
  List.find (λ r, bool_decide (pk r = key) && negb (deleted r))
    (update_where_pk key (soft_delete now) rows) = None.
Proof.
  induction rows as [|r rows IH]; [done|].
  unfold update_where_pk in *. rewrite fmap_cons. cbn [List.find].
  destruct (decide (pk r = key)) as [Heq|Hne].
  - by rewrite deleted_soft_delete, andb_false_r.
  - by rewrite bool_decide_eq_false_2.
Qed.

Lemma filter_update_where_pk_deleted `{BaseLaws T} key now
    (p : T → bool) (rows : list T) :
  List.filter (λ r, negb (deleted r) && p r)
    (update_where_pk key (soft_delete now) rows)
  = List.filter (λ r, negb (bool_decide (pk r = key)))
      (List.filter (λ r, negb (deleted r) && p r) rows).
Proof.
  induction rows as [|r rows IH]; [done|].
  unfold update_where_pk in *. rewrite fmap_cons. cbn [List.filter].
  destruct (decide (pk r = key)) as [Heq|Hne].
  - rewrite deleted_soft_delete. cbn [negb andb]. rewrite IH.
    destruct (negb (deleted r) && p r); [|done].
    cbn [List.filter]. by rewrite bool_decide_eq_true_2.
  - rewrite IH. destruct (negb (deleted r) && p r); [|done].
    cbn [List.filter]. by rewrite bool_decide_eq_false_2.
Qed.

(** X2.  After [delete_record] on a record whose row is in the table,
    [get_record] finds nothing under its key, and [list_records], with any
    filters, returns what it returned before less the rows with that key;
    no row leaves the table. *)
Theorem delete_record_hides `{BaseLaws T} (record : T) (now : datetime)
    (d : Database) :
  select_pk (pk record) (table d) ≠ None →
  ∃ d',
    delete_record record now d = (Ok tt, d')
    ∧ (get_record (T := T) (pk record) d').1 = Ok None
    ∧ length (table (T := T) d') = length (table (T := T) d)
    ∧ ∀ filters listed,
        (list_records (T := T) filters d).1 = Ok listed →
        (list_records filters d').1
        = Ok (List.filter (λ r, negb (bool_decide (pk r = pk record)))
                listed).
Proof.
  intros Hrow. unfold delete_record.
  destruct (select_pk (pk record) (table d)); [|done].
  eexists. split; [reflexivity|].
  unfold get_record, list_records, gets. cbn [fst].
  rewrite table_set_table. split; [|split].
  - by rewrite find_update_where_pk_deleted.
  - unfold update_where_pk. by rewrite length_fmap.
  - intros filters listed [= <-].
    by rewrite filter_update_where_pk_deleted.
Qed.

Lemma delete_record_hides_witness :
  ∃ d',
    delete_record (Examples.item "b" "S" 1) Examples.now Examples.db3
    = (Ok tt, d')
    ∧ (get_record (T := BulletItem.t) "b" d').1 = Ok None
    ∧ length (bullet_items d') = 3%nat
    ∧ ∀ filters listed,
        (list_records (T := BulletItem.t) filters Examples.db3).1 = Ok listed →
        (list_records filters d').1
        = Ok (List.filter
                (λ r, negb (bool_decide (BulletItem.id r = "b"))) listed).
Proof.
  assert (select_pk (pk (Examples.item "b" "S" 1)) (table Examples.db3)
          ≠ None) as Hrow by discriminate.
  exact (delete_record_hides (Examples.item "b" "S" 1) Examples.now
           Examples.db3 Hrow).
Defined.

(** ** Bullet items: create, get, delete, list *)

Lemma init_valid new_id now (data : BulletItemCreateSchema.data) :
  valid_input data →
  BulletItem.__init__ new_id now (BulletItemCreateSchema.spec_id data)
    (BulletItemCreateSchema.content data) (BulletItemCreateSchema.order data)
  = Ok (BulletItem.mk new_id now now false
          (BulletItemCreateSchema.spec_id data)
          (strip (BulletItemCreateSchema.content data))
          (BulletItemCreateSchema.order data)).
Proof.
  intros (Hne & _ & Hlo & Hhi). unfold BulletItem.__init__.
  rewrite (bool_decide_eq_false_2 (strip _ = "")) by done.
  rewrite bool_decide_eq_false_2.
  2:{ intros Hc. rewrite Hc in Hne. by rewrite strip_empty in Hne. }
  unfold BulletItem.validate_order.
  rewrite (proj2 (Z.leb_le _ _) Hlo), (proj2 (Z.leb_le _ _) Hhi). done.
Qed.

Lemma references_bullet_item (item : BulletItem.t) (d : Database) :
  references item d = true
  ↔ ∃ specification,
      specification ∈ specifications d
      ∧ Specification.id specification = BulletItem.spec_id item.
Proof.
  unfold references, BulletItem_References. rewrite List.existsb_exists.
  split.
  - intros (specification & Hin & Hid). exists specification.
    split; [by apply list_elem_of_In|]. by apply bool_decide_eq_true in Hid.
  - intros (specification & Hin & Hid). exists specification.
    split; [by apply list_elem_of_In|]. by apply bool_decide_eq_true_2.
Qed.

(** X3.  With valid input, fewer than 10 active items in the
    specification, a fresh id and a row for the specification in the store
    (soft deleted or not: the service does not look it up, the foreign key
    does), [create_bullet_item] appends one active row holding the trimmed
    content and the order asked for, whatever the orders of the items
    already there, leaves every other row as it was, and returns the dump
    that [get_bullet_item] then returns under the new id.  Without a row
    for the specification the same call raises [DatabaseError] and writes
    nothing. *)
Theorem create_bullet_item_succeeds (data : BulletItemCreateSchema.data)
    (new_id : UUID) (now : datetime) (d : Database) :
  valid_input data →
  (active_count (BulletItemCreateSchema.spec_id data) d < 10)%nat →
  select_pk new_id (bullet_items d) = None →
  let item :=
    BulletItem.mk new_id now now false (BulletItemCreateSchema.spec_id data)
      (strip (BulletItemCreateSchema.content data))
      (BulletItemCreateSchema.order data) in
  let d' :=
    mkDatabase (users d) (projects d) (specifications d)
      (bullet_items d ++ [item]) in
  ((∃ specification,
      specification ∈ specifications d
      ∧ Specification.id specification = BulletItemCreateSchema.spec_id data) →
   BulletItemService.create_bullet_item data new_id now d
   = (Ok (BulletItemSchema.dump item), d')
   ∧ BulletItemService.get_bullet_item new_id d'
     = (Ok (BulletItemSchema.dump item), d'))
  ∧ ((∀ specification,
        specification ∈ specifications d →
        Specification.id specification ≠ BulletItemCreateSchema.spec_id data) →
     BulletItemService.create_bullet_item data new_id now d
     = (Raise DatabaseError, d)).
Proof.
  intros Hvalid Hroom Hfresh item d'.
  assert (BulletItemService.create_bullet_item data new_id now d
          = if references item d
            then (Ok (BulletItemSchema.dump item), d')
            else (Raise DatabaseError, d)) as Hrun.
  { unfold BulletItemService.create_bullet_item. unfold_m.
    rewrite (load_valid _ Hvalid), list_records_by_spec.
    fold (active_count (BulletItemCreateSchema.spec_id data) d).
    rewrite (proj2 (Nat.leb_gt _ _) Hroom).
    rewrite (init_valid _ _ _ Hvalid). fold item.
    unfold create_record. cbn [pk table set_table BulletItem_Base].
    cbn [BulletItem.id item]. rewrite Hfresh.
    by destruct (references item d). }
  split.
  - intros Hparent. rewrite Hrun.
    rewrite (proj2 (references_bullet_item item d)) by exact Hparent.
    split; [done|].
    unfold BulletItemService.get_bullet_item, get_record. unfold_m.
    cbn [pk deleted table BulletItem_Base bullet_items d'].
    rewrite find_app_l.
    rewrite (find_weaken (λ r, bool_decide (BulletItem.id r = new_id)) _ _)
      by (try exact Hfresh; intros x [? _]%andb_true_iff; done).
    simpl. by rewrite bool_decide_eq_true_2.
  - intros Horphan. rewrite Hrun.
    destruct (references item d) eqn:Hparent; [|done].
    apply references_bullet_item in Hparent
      as (specification & Hin & Hid).
    by destruct (Horphan specification Hin).
Qed.

Lemma create_bullet_item_succeeds_witness :
  let item :=
    BulletItem.mk "k" Examples.now Examples.now false "S" "fourth" 1 in
  let d' :=
    mkDatabase (users Examples.db3) (projects Examples.db3)
      (specifications Examples.db3) (bullet_items Examples.db3 ++ [item]) in
  BulletItemService.create_bullet_item
    (BulletItemCreateSchema.mk "  fourth " 1 "S") "k" Examples.now
    Examples.db3
  = (Ok (BulletItemSchema.dump item), d')
  ∧ BulletItemService.get_bullet_item "k" d'
    = (Ok (BulletItemSchema.dump item), d').
Proof.
  apply (create_bullet_item_succeeds
           (BulletItemCreateSchema.mk "  fourth " 1 "S") "k" Examples.now
           Examples.db3).
  - unfold valid_input. vm_compute. repeat split; congruence.
  - vm_compute. lia.
  - reflexivity.
  - exists Examples.spec_S. split; [|reflexivity].
    unfold Examples.db3. cbn [specifications]. rewrite elem_of_cons.
    by left.
Defined.

(** X4.  Whenever [create_bullet_item] raises, the store is as it was.
    What it raises is the application's [ValidationError] with code
    [ITEM002] (content), marshmallow's [ValidationError] (order), the
    capacity error, or [DatabaseError] (the store refuses the insert). *)
Theorem create_bullet_item_fails_cleanly (data : BulletItemCreateSchema.data)
    (new_id : UUID) (now : datetime) (d : Database) (e : exn) :
  (BulletItemService.create_bullet_item data new_id now d).1 = Raise e →
  (BulletItemService.create_bullet_item data new_id now d).2 = d
  ∧ ((∃ errors, e = ValidationError "ITEM002" errors)
     ∨ (∃ messages, e = SchemaValidationError messages)
     ∨ e = CapacityExceeded
     ∨ e = DatabaseError).
Proof.
  unfold BulletItemService.create_bullet_item. unfold_m.
  unfold BulletItemCreateSchema.load, BulletItemCreateSchema.validate_content,
    BulletItemCreateSchema.validate_order, validate_bullet_item. unfold_m.
  destruct (bool_decide (BulletItemCreateSchema.content data = "")).
  { intros [= <-]. split; [done|]. left. by eexists. }
  destruct (String.length _ =? 0)%nat.
  { intros [= <-]. split; [done|]. left. by eexists. }
  destruct (MAX_CONTENT_LENGTH <? _)%Z.
  { intros [= <-]. split; [done|]. left. by eexists. }
  destruct ((0 <? 0) || (MAX_BULLET_ITEMS <=? 0))%Z eqn:Hzero; [done|].
  destruct ((_ <? 0) || (9 <? _))%Z.
  { intros [= <-]. split; [done|]. right. left. by eexists. }
  cbn [fst snd]. rewrite list_records_by_spec.
  destruct (10 <=? _)%nat.
  { intros [= <-]. split; [done|]. right. right. by left. }
  unfold create_record.
  destruct (BulletItem.__init__ _ _ _ _ _) as [item|?].
  2:{ intros [= <-]. split; [done|]. by repeat right. }
  destruct (select_pk _ _).
  { intros [= <-]. split; [done|]. by repeat right. }
  destruct (references _ _); [done|].
  intros [= <-]. split; [done|]. by repeat right.
Qed.

Lemma create_bullet_item_fails_cleanly_witness :
  (BulletItemService.create_bullet_item
     (BulletItemCreateSchema.mk "text" 12 "S") "k" Examples.now
     Examples.db3).2 = Examples.db3.
Proof.
  apply (create_bullet_item_fails_cleanly
           (BulletItemCreateSchema.mk "text" 12 "S") "k" Examples.now
           Examples.db3
           (SchemaValidationError
              [("order", ["Order must be between 0 and 9"])])).
  reflexivity.
Defined.

Lemma load_valid_update data :
  valid_update data → BulletItemUpdateSchema.load data = Ok data.
Proof.
  intros [Hcontent Horder].
  unfold BulletItemUpdateSchema.load, BulletItemUpdateSchema.validate_content,
    BulletItemUpdateSchema.validate_order, validate_bullet_item. unfold_m.
  destruct (BulletItemUpdateSchema.content data) as [c|].
  - destruct (Hcontent c eq_refl) as [Hne Hlen].
    case_bool_decide as Hc.
    { rewrite Hc in Hne. by rewrite strip_empty in Hne. }
    destruct (String.length _ =? 0)%nat eqn:E.
    { apply Nat.eqb_eq, string_length_0 in E. done. }
    unfold MAX_CONTENT_LENGTH.
    destruct (5000 <? _)%Z eqn:E2; [apply Z.ltb_lt in E2; lia|].
    simpl. destruct (BulletItemUpdateSchema.order data) as [o|]; [|done].
    destruct (Horder o eq_refl) as [Hlo Hhi].
    destruct (_ <? 0)%Z eqn:E3; [apply Z.ltb_lt in E3; lia|].
    destruct (9 <? _)%Z eqn:E4; [apply Z.ltb_lt in E4; lia|]. done.
  - destruct (BulletItemUpdateSchema.order data) as [o|]; [|done].
    destruct (Horder o eq_refl) as [Hlo Hhi].
    destruct (_ <? 0)%Z eqn:E3; [apply Z.ltb_lt in E3; lia|].
    destruct (9 <? _)%Z eqn:E4; [apply Z.ltb_lt in E4; lia|]. done.
Qed.

(** X5.  Once [delete_bullet_item] has succeeded on an id, the item is
    gone for the service: [get_bullet_item], [delete_bullet_item] again
    and [update_bullet_item] with valid data all raise
    [ResourceNotFoundError] and leave the store as it is. *)
Theorem deleted_item_is_not_found (item_id : UUID) (now : datetime)
    (d d1 : Database) (message : json) :
  BulletItemService.delete_bullet_item item_id now d = (Ok message, d1) →
  BulletItemService.get_bullet_item item_id d1 = (Raise NotFound, d1)
  ∧ (∀ now', BulletItemService.delete_bullet_item item_id now' d1
             = (Raise NotFound, d1))
  ∧ (∀ now' data, valid_update data →
       BulletItemService.update_bullet_item item_id data now' d1
       = (Raise NotFound, d1)).
Proof.
  unfold BulletItemService.delete_bullet_item at 1. unfold get_record.
  unfold_m.
  destruct (List.find _ _) as [item|] eqn:Hfind; [|done].
  apply List.find_some in Hfind as [_ Hp].
  apply andb_true_iff in Hp as [Hp _]. apply bool_decide_eq_true in Hp.
  subst item_id.
  unfold delete_record. destruct (select_pk _ _); [|done].
  intros [= _ <-].
  assert (get_record (T := BulletItem.t) (pk item)
            (set_table
               (update_where_pk (pk item) (soft_delete now) (table d)) d)
          = (Ok None,
             set_table
               (update_where_pk (pk item) (soft_delete now) (table d)) d))
    as Hgone.
  { unfold get_record, gets. rewrite table_set_table.
    by rewrite find_update_where_pk_deleted. }
  cbn [pk table set_table BulletItem_Base] in Hgone |- *.
  split; [|split].
  - unfold BulletItemService.get_bullet_item. unfold_m. by rewrite Hgone.
  - intros now'. unfold BulletItemService.delete_bullet_item. unfold_m.
    by rewrite Hgone.
  - intros now' data Hvalid.
    unfold BulletItemService.update_bullet_item. unfold_m.
    rewrite (load_valid_update _ Hvalid). by rewrite Hgone.
Qed.

Lemma deleted_item_is_not_found_witness :
  let d1 :=
    (BulletItemService.delete_bullet_item "b" Examples.now Examples.db3).2 in
  BulletItemService.get_bullet_item "b" d1 = (Raise NotFound, d1)
  ∧ BulletItemService.delete_bullet_item "b" Examples.now d1
    = (Raise NotFound, d1)
  ∧ BulletItemService.update_bullet_item "b"
      (BulletItemUpdateSchema.mk (Some "new") None) Examples.now d1
    = (Raise NotFound, d1).
Proof.
  intros d1.
  destruct (deleted_item_is_not_found "b" Examples.now Examples.db3 d1
              (JObj [("message", JStr "Bullet item deleted successfully")])
              eq_refl) as (Hget & Hdelete & Hupdate).
  split; [exact Hget|]. split; [apply Hdelete|]. apply Hupdate.
  split.
  - intros c [= <-]. vm_compute. split; congruence.
  - intros o [=].
Defined.

Lemma insert_by_order_perm x l :
  BulletItemService.insert_by_order x l ≡ₚ x :: l.
Proof.
  induction l as [|y l IH]; simpl; [done|].
  destruct (_ <=? _)%Z; [done|]. rewrite IH. apply Permutation_swap.
Qed.

Lemma sort_by_order_perm l : BulletItemService.sort_by_order l ≡ₚ l.
Proof.
  induction l as [|x l IH]; simpl; [done|].
  rewrite insert_by_order_perm. by rewrite IH.
Qed.

Lemma insert_by_order_sorted x l :
  StronglySorted in_order l →
  StronglySorted in_order (BulletItemService.insert_by_order x l).
Proof.
  induction 1 as [|y l Hsorted IH Hall]; simpl.
  { repeat constructor. }
  destruct (_ <=? _)%Z eqn:Hle.
  - apply Z.leb_le in Hle. constructor; [by constructor|].
    constructor; [exact Hle|].
    eapply Forall_impl; [exact Hall|]. unfold in_order. intros z Hz. lia.
  - apply Z.leb_gt in Hle. constructor; [exact IH|].
    rewrite insert_by_order_perm. constructor; [|exact Hall].
    unfold in_order. lia.
Qed.

Lemma with_order_insert_by_order o x l :
  with_order o (BulletItemService.insert_by_order x l)
  = with_order o (x :: l).
Proof.
  unfold with_order. induction l as [|y l IH]; [done|].
  cbn [BulletItemService.insert_by_order].
  destruct (_ <=? _)%Z eqn:Hle; [done|]. apply Z.leb_gt in Hle.
  cbn [List.filter] in IH |- *. rewrite IH.
  destruct (BulletItem.order x =? o)%Z eqn:Hx; [|done].
  apply Z.eqb_eq in Hx.
  by replace (BulletItem.order y =? o)%Z with false
    by (symmetry; apply Z.eqb_neq; lia).
Qed.

(** X6.  [list_specification_items] returns the dumps of exactly the
    active items of the specification (each once), in ascending [order];
    items that share an [order] value keep the order they have in the
    table. *)
Theorem list_specification_items_sorted (spec_id : UUID) (d : Database) :
  ∃ items,
    BulletItemService.list_specification_items spec_id d
    = (Ok (BulletItemSchema.dump <$> items), d)
    ∧ items ≡ₚ active_items spec_id d
    ∧ StronglySorted in_order items
    ∧ ∀ o, with_order o items = with_order o (active_items spec_id d).
Proof.
  exists (BulletItemService.sort_by_order (active_items spec_id d)).
  split; [apply list_specification_items_eq|].
  split; [apply sort_by_order_perm|].
  generalize (active_items spec_id d). intros l. split.
  - induction l as [|x l IH]; simpl; [constructor|].
    by apply insert_by_order_sorted.
  - intros o. induction l as [|x l IH]; [done|].
    cbn [BulletItemService.sort_by_order foldr].
    rewrite with_order_insert_by_order. unfold with_order in *.
    cbn [List.filter]. fold (BulletItemService.sort_by_order l).
    by rewrite IH.
Qed.

(** ** Bullet items: update *)

Lemma find_by_id (p : BulletItem.t → bool) rows item :
  NoDup (BulletItem.id <$> rows) →
  item ∈ rows → p item = true →
  (∀ r, p r = true → BulletItem.id r = BulletItem.id item) →
  List.find p rows = Some item.
Proof.
  intros Hnodup Hin Hp Hid.
  destruct (find_is_Some p rows item Hin Hp) as (y & Hfind & Hy).
  rewrite Hfind. f_equal.
  apply List.find_some in Hfind as [Hiny _]. apply list_elem_of_In in Hiny.
  eapply NoDup_fmap_inj_on; eauto.
Qed.

Lemma same_identity_refl r : same_identity r r.
Proof. by repeat split. Qed.

Lemma same_identity_trans r1 r2 r3 :
  same_identity r1 r2 → same_identity r2 r3 → same_identity r1 r3.
Proof.
  intros (?&?&?&?) (?&?&?&?). repeat split; congruence.
Qed.

Lemma same_identity_flush_row now (assign : BulletItem.t → BulletItem.t) r :
  same_identity r (assign r) → same_identity r (flush_row now assign r).
Proof.
  intros Hassign. unfold flush_row. case_decide; [apply same_identity_refl|].
  destruct Hassign as (?&?&?&?). by repeat split.
Qed.

Lemma same_identity_assign data r :
  same_identity r (BulletItemUpdateSchema.assign data r).
Proof.
  unfold BulletItemUpdateSchema.assign.
  destruct (BulletItemUpdateSchema.content data),
    (BulletItemUpdateSchema.order data); by repeat split.
Qed.

Lemma same_identity_row_step now update r :
  same_identity r (row_step now update r).
Proof.
  unfold row_step.
  destruct (BulletItemService.str_key _); [|apply same_identity_refl].
  destruct (int_value _); [|apply same_identity_refl].
  case_decide; [|apply same_identity_refl].
  apply same_identity_flush_row. by repeat split.
Qed.

Lemma same_identity_row_final now order_updates r :
  same_identity r (row_final now order_updates r).
Proof.
  induction order_updates as [|update order_updates IH] using rev_ind.
  - apply same_identity_refl.
  - rewrite row_final_snoc. eapply same_identity_trans; [exact IH|].
    apply same_identity_row_step.
Qed.

Lemma same_identity_keeps r r' : same_identity r r' → keeps r r'.
Proof. intros (?&?&?&?). repeat split; congruence. Qed.

Lemma keeps_refl r : keeps r r.
Proof. by repeat split. Qed.

Lemma keeps_trans r1 r2 r3 : keeps r1 r2 → keeps r2 r3 → keeps r1 r3.
Proof.
  intros (?&?&?&?) (?&?&?&?). repeat split; try congruence. auto.
Qed.

Lemma keeps_soft_delete now (r : BulletItem.t) : keeps r (soft_delete now r).
Proof. by repeat split. Qed.

Lemma update_record_footprint (item : BulletItem.t)
    (assign : BulletItem.t → BulletItem.t) now d :
  (update_record item assign now d).2 = d
  ∨ (update_record item assign now d).2
    = mkDatabase (users d) (projects d) (specifications d)
        (update_where_pk (BulletItem.id item) (flush_row now assign)
           (bullet_items d)).
Proof.
  unfold update_record. cbn [pk table set_table BulletItem_Base].
  destruct (select_pk _ _); [by right|by left].
Qed.

Lemma select_pk_update_where_pk (g : BulletItem.t → BulletItem.t) rows item :
  NoDup (BulletItem.id <$> rows) →
  item ∈ rows →
  (∀ r, BulletItem.id (g r) = BulletItem.id r) →
  select_pk (BulletItem.id item)
    (update_where_pk (BulletItem.id item) g rows) = Some (g item).
Proof.
  intros Hnodup Hin Hg. unfold select_pk. cbn [pk BulletItem_Base].
  apply find_by_id.
  - by rewrite update_where_pk_ids.
  - by apply (@elem_of_update_where_pk _ BulletItem_Base).
  - apply bool_decide_eq_true_2. apply Hg.
  - intros r Hr. apply bool_decide_eq_true in Hr. by rewrite Hr, Hg.
Qed.

(** X7.  On an active item and valid data, with the primary key holding,
    [update_bullet_item] succeeds and returns the dump of the new row.
    The row keeps its id, creation time, deletion flag and specification;
    it takes the content and the order that the data carry (the content as
    sent, not trimmed) and keeps the ones the data leave out; [updated_at]
    is restamped exactly when one of the two changed.  Every other row and
    the other tables are as they were. *)
Theorem update_bullet_item_writes_one_row (item : BulletItem.t)
    (data : BulletItemUpdateSchema.data) (now : datetime) (d : Database) :
  unique_ids d →
  valid_update data →
  item ∈ bullet_items d →
  BulletItem.is_deleted item = false →
  ∃ item' d',
    BulletItemService.update_bullet_item (BulletItem.id item) data now d
    = (Ok (BulletItemSchema.dump item'), d')
    ∧ same_identity item item'
    ∧ BulletItem.content item'
      = default (BulletItem.content item) (BulletItemUpdateSchema.content data)
    ∧ BulletItem.order item'
      = default (BulletItem.order item) (BulletItemUpdateSchema.order data)
    ∧ BulletItem.updated_at item'
      = (if decide (BulletItem.content item' = BulletItem.content item
                    ∧ BulletItem.order item' = BulletItem.order item)
         then BulletItem.updated_at item else now)
    ∧ projects d' = projects d
    ∧ specifications d' = specifications d
    ∧ bullet_items d'
      = (λ r, if decide (BulletItem.id r = BulletItem.id item)
              then item' else r) <$> bullet_items d.
Proof.
  intros Huniq Hvalid Hin Hactive.
  exists (flush_row now (BulletItemUpdateSchema.assign data) item),
    (mkDatabase (users d) (projects d) (specifications d)
       (update_where_pk (BulletItem.id item)
          (flush_row now (BulletItemUpdateSchema.assign data))
          (bullet_items d))).
  assert (∀ r, BulletItem.id
                 (flush_row now (BulletItemUpdateSchema.assign data) r)
               = BulletItem.id r) as Hid.
  { intros r.
    by destruct (same_identity_flush_row now
                   (BulletItemUpdateSchema.assign data) r
                   (same_identity_assign data r)) as (? & _). }
  split; [|split; [|split; [|split; [|split; [|split; [done|split; [done|]]]]]]].
  - unfold BulletItemService.update_bullet_item. unfold_m.
    rewrite (load_valid_update _ Hvalid).
    unfold get_record, gets. cbn [pk deleted table BulletItem_Base].
    rewrite (find_by_id _ _ item Huniq Hin).
    + unfold update_record. cbn [pk table set_table BulletItem_Base].
      by rewrite (select_pk_update_where_pk _ _ _ Huniq Hin Hid).
    + rewrite Hactive. by rewrite bool_decide_eq_true_2.
    + intros r [Hr _]%andb_true_iff. by apply bool_decide_eq_true in Hr.
  - apply same_identity_flush_row, same_identity_assign.
  - unfold flush_row. case_decide as Heq; [rewrite <- Heq at 1|];
      unfold BulletItemUpdateSchema.assign;
      by destruct (BulletItemUpdateSchema.content data),
        (BulletItemUpdateSchema.order data).
  - unfold flush_row. case_decide as Heq; [rewrite <- Heq at 1|];
      unfold BulletItemUpdateSchema.assign;
      by destruct (BulletItemUpdateSchema.content data),
        (BulletItemUpdateSchema.order data).
  - unfold flush_row.
    destruct (decide (BulletItemUpdateSchema.assign data item = item))
      as [Heq|Hne].
    + by rewrite decide_True.
    + rewrite decide_False; [done|]. intros [Hc Ho]. apply Hne.
      revert Hc Ho. unfold BulletItemUpdateSchema.assign.
      destruct item as [i c u del sp co o].
      destruct (BulletItemUpdateSchema.content data) as [c'|],
        (BulletItemUpdateSchema.order data) as [o'|];
        unfold BulletItem.set_content, BulletItem.set_order; cbn;
        intros; subst; done.
  - cbn [bullet_items]. unfold update_where_pk.
    apply list_fmap_ext. intros k r Hr. cbn [pk BulletItem_Base].
    case_decide as Hsame; [|done]. f_equal.
    apply list_elem_of_lookup_2 in Hr.
    by apply (NoDup_fmap_inj_on BulletItem.id (bullet_items d)).
Qed.

Lemma update_bullet_item_writes_one_row_witness :
  ∃ item' d',
    BulletItemService.update_bullet_item "b"
      (BulletItemUpdateSchema.mk (Some " new ") None) Examples.now
      Examples.db3
    = (Ok (BulletItemSchema.dump item'), d')
    ∧ BulletItem.content item' = " new "
    ∧ BulletItem.order item' = 1%Z.
Proof.
  destruct (update_bullet_item_writes_one_row (Examples.item "b" "S" 1)
              (BulletItemUpdateSchema.mk (Some " new ") None) Examples.now
              Examples.db3)
    as (item' & d' & Hrun & _ & Hcontent & Horder & _).
  - apply (bool_decide_unpack _). by vm_compute.
  - split.
    + intros c [= <-]. vm_compute. split; congruence.
    + intros o [=].
  - unfold Examples.db3. cbn [bullet_items]. rewrite !elem_of_cons. tauto.
  - reflexivity.
  - exists item', d'. split; [exact Hrun|]. split; [exact Hcontent|].
    exact Horder.
Defined.

(** ** Invariants of the bullet-item requests *)

Lemma create_bullet_item_cases data new_id now d :
  (BulletItemService.create_bullet_item data new_id now d).2 = d
  ∨ ∃ item,
      (BulletItemService.create_bullet_item data new_id now d).2
      = mkDatabase (users d) (projects d) (specifications d)
          (bullet_items d ++ [item])
      ∧ BulletItem.id item = new_id
      ∧ select_pk new_id (bullet_items d) = None
      ∧ (active_count (BulletItem.spec_id item) d < 10)%nat.
Proof.
  unfold BulletItemService.create_bullet_item. unfold_m.
  destruct (BulletItemCreateSchema.load data) as [vd|e] eqn:Hload; [|by left].
  assert (vd = data) as ->.
  { revert Hload. unfold BulletItemCreateSchema.load. unfold_m.
    destruct (BulletItemCreateSchema.validate_content _); [|done].
    destruct (BulletItemCreateSchema.validate_order _); [|done].
    by intros [= ->]. }
  rewrite list_records_by_spec.
  fold (active_count (BulletItemCreateSchema.spec_id data) d).
  destruct (10 <=? _)%nat eqn:Hcap; [by left|].
  apply Nat.leb_gt in Hcap.
  unfold create_record, BulletItem.__init__.
  destruct (_ || _); [by left|].
  destruct (negb _); [by left|].
  cbn [pk table set_table BulletItem_Base BulletItem.id].
  destruct (select_pk _ _) eqn:Hfresh; [by left|].
  destruct (references _ _); [|by left].
  right. eexists. cbn [snd]. split; [done|]. by repeat split.
Qed.

Lemma reorder_items_footprint spec_id order_updates now d :
  (BulletItemService.reorder_items spec_id order_updates now d).2 = d
  ∨ (Forall (entry_passes spec_id d) order_updates
     ∧ (BulletItemService.reorder_items spec_id order_updates now d).2
       = mkDatabase (users d) (projects d) (specifications d)
           (row_final now order_updates <$> bullet_items d)).
Proof.
  pose proof (validate_updates_spec spec_id d order_updates) as Hspec.
  destruct (BulletItemService.validate_updates _ _) as [[]|e] eqn:Hval.
  - right. split; [exact Hspec|].
    destruct (reorder_items_runs spec_id order_updates now d Hspec)
      as (dumped & ->).
    cbn [snd]. by rewrite foldl_apply_update.
  - left. by rewrite (reorder_items_raises _ _ _ _ _ Hval).
Qed.

(** What one request does to the table: it maps the rows, keeping what
    [keeps] names, and appends at most one row, under a fresh id and to a
    specification with room. *)
Lemma perform_footprint d op :
  ∃ f new,
    perform d op
    = mkDatabase (users d) (projects d) (specifications d)
        ((f <$> bullet_items d) ++ new)%list
    ∧ (∀ r, keeps r (f r))
    ∧ (new = []
       ∨ ∃ item, new = [item]
           ∧ f = id
           ∧ select_pk (BulletItem.id item) (bullet_items d) = None
           ∧ (active_count (BulletItem.spec_id item) d < 10)%nat).
Proof.
  assert (∀ d' : Database, d' = d →
            d' = mkDatabase (users d) (projects d) (specifications d)
                   ((id <$> bullet_items d) ++ [])%list) as Hsame.
  { intros d' ->. rewrite list_fmap_id, app_nil_r. by destruct d. }
  destruct op as [data new_id now|item_id data now|item_id now
                 |spec_id order_updates now]; cbn [perform].
  - destruct (create_bullet_item_cases data new_id now d)
      as [Hd|(item & -> & Hid & Hfresh & Hroom)].
    + exists id, []. split; [by apply Hsame|]. split; [apply keeps_refl|].
      by left.
    + exists id, [item]. rewrite list_fmap_id. split; [done|].
      split; [apply keeps_refl|]. right. exists item. by rewrite Hid.
  - unfold BulletItemService.update_bullet_item. unfold_m.
    destruct (BulletItemUpdateSchema.load data) as [vd|e].
    2:{ exists id, []. split; [by apply Hsame|]. split; [apply keeps_refl|].
        by left. }
    unfold get_record, gets.
    destruct (List.find _ _) as [item|].
    2:{ exists id, []. split; [by apply Hsame|]. split; [apply keeps_refl|].
        by left. }
    pose proof (update_record_footprint item
                  (BulletItemUpdateSchema.assign vd) now d) as Hfoot.
    destruct (update_record item _ now d) as [[updated|e] d'].
    all: cbn [fst snd] in *.
    all: destruct Hfoot as [->| ->].
    all: try (exists id, []; split; [by apply Hsame|];
              split; [apply keeps_refl|]; by left).
    all: eexists _, []; rewrite app_nil_r;
      (split; [reflexivity|]); (split; [|by left]);
      intros r; cbn beta; case_decide; [|apply keeps_refl];
      apply same_identity_keeps, same_identity_flush_row,
        same_identity_assign.
  - destruct (delete_bullet_item_footprint item_id now d) as [Hd| ->].
    + exists id, []. split; [by apply Hsame|]. split; [apply keeps_refl|].
      by left.
    + eexists _, []. rewrite app_nil_r. split; [reflexivity|].
      split; [|by left]. intros r. cbn beta.
      case_decide; [apply keeps_soft_delete|apply keeps_refl].
  - destruct (reorder_items_footprint spec_id order_updates now d)
      as [Hd|[_ ->]].
    + exists id, []. split; [by apply Hsame|]. split; [apply keeps_refl|].
      by left.
    + eexists _, []. rewrite app_nil_r. split; [reflexivity|].
      split; [|by left]. intros r.
      apply same_identity_keeps, same_identity_row_final.
Qed.

Lemma perform_all_cons op ops d :
  perform_all (op :: ops) d = perform_all ops (perform d op).
Proof. done. Qed.

(** X8.  Whatever sequence of create, update, delete and reorder requests
    is served, no row of [bullet_items] is removed or moved: the rows that
    were there are still there, in place, each with its id, creation time
    and specification, and those that were deleted are still deleted; new
    rows come after them.  The other two tables are not written. *)
Theorem bullet_item_rows_are_kept (ops : list operation) (d : Database) :
  projects (perform_all ops d) = projects d
  ∧ specifications (perform_all ops d) = specifications d
  ∧ ∃ rows new,
      bullet_items (perform_all ops d) = (rows ++ new)%list
      ∧ Forall2 keeps (bullet_items d) rows.
Proof.
  revert d. induction ops as [|op ops IH]; intros d.
  { split; [done|]. split; [done|]. exists (bullet_items d), [].
    rewrite app_nil_r. split; [done|].
    apply Forall2_same_length_lookup_2; [done|].
    intros i x y Hx Hy. rewrite Hx in Hy. injection Hy as <-.
    apply keeps_refl. }
  rewrite perform_all_cons.
  destruct (IH (perform d op)) as (Hp & Hs & rows & new & Hrows & Hkeeps).
  destruct (perform_footprint d op) as (f & new1 & Hop & Hf & _).
  rewrite Hp, Hs, Hrows. rewrite Hop in Hkeeps |- *.
  cbn [projects specifications bullet_items] in *.
  split; [done|]. split; [done|].
  apply Forall2_app_inv_l in Hkeeps as (k1 & k2 & Hk1 & Hk2 & ->).
  exists k1, (k2 ++ new)%list. split; [by rewrite <- app_assoc|].
  rewrite Forall2_fmap_l in Hk1.
  eapply Forall2_impl; [exact Hk1|].
  intros r r' Hr. eapply keeps_trans; [apply Hf|exact Hr].
Qed.

Lemma select_pk_None_not_elem_of key (rows : list BulletItem.t) :
  select_pk key rows = None → key ∉ BulletItem.id <$> rows.
Proof.
  intros Hnone Hin. apply list_elem_of_fmap in Hin as (r & -> & Hin).
  apply list_elem_of_In in Hin.
  pose proof (List.find_none _ _ Hnone r Hin) as Hr.
  cbn [pk BulletItem_Base] in Hr. by rewrite bool_decide_eq_true_2 in Hr.
Qed.

Lemma perform_unique_ids d op : unique_ids d → unique_ids (perform d op).
Proof.
  unfold unique_ids. intros Huniq.
  destruct (perform_footprint d op) as (f & new & -> & Hf & Hnew).
  cbn [bullet_items]. rewrite fmap_app, <- list_fmap_compose.
  assert (BulletItem.id ∘ f <$> bullet_items d
          = BulletItem.id <$> bullet_items d) as ->.
  { apply list_fmap_ext. intros ? r _. by destruct (Hf r) as [? _]. }
  destruct Hnew as [->|(item & -> & _ & Hfresh & _)].
  { by rewrite app_nil_r. }
  apply NoDup_app. split; [done|]. split; [|apply NoDup_singleton].
  intros key Hkey Hitem. apply list_elem_of_singleton in Hitem as ->.
  by apply select_pk_None_not_elem_of in Hfresh.
Qed.

(** X9.  The primary key of the bullet items holds throughout: from a
    table without two rows of the same id, no sequence of create, update,
    delete and reorder requests gives two rows the same id. *)
Theorem unique_ids_is_invariant (ops : list operation) (d : Database) :
  unique_ids d → unique_ids (perform_all ops d).
Proof.
  revert d. induction ops as [|op ops IH]; intros d Huniq; [done|].
  rewrite perform_all_cons. by apply IH, perform_unique_ids.
Qed.

Lemma unique_ids_is_invariant_witness :
  unique_ids
    (perform_all
       [OpCreate (BulletItemCreateSchema.mk "text" 1 "S") "a" Examples.now;
        OpReorder "S" [Examples.entry "a" 2; Examples.entry "b" 2]
          Examples.now;
        OpDelete "c" Examples.now]
       Examples.db3).
Proof.
  apply unique_ids_is_invariant.
  apply (bool_decide_unpack _). by vm_compute.
Defined.

Lemma is_active_keeps spec_id r r' :
  keeps r r' → is_active spec_id r' = true → is_active spec_id r = true.
Proof.
  intros (_ & _ & Hspec & Hdel). unfold is_active. rewrite Hspec.
  destruct (BulletItem.is_deleted r).
  - by rewrite Hdel.
  - by intros [_ ->]%andb_true_iff.
Qed.

Lemma active_fmap_keeps spec_id (f : BulletItem.t → BulletItem.t) rows :
  (∀ r, keeps r (f r)) →
  (length (List.filter (is_active spec_id) (f <$> rows))
   ≤ length (List.filter (is_active spec_id) rows))%nat.
Proof.
  intros Hf. induction rows as [|r rows IH]; [done|].
  rewrite fmap_cons. cbn [List.filter].
  pose proof (is_active_keeps spec_id r (f r) (Hf r)) as Hr.
  destruct (is_active spec_id (f r)).
  - rewrite Hr by done. cbn [length]. lia.
  - destruct (is_active spec_id r); cbn [length]; lia.
Qed.

Lemma perform_keeps_cap spec_id d op :
  (active_count spec_id d ≤ 10)%nat →
  (active_count spec_id (perform d op) ≤ 10)%nat.
Proof.
  intros Hcap.
  destruct (perform_footprint d op) as (f & new & -> & Hf & Hnew).
  destruct Hnew as [->|(item & -> & -> & _ & Hroom)].
  - rewrite app_nil_r. unfold active_count, active_items in *.
    cbn [bullet_items].
    pose proof (active_fmap_keeps spec_id f (bullet_items d) Hf). lia.
  - rewrite list_fmap_id, active_count_app.
    replace (mkDatabase (users d) (projects d) (specifications d) (bullet_items d))
      with d by by destruct d.
    unfold is_active. case_bool_decide as Hspec.
    + rewrite Hspec in Hroom. destruct (negb _); simpl; lia.
    + rewrite andb_false_r. lia.
Qed.

(** X10.  The cap holds for every request that writes bullet items, not
    only for create and delete: from a store in which the specification
    has at most 10 active items, no sequence of create, update, delete and
    reorder requests leaves it with more than 10. *)
Theorem cap_holds_for_all_requests (spec_id : UUID) (ops : list operation)
    (d : Database) :
  (active_count spec_id d ≤ 10)%nat →
  (active_count spec_id (perform_all ops d) ≤ 10)%nat.
Proof.
  revert d. induction ops as [|op ops IH]; intros d Hcap; [done|].
  rewrite perform_all_cons. by apply IH, perform_keeps_cap.
Qed.

Lemma cap_holds_for_all_requests_witness :
  (active_count "S"
     (perform_all
        [OpCreate (BulletItemCreateSchema.mk "text" 1 "S") "k" Examples.now;
         OpUpdate "a" (BulletItemUpdateSchema.mk (Some "new") (Some 4%Z))
           Examples.now;
         OpReorder "S" [Examples.entry "a" 2] Examples.now]
        Examples.db10) ≤ 10)%nat.
Proof.
  apply cap_holds_for_all_requests. vm_compute. lia.
Defined.

(** ** Reorder: what it returns and what it leaves alone *)

(** The objects of the second loop stay in step with the table: when the
    loop ends, each object of the map is a row of the table, under its own
    id, and the loop has recorded one key per entry, the entry's id. *)
Lemma update_loop_heap now order_updates :
  ∀ heap keys d heap' keys' d',
    (∀ key item, heap !! key = Some item →
       BulletItem.id item = key ∧ item ∈ bullet_items d) →
    BulletItemService.update_loop now order_updates heap keys d
    = (Ok (heap', keys'), d') →
    (∀ key item, heap' !! key = Some item →
       BulletItem.id item = key ∧ item ∈ bullet_items d')
    ∧ ∃ new_keys,
        keys' = (keys ++ new_keys)%list
        ∧ Forall2 (λ update key, dict_get update "id" = JStr key)
            order_updates new_keys.
Proof.
  induction order_updates as [|update rest IH];
    intros heap keys d heap' keys' d' Hheap.
  { cbn [BulletItemService.update_loop]. unfold_m. intros [= <- <- <-].
    split; [done|]. exists []. by rewrite app_nil_r. }
  cbn [BulletItemService.update_loop]. unfold_m. unfold subscript.
  destruct (dict_lookup update "id") as [v|] eqn:Hv; [|done].
  unfold BulletItemService.item_of.
  destruct (BulletItemService.str_key v) as [key|] eqn:Hkey; [|done].
  destruct (heap !! key) as [item|] eqn:Hitem; [|done].
  destruct (dict_lookup update "order") as [o|]; [|done].
  unfold BulletItemService.update_order.
  destruct (int_value o) as [z|]; [|done].
  cbn [fst snd]. unfold update_record.
  cbn [pk table set_table BulletItem_Base].
  destruct (select_pk _ _) as [updated|] eqn:Hsel; [|done].
  cbn [fst snd]. intros Hloop.
  destruct (Hheap key item Hitem) as [Hid Hin].
  apply List.find_some in Hsel as [Hupdated Hupdated_id].
  apply list_elem_of_In in Hupdated.
  apply bool_decide_eq_true in Hupdated_id.
  cbn [pk BulletItem_Base] in Hupdated_id.
  apply IH in Hloop as [Hheap' (new_keys & -> & Hkeys)].
  - split; [exact Hheap'|]. exists (key :: new_keys).
    split; [by rewrite <- app_assoc|]. constructor; [|done].
    unfold dict_get. rewrite Hv. destruct v; try done.
    cbn in Hkey |- *. congruence.
  - intros k it Hk. cbn [bullet_items].
    destruct (decide (key = k)) as [<-|Hne].
    + rewrite lookup_insert_eq in Hk. injection Hk as <-.
      split; [congruence|done].
    + rewrite lookup_insert_ne in Hk by done.
      destruct (Hheap k it Hk) as [Hit Hin_it]. split; [done|].
      unfold update_where_pk. apply list_elem_of_fmap. exists it.
      split; [|done]. cbn [pk BulletItem_Base].
      rewrite decide_False; [done|]. congruence.
Qed.

Lemma dump_many_lookup heap keys dumped :
  BulletItemService.dump_many heap keys = Ok dumped →
  Forall2 (λ key out, ∃ item,
             heap !! key = Some item ∧ out = BulletItemSchema.dump item)
    keys dumped.
Proof.
  revert dumped. induction keys as [|key keys IH]; intros dumped; simpl.
  { intros [= <-]. constructor. }
  destruct (heap !! key) as [item|] eqn:Hitem; [|done]. unfold_m.
  destruct (BulletItemService.dump_many heap keys) as [rest|]; [|done].
  intros [= <-]. constructor; [by exists item|]. by apply IH.
Qed.

(** X11.  On a payload whose entries all pass, [reorder_items] returns one
    item per entry, in payload order, and each is the dump of the named
    row as the whole call leaves it, not as the entry's own write left it:
    an item named by several entries comes back once per entry, every time
    with the order of its last entry. *)
Theorem reorder_items_returns_final_rows (spec_id : UUID)
    (order_updates : list (list (string * json))) (now : datetime)
    (d : Database) :
  Forall (entry_passes spec_id d) order_updates →
  ∃ dumped d',
    BulletItemService.reorder_items spec_id order_updates now d
    = (Ok dumped, d')
    ∧ bullet_items d' = row_final now order_updates <$> bullet_items d
    ∧ Forall2
        (λ update out, ∃ r,
           r ∈ bullet_items d
           ∧ dict_get update "id" = JStr (BulletItem.id r)
           ∧ out = BulletItemSchema.dump (row_final now order_updates r))
        order_updates dumped.
Proof.
  intros Hpass.
  destruct (reorder_items_runs spec_id order_updates now d Hpass)
    as (dumped & Hrun).
  eexists dumped, _. split; [exact Hrun|].
  split; [cbn [bullet_items]; apply foldl_apply_update|].
  revert Hrun. unfold BulletItemService.reorder_items. unfold_m.
  rewrite list_records_by_spec.
  destruct (BulletItemService.validate_updates _ _) as [[]|]; [|done].
  cbn [fst snd].
  destruct (BulletItemService.update_loop _ _ _ _ _)
    as [[[heap' keys']|] d'] eqn:Hloop; [|done].
  cbn [fst snd].
  destruct (BulletItemService.dump_many heap' keys') as [out|] eqn:Hdump;
    [|done].
  intros [= -> Hd'].
  apply update_loop_heap in Hloop as [Hheap' (new_keys & -> & Hkeys)].
  2:{ intros key item Hitem.
      apply existing_map_of_lookup in Hitem as [Hin Hid]. split; [done|].
      by apply elem_of_active_items in Hin as [? _]. }
  apply dump_many_lookup in Hdump. cbn [app] in Hdump.
  eapply Forall2_trans; [|exact Hkeys|exact Hdump].
  intros update key o Hid (item & Hitem & ->). cbn beta in Hid.
  destruct (Hheap' key item Hitem) as [Hitem_id Hin].
  rewrite Hd' in Hin. cbn [bullet_items] in Hin.
  rewrite foldl_apply_update in Hin.
  apply list_elem_of_fmap in Hin as (r & -> & Hr).
  exists r. split; [done|]. split; [|done].
  rewrite row_final_id in Hitem_id. by rewrite Hitem_id.
Qed.

Lemma reorder_items_returns_final_rows_witness :
  ∃ dumped d',
    BulletItemService.reorder_items "S"
      [Examples.entry "a" 5; Examples.entry "a" 7] Examples.now Examples.db3
    = (Ok dumped, d')
    ∧ length dumped = 2%nat.
Proof.
  destruct (reorder_items_returns_final_rows "S"
              [Examples.entry "a" 5; Examples.entry "a" 7] Examples.now
              Examples.db3)
    as (dumped & d' & Hrun & _ & Hout).
  - repeat constructor; apply db3_entry_passes_a; lia.
  - exists dumped, d'. split; [exact Hrun|].
    apply Forall2_length in Hout. by rewrite <- Hout.
Defined.

Lemma content_row_step now update r :
  BulletItem.content (row_step now update r) = BulletItem.content r.
Proof.
  unfold row_step. destruct (BulletItemService.str_key _); [|done].
  destruct (int_value _); [|done]. case_decide; [|done].
  unfold flush_row. by case_decide.
Qed.

Lemma content_row_final now order_updates r :
  BulletItem.content (row_final now order_updates r) = BulletItem.content r.
Proof.
  induction order_updates as [|update order_updates IH] using rev_ind;
    [done|].
  by rewrite row_final_snoc, content_row_step.
Qed.

(** X12.  [reorder_items] writes nothing but the order (and the update
    stamp) of the rows its payload names.  Whether it succeeds or raises,
    every row keeps its id, creation time, deletion flag, specification and
    content; and, the primary key holding, a row that is deleted, belongs
    to another specification or is not named by the payload is exactly as
    it was.  The other tables are not written. *)
Theorem reorder_items_writes_named_orders_only (spec_id : UUID)
    (order_updates : list (list (string * json))) (now : datetime)
    (d : Database) :
  unique_ids d →
  let d' := (BulletItemService.reorder_items spec_id order_updates now d).2 in
  projects d' = projects d
  ∧ specifications d' = specifications d
  ∧ Forall2
      (λ r r',
         same_identity r r'
         ∧ BulletItem.content r' = BulletItem.content r
         ∧ (is_active spec_id r = false
            ∨ Forall (λ update,
                        dict_get update "id" ≠ JStr (BulletItem.id r))
                order_updates →
            r' = r))
      (bullet_items d) (bullet_items d').
Proof.
  intros Huniq d'. subst d'.
  destruct (reorder_items_footprint spec_id order_updates now d)
    as [->|[Hpass ->]].
  { split; [done|]. split; [done|]. apply Forall_Forall2_diag.
    apply Forall_forall. intros r _. split; [apply same_identity_refl|].
    done. }
  split; [done|]. split; [done|]. cbn [bullet_items].
  apply Forall2_fmap_r, Forall_Forall2_diag, Forall_forall.
  intros r Hr. cbn beta. unfold compose.
  split; [apply same_identity_row_final|].
  split; [apply content_row_final|].
  intros Hleft. apply row_final_unnamed.
  destruct Hleft as [Hinactive|Hunnamed]; [|done].
  eapply Forall_impl; [exact Hpass|].
  intros update [(item & Hin & Hdel & Hspec & _ & Hid) _] Hname.
  rewrite Hid in Hname. injection Hname as Hname.
  assert (item = r) as ->.
  { by apply (NoDup_fmap_inj_on BulletItem.id (bullet_items d)). }
  unfold is_active in Hinactive. rewrite Hdel, Hspec in Hinactive.
  by rewrite bool_decide_eq_true_2 in Hinactive.
Qed.

Lemma reorder_items_writes_named_orders_only_witness :
  projects
    (BulletItemService.reorder_items "S" [Examples.entry "a" 5] Examples.now
       Examples.db3).2
  = projects Examples.db3.
Proof.
  apply (reorder_items_writes_named_orders_only "S" [Examples.entry "a" 5]
           Examples.now Examples.db3).
  apply (bool_decide_unpack _). by vm_compute.
Defined.

(** X13.  A payload that passes, names every active item of the
    specification and carries pairwise distinct orders leaves the active
    items of the specification with pairwise distinct orders, whatever
    their orders were before. *)
Theorem full_reorder_gives_distinct_orders (spec_id : UUID)
    (order_updates : list (list (string * json))) (now : datetime)
    (d : Database) :
  Forall (entry_passes spec_id d) order_updates →
  NoDup (payload_orders order_updates) →
  (∀ item, item ∈ active_items spec_id d →
     Exists (λ update, dict_get update "id" = JStr (BulletItem.id item))
       order_updates) →
  ∃ dumped d',
    BulletItemService.reorder_items spec_id order_updates now d
    = (Ok dumped, d')
    ∧ ∀ item1 item2,
        item1 ∈ active_items spec_id d' →
        item2 ∈ active_items spec_id d' →
        BulletItem.id item1 ≠ BulletItem.id item2 →
        BulletItem.order item1 ≠ BulletItem.order item2.
Proof.
  intros Hpass Hnodup Hfull.
  destruct (reorder_items_runs spec_id order_updates now d Hpass)
    as (dumped & Hrun).
  eexists dumped, _. split; [exact Hrun|].
  assert (Forall (λ update, order_in_range (dict_get update "order"))
            order_updates) as Hord.
  { eapply Forall_impl; [exact Hpass|]. by intros u [_ ?]. }
  assert (∀ item', item' ∈ active_items spec_id
            (mkDatabase (users d) (projects d) (specifications d)
               (foldl (apply_update now) (bullet_items d) order_updates)) →
          ∃ update, update ∈ order_updates
            ∧ dict_get update "id" = JStr (BulletItem.id item')
            ∧ int_value (dict_get update "order")
              = Some (BulletItem.order item')) as Hnamed.
  { intros item' Hin. apply elem_of_active_items in Hin as (Hin & Hdel & Hspec).
    cbn [bullet_items] in Hin. rewrite foldl_apply_update in Hin.
    apply list_elem_of_fmap in Hin as (item & -> & Hin).
    destruct (same_identity_row_final now order_updates item)
      as (_ & _ & Hdel' & Hspec').
    rewrite row_final_id. apply row_final_named; [done|].
    apply Hfull. apply elem_of_active_items. split; [done|].
    split; congruence. }
  intros item1 item2 Hin1 Hin2 Hids Horders.
  destruct (Hnamed item1 Hin1) as (u1 & Hu1 & Hid1 & Hz1).
  destruct (Hnamed item2 Hin2) as (u2 & Hu2 & Hid2 & Hz2).
  assert (u1 = u2) as ->.
  { apply (NoDup_fmap_inj_on
             (λ update, int_value (dict_get update "order")) order_updates);
      try done.
    simpl. by rewrite Hz1, Hz2, Horders. }
  congruence.
Qed.

Lemma full_reorder_gives_distinct_orders_witness :
  ∃ dumped d',
    BulletItemService.reorder_items "S"
      [Examples.entry "a" 2; Examples.entry "b" 0; Examples.entry "c" 1]
      Examples.now Examples.db3
    = (Ok dumped, d')
    ∧ ∀ item1 item2,
        item1 ∈ active_items "S" d' →
        item2 ∈ active_items "S" d' →
        BulletItem.id item1 ≠ BulletItem.id item2 →
        BulletItem.order item1 ≠ BulletItem.order item2.
Proof.
  apply full_reorder_gives_distinct_orders.
  - constructor; [apply db3_entry_passes_a; lia|].
    constructor; [apply db3_entry_passes_b; lia|].
    constructor; [|constructor].
    apply (entry_passes_intro _ _ (Examples.item "c" "S" 2) 1); try done.
    unfold Examples.db3. cbn [bullet_items]. rewrite !elem_of_cons. tauto.
  - apply (bool_decide_unpack _). by vm_compute.
  - intros item Hin. apply elem_of_active_items in Hin as (Hin & _).
    unfold Examples.db3 in Hin. cbn [bullet_items] in Hin.
    rewrite !elem_of_cons, elem_of_nil in Hin.
    destruct Hin as [->|[->|[->|[]]]].
    + apply Exists_cons_hd. reflexivity.
    + apply Exists_cons_tl, Exists_cons_hd. reflexivity.
    + apply Exists_cons_tl, Exists_cons_tl, Exists_cons_hd. reflexivity.
Defined.

(** ** Validation and the errors a client sees *)

Lemma load_Ok_valid data vd :
  BulletItemCreateSchema.load data = Ok vd → vd = data ∧ valid_input data.
Proof.
  unfold BulletItemCreateSchema.load, BulletItemCreateSchema.validate_content,
    BulletItemCreateSchema.validate_order, validate_bullet_item. unfold_m.
  case_bool_decide as Hempty; [done|].
  destruct (String.length _ =? 0)%nat eqn:Hlen0; [done|].
  destruct (MAX_CONTENT_LENGTH <? _)%Z eqn:Hlen; [done|].
  destruct ((0 <? 0) || (MAX_BULLET_ITEMS <=? 0))%Z eqn:Hzero; [done|].
  destruct ((_ <? 0) || (9 <? _))%Z eqn:Horder; [done|].
  intros [= <-]. split; [done|].
  apply Nat.eqb_neq in Hlen0. apply Z.ltb_ge in Hlen.
  apply orb_false_iff in Horder as [Hlo%Z.ltb_ge Hhi%Z.ltb_ge].
  unfold MAX_CONTENT_LENGTH in Hlen. repeat split; try done.
  intros Hstrip. by rewrite Hstrip in Hlen0.
Qed.

(** X14.  What a client is told.  [get_bullet_item] on an id without an
    active row raises an error with status 404 and, its code being
    [ITEM001], the message ["Maximum items reached"]; it raises nothing
    else but the [DatabaseError] of the store.  Every application
    [ValidationError] of [create_bullet_item] carries status 400; it is
    the capacity error, or it has code [ITEM002], the message ["Invalid
    order value"], and its errors are about the content, never about the
    order. *)
Theorem bullet_item_errors_as_reported :
  (∀ item_id d,
     (get_record (T := BulletItem.t) item_id d).1 = Ok None →
     ∃ e,
       BulletItemService.get_bullet_item item_id d = (Raise e, d)
       ∧ api_status_code e = Some 404%Z
       ∧ api_message e = Some "Maximum items reached")
  ∧ (∀ item_id d e,
       (BulletItemService.get_bullet_item item_id d).1 = Raise e →
       e = DatabaseError
       ∨ (api_status_code e = Some 404%Z
          ∧ api_message e = Some "Maximum items reached"))
  ∧ (∀ data new_id now d code errors,
       (BulletItemService.create_bullet_item data new_id now d).1
       = Raise (ValidationError code errors) →
       api_status_code (ValidationError code errors) = Some 400%Z
       ∧ ((code = "ITEM001"
           ∧ api_message (ValidationError code errors)
             = Some "Maximum items reached")
          ∨ (code = "ITEM002"
             ∧ api_message (ValidationError code errors)
               = Some "Invalid order value"
             ∧ ∃ messages, errors = [("content", messages)]))).
Proof.
  split; [|split].
  - intros item_id d. unfold BulletItemService.get_bullet_item. unfold_m.
    destruct (get_record item_id d) as [[[item|]|e'] d'] eqn:Hget;
      cbn [fst]; try done.
    intros _. assert (d' = d) as ->
      by (unfold get_record, gets in Hget; congruence).
    by eexists.
  - intros item_id d e. unfold BulletItemService.get_bullet_item. unfold_m.
    destruct (get_record item_id d) as [[[item|]|e'] d'] eqn:Hget;
      cbn [fst]; try done.
    intros [= <-]. by right.
  - intros data new_id now d code errors.
    unfold BulletItemService.create_bullet_item. unfold_m.
    unfold BulletItemCreateSchema.load,
      BulletItemCreateSchema.validate_content,
      BulletItemCreateSchema.validate_order, validate_bullet_item. unfold_m.
    destruct (bool_decide (BulletItemCreateSchema.content data = "")).
    { intros [= <- <-]. split; [done|]. right.
      split; [done|]. split; [done|]. by eexists. }
    destruct (String.length _ =? 0)%nat.
    { intros [= <- <-]. split; [done|]. right.
      split; [done|]. split; [done|]. by eexists. }
    destruct (MAX_CONTENT_LENGTH <? _)%Z.
    { intros [= <- <-]. split; [done|]. right.
      split; [done|]. split; [done|]. by eexists. }
    destruct ((0 <? 0) || (MAX_BULLET_ITEMS <=? 0))%Z eqn:Hzero; [done|].
    destruct ((_ <? 0) || (9 <? _))%Z; [done|].
    cbn [fst snd]. rewrite list_records_by_spec.
    destruct (10 <=? _)%nat.
    { intros [= <- <-]. split; [done|]. by left. }
    unfold create_record.
    destruct (BulletItem.__init__ _ _ _ _ _) as [item|?]; [|done].
    destruct (select_pk _ _); [done|]. by destruct (references _ _).
Qed.

Lemma bullet_item_errors_as_reported_witness :
  ∃ e,
    BulletItemService.get_bullet_item "z" Examples.db3
    = (Raise e, Examples.db3)
    ∧ api_status_code e = Some 404%Z
    ∧ api_message e = Some "Maximum items reached".
Proof.
  apply (proj1 bullet_item_errors_as_reported "z" Examples.db3).
  reflexivity.
Defined.

(** X15.  The layers that check a new bullet item agree.  The create
    schema accepts exactly the input [validate_bullet_item] accepts: a
    content that is not blank and has at most 5000 characters once
    trimmed, and an order from 0 to 9.  On such input the constructor of
    the model never raises, so below the cap nothing but the store can
    refuse the call: what [create_bullet_item] then raises, if anything,
    is [DatabaseError], and the store is as it was. *)
Theorem create_validation_layers_agree (data : BulletItemCreateSchema.data) :
  (BulletItemCreateSchema.load data = Ok data ↔ valid_input data)
  ∧ (validate_bullet_item (BulletItemCreateSchema.content data)
       (BulletItemCreateSchema.order data) = Ok true
     ↔ valid_input data)
  ∧ (valid_input data →
     ∀ new_id now, ∃ item,
       BulletItem.__init__ new_id now (BulletItemCreateSchema.spec_id data)
         (BulletItemCreateSchema.content data)
         (BulletItemCreateSchema.order data) = Ok item)
  ∧ (valid_input data →
     ∀ new_id now d e,
       (active_count (BulletItemCreateSchema.spec_id data) d < 10)%nat →
       (BulletItemService.create_bullet_item data new_id now d).1 = Raise e →
       e = DatabaseError
       ∧ (BulletItemService.create_bullet_item data new_id now d).2 = d).
Proof.
  split; [|split; [|split]].
  - split; [by intros [_ ?]%load_Ok_valid|apply load_valid].
  - unfold valid_input, validate_bullet_item.
    case_bool_decide as Hempty.
    { split; [done|]. intros (Hne & _). rewrite Hempty in Hne.
      by rewrite strip_empty in Hne. }
    destruct (String.length _ =? 0)%nat eqn:Hlen0.
    { split; [done|]. intros (Hne & _).
      by apply Nat.eqb_eq, string_length_0 in Hlen0. }
    apply Nat.eqb_neq in Hlen0. unfold MAX_CONTENT_LENGTH, MAX_BULLET_ITEMS.
    destruct (5000 <? _)%Z eqn:Hlen.
    { apply Z.ltb_lt in Hlen. split; [done|]. lia. }
    apply Z.ltb_ge in Hlen.
    destruct ((_ <? 0) || (10 <=? _))%Z eqn:Horder.
    { split; [done|]. intros (_ & _ & Hlo & Hhi).
      apply orb_true_iff in Horder as [H%Z.ltb_lt|H%Z.leb_le]; lia. }
    apply orb_false_iff in Horder as [Hlo%Z.ltb_ge Hhi%Z.leb_gt].
    split; [|done]. intros _. repeat split; try lia.
    intros Hstrip. by rewrite Hstrip in Hlen0.
  - intros Hvalid new_id now. eexists. by apply init_valid.
  - intros Hvalid new_id now d e Hroom.
    unfold BulletItemService.create_bullet_item. unfold_m.
    rewrite (load_valid _ Hvalid), list_records_by_spec.
    fold (active_count (BulletItemCreateSchema.spec_id data) d).
    rewrite (proj2 (Nat.leb_gt _ _) Hroom).
    rewrite (init_valid _ _ _ Hvalid). unfold create_record.
    destruct (select_pk _ _); [by intros [= <-]|].
    destruct (references _ _); [done|]. by intros [= <-].
Qed.

Lemma create_validation_layers_agree_witness :
  BulletItemCreateSchema.load (BulletItemCreateSchema.mk " a " 3 "S")
  = Ok (BulletItemCreateSchema.mk " a " 3 "S").
Proof.
  apply (proj1 (create_validation_layers_agree
                  (BulletItemCreateSchema.mk " a " 3 "S"))).
  unfold valid_input. vm_compute. repeat split; congruence.
Defined.

(** X16.  The five tests of an order value in the code accept the same
    integers, those from 0 to 9: the hooks of the create and the update
    schema, [validate_bullet_item] (on a content it accepts),
    [BulletItem.validate_order] and [validate_bullet_order] of the
    helpers. *)
Theorem order_checks_agree (order : Z) :
  (BulletItemCreateSchema.validate_order order = Ok true ↔ (0 ≤ order ≤ 9)%Z)
  ∧ (BulletItemUpdateSchema.validate_order order = Ok true
     ↔ (0 ≤ order ≤ 9)%Z)
  ∧ (∀ content, validate_bullet_item content 0 = Ok true →
       (validate_bullet_item content order = Ok true ↔ (0 ≤ order ≤ 9)%Z))
  ∧ (BulletItem.validate_order order = true ↔ (0 ≤ order ≤ 9)%Z)
  ∧ (validate_bullet_order (JInt order) = true ↔ (0 ≤ order ≤ 9)%Z).
Proof.
  assert (∀ content, validate_bullet_item content 0 = Ok true →
            validate_bullet_item content order
            = if ((order <? 0) || (MAX_BULLET_ITEMS <=? order))%Z
              then Raise InvalidOrder else Ok true) as Hcontent.
  { intros content. unfold validate_bullet_item.
    destruct (bool_decide _); [done|].
    destruct (String.length _ =? 0)%nat; [done|].
    by destruct (MAX_CONTENT_LENGTH <? _)%Z. }
  split; [|split; [|split; [intros content Hc; rewrite (Hcontent _ Hc)|]]].
  all: unfold BulletItemCreateSchema.validate_order,
    BulletItemUpdateSchema.validate_order, BulletItem.validate_order,
    validate_bullet_order, MAX_BULLET_ITEMS.
  all: cbn [int_value].
  all: destruct (order <? 0)%Z eqn:Hlo; destruct (9 <? order)%Z eqn:Hhi;
    destruct (10 <=? order)%Z eqn:Hhi'; destruct (0 <=? order)%Z eqn:Hlo';
    destruct (order <=? 9)%Z eqn:Hhi''; cbn [orb andb];
    try apply Z.ltb_lt in Hlo; try apply Z.ltb_ge in Hlo;
    try apply Z.ltb_lt in Hhi; try apply Z.ltb_ge in Hhi;
    try apply Z.leb_le in Hhi'; try apply Z.leb_gt in Hhi';
    try apply Z.leb_le in Hlo'; try apply Z.leb_gt in Hlo';
    try apply Z.leb_le in Hhi''; try apply Z.leb_gt in Hhi'';
    try lia; repeat split; try done; try lia.
Qed.

Lemma order_checks_agree_witness :
  validate_bullet_item "x" 3 = Ok true ↔ (0 ≤ 3 ≤ 9)%Z.
Proof.
  destruct (order_checks_agree 3) as (_ & _ & Hvalidator & _).
  apply Hvalidator. reflexivity.
Defined.

(** ** The cache: keys, round trips and the rate limiter *)

Lemma make_key_inj prefix a b : make_key prefix a = make_key prefix b → a = b.
Proof.
  unfold make_key. intros Heq. apply String.app_inj in Heq.
  by apply String.app_inj in Heq.
Qed.

(** X17.  Keys of different kinds never meet: [make_project_key] and
    [make_spec_key] are injective, no project key is a specification key,
    and no rate-limit key is either of them. *)
Theorem cache_keys_are_separate :
  (∀ a b, make_project_key a = make_project_key b → a = b)
  ∧ (∀ a b, make_spec_key a = make_spec_key b → a = b)
  ∧ (∀ a b, make_project_key a ≠ make_spec_key b)
  ∧ (∀ a user_id endpoint,
       make_rate_limit_key user_id endpoint ≠ make_project_key a
       ∧ make_rate_limit_key user_id endpoint ≠ make_spec_key a).
Proof.
  split; [intros a b; apply make_key_inj|].
  split; [intros a b; apply make_key_inj|].
  split; [by intros a b|]. by intros a user_id endpoint.
Qed.

Lemma cache_keys_are_separate_witness :
  make_spec_key "S" = "spec:S" ∧ "S" = "S".
Proof.
  split; [reflexivity|].
  destruct cache_keys_are_separate as (_ & Hspec & _).
  apply (Hspec "S" "S"). reflexivity.
Defined.

(** X18.  On a working backend the cache gives back what was stored:
    after [set_project], [get_project] on that id returns the stored
    value, while the reads of every other project and of every
    specification return what they returned before; and after
    [RedisCache.delete], which tells whether the key was there,
    [get_project] finds nothing. *)
Theorem cache_set_then_get (project_id : string) (project_data : json)
    (c : RedisCache.t) :
  RedisCache.faults c = [] →
  ∃ c',
    CacheService.set_project project_id project_data c = (Ok true, c')
    ∧ CacheService.get_project project_id c' = (Ok project_data, c')
    ∧ (∀ other, other ≠ project_id →
         (CacheService.get_project other c').1
         = (CacheService.get_project other c).1)
    ∧ (∀ spec_id,
         (CacheService.get_specification spec_id c').1
         = (CacheService.get_specification spec_id c).1)
    ∧ ∃ c'',
        RedisCache.delete (make_project_key project_id) c' = (Ok true, c'')
        ∧ CacheService.get_project project_id c'' = (Ok JNull, c'').
Proof.
  intros Hhealthy.
  unfold CacheService.set_project, CacheService.get_project,
    CacheService.get_specification, RedisCache.set, RedisCache.get,
    RedisCache.delete, RedisCache.call.
  rewrite Hhealthy. eexists. split; [reflexivity|].
  cbn [RedisCache.faults RedisCache.entries].
  split; [by rewrite lookup_insert_eq|].
  split.
  { intros other Hother. cbn [fst]. rewrite lookup_insert_ne; [done|].
    intros Heq. by apply make_key_inj in Heq. }
  split.
  { intros spec_id. cbn [fst]. by rewrite lookup_insert_ne. }
  eexists. rewrite lookup_insert_eq.
  rewrite bool_decide_eq_true_2 by by eexists.
  split; [reflexivity|]. cbn [RedisCache.faults RedisCache.entries].
  by rewrite lookup_delete_eq.
Qed.

Lemma cache_set_then_get_witness :
  ∃ c',
    CacheService.set_project "P" (JStr "v") (Examples.healthy ∅)
    = (Ok true, c')
    ∧ CacheService.get_project "P" c' = (Ok (JStr "v"), c').
Proof.
  destruct (cache_set_then_get "P" (JStr "v") (Examples.healthy ∅))
    as (c' & Hset & Hget & _); [reflexivity|].
  exists c'. by split.
Defined.

Lemma colon_in_append (s t : string) :
  ":"%char ∈ String.list_ascii_of_string (s +:+ String ":" t).
Proof.
  induction s as [|a s IH]; simpl; rewrite elem_of_cons; [by left|by right].
Qed.

Lemma split_at_last_colon (u u' e e' : string) :
  colon_free e → colon_free e' →
  u +:+ String ":" e = u' +:+ String ":" e' → u = u' ∧ e = e'.
Proof.
  intros He He'. revert u'.
  induction u as [|a u IH]; intros [|a' u']; simpl; intros Heq.
  - by injection Heq as ->.
  - injection Heq as <- ->. destruct He. apply colon_in_append.
  - injection Heq as -> <-. destruct He'. apply colon_in_append.
  - injection Heq as -> Heq. by destruct (IH _ Heq) as [-> ->].
Qed.

Lemma split_at_first_colon (u u' e e' : string) :
  colon_free u → colon_free u' →
  u +:+ String ":" e = u' +:+ String ":" e' → u = u' ∧ e = e'.
Proof.
  revert u'. induction u as [|a u IH]; intros [|a' u'] Hu Hu'; simpl;
    intros Heq.
  - by injection Heq as ->.
  - injection Heq as <- _. destruct Hu'. simpl. rewrite elem_of_cons.
    by left.
  - injection Heq as -> _. destruct Hu. simpl. rewrite elem_of_cons.
    by left.
  - injection Heq as -> Heq.
    destruct (IH u') as [-> ->]; try done.
    + intros Hin. apply Hu. simpl. rewrite elem_of_cons. by right.
    + intros Hin. apply Hu'. simpl. rewrite elem_of_cons. by right.
Qed.

(** X19.  [make_rate_limit_key] joins the client and the endpoint with the
    separator without escaping it, so two different pairs can share a
    counter (client [a:b] on endpoint [c], client [a] on endpoint [b:c]);
    the key determines the pair when the endpoints hold no colon, and
    when the clients hold none. *)
Theorem rate_limit_key_collisions :
  make_rate_limit_key "a:b" "c" = make_rate_limit_key "a" "b:c"
  ∧ (∀ user_id endpoint user_id' endpoint',
       colon_free endpoint → colon_free endpoint' →
       make_rate_limit_key user_id endpoint
       = make_rate_limit_key user_id' endpoint' →
       user_id = user_id' ∧ endpoint = endpoint')
  ∧ (∀ user_id endpoint user_id' endpoint',
       colon_free user_id → colon_free user_id' →
       make_rate_limit_key user_id endpoint
       = make_rate_limit_key user_id' endpoint' →
       user_id = user_id' ∧ endpoint = endpoint').
Proof.
  split; [reflexivity|].
  split; intros u e u' e' H1 H2 Heq.
  - apply (split_at_last_colon u u' e e'); try done.
    by injection Heq.
  - apply (split_at_first_colon u u' e e'); try done.
    by injection Heq.
Qed.

Lemma rate_limit_key_collisions_witness :
  "10.0.0.1" = "10.0.0.1" ∧ "api.list" = "api.list".
Proof.
  destruct rate_limit_key_collisions as (_ & Hendpoints & _).
  apply (Hendpoints "10.0.0.1" "api.list" "10.0.0.1" "api.list").
  - unfold colon_free. apply (bool_decide_unpack _). by vm_compute.
  - unfold colon_free. apply (bool_decide_unpack _). by vm_compute.
  - reflexivity.
Defined.

Lemma after_requests_state limiter user_id endpoint c n :
  RedisCache.faults c = [] →
  RedisCache.entries c !! make_rate_limit_key user_id endpoint = None →
  (Z.of_nat n < 2 ^ 63)%Z →
  after_requests limiter user_id endpoint n c
  = RedisCache.mk
      (match n with
       | O => RedisCache.entries c
       | S _ => <[make_rate_limit_key user_id endpoint := JInt (Z.of_nat n)]>
                  (RedisCache.entries c)
       end) [].
Proof.
  intros Hhealthy Hfresh. induction n as [|n IH]; intros Hn.
  { destruct c as [es fs]. simpl in *. by rewrite Hhealthy. }
  cbn [after_requests]. rewrite IH by lia.
  unfold RateLimiter.check_rate_limit, RedisCache.increment,
    RedisCache.incr. unfold_m.
  cbn [RedisCache.faults RedisCache.entries].
  destruct n as [|n].
  - rewrite Hfresh. done.
  - rewrite lookup_insert_eq.
    destruct (- 2 ^ 63 <=? Z.of_nat (S n))%Z eqn:Hlo;
      [|apply Z.leb_gt in Hlo; lia].
    destruct (Z.of_nat (S n) <? 2 ^ 63 - 1)%Z eqn:Hhi;
      [|apply Z.ltb_ge in Hhi; lia].
    cbn [andb snd tail]. rewrite insert_insert_eq.
    do 3 f_equal. lia.
Qed.

(** X20.  The limiter counts per client and endpoint.  On a working
    backend, starting from no counter and as long as the counter does not
    expire, request number [n + 1] of a client to an endpoint is admitted
    exactly when [n + 1] does not exceed [max_requests], and the entries
    under other keys are not touched.  When the backend fails, the check
    raises [DatabaseError] and counts nothing. *)
Theorem rate_limiter_admits_first_requests (limiter : RateLimiter.t)
    (user_id endpoint : string) (c : RedisCache.t) (n : nat) :
  RedisCache.faults c = [] →
  RedisCache.entries c !! make_rate_limit_key user_id endpoint = None →
  (Z.of_nat n < 2 ^ 63 - 1)%Z →
  (RateLimiter.check_rate_limit limiter user_id endpoint
     (after_requests limiter user_id endpoint n c)).1
  = Ok (bool_decide (Z.of_nat n + 1 ≤ RateLimiter.max_requests limiter)%Z)
  ∧ (∀ key, key ≠ make_rate_limit_key user_id endpoint →
       RedisCache.entries (after_requests limiter user_id endpoint n c) !! key
       = RedisCache.entries c !! key)
  ∧ ∀ rest,
      RateLimiter.check_rate_limit limiter user_id endpoint
        (RedisCache.mk
           (RedisCache.entries (after_requests limiter user_id endpoint n c))
           (true :: rest))
      = (Raise DatabaseError,
         RedisCache.mk
           (RedisCache.entries (after_requests limiter user_id endpoint n c))
           rest).
Proof.
  intros Hhealthy Hfresh Hn.
  rewrite (after_requests_state limiter user_id endpoint c n Hhealthy Hfresh)
    by lia.
  split; [|split].
  - unfold RateLimiter.check_rate_limit, RedisCache.increment,
      RedisCache.incr. unfold_m.
    cbn [RedisCache.faults RedisCache.entries].
    assert (∀ count : Z, count = (Z.of_nat n + 1)%Z →
              (count <=? RateLimiter.max_requests limiter)%Z
              = bool_decide
                  (Z.of_nat n + 1 ≤ RateLimiter.max_requests limiter)%Z)
      as Hadmit.
    { intros count ->. destruct (Z.of_nat n + 1 <=? _)%Z eqn:Hle.
      - apply Z.leb_le in Hle. by rewrite bool_decide_eq_true_2.
      - apply Z.leb_gt in Hle. rewrite bool_decide_eq_false_2; [done|lia]. }
    destruct n as [|n].
    + rewrite Hfresh. cbn [fst]. f_equal. by apply Hadmit.
    + rewrite lookup_insert_eq.
      destruct (- 2 ^ 63 <=? Z.of_nat (S n))%Z eqn:Hlo;
        [|apply Z.leb_gt in Hlo; lia].
      destruct (Z.of_nat (S n) <? 2 ^ 63 - 1)%Z eqn:Hhi;
        [|apply Z.ltb_ge in Hhi; lia].
      cbn [andb fst]. f_equal. by apply Hadmit.
  - intros key Hkey. cbn [RedisCache.entries]. destruct n as [|n]; [done|].
    by rewrite lookup_insert_ne.
  - intros rest. unfold RateLimiter.check_rate_limit, RedisCache.increment.
    by unfold_m.
Qed.

Lemma rate_limiter_admits_first_requests_witness :
  (RateLimiter.check_rate_limit (RateLimiter.__init__ (Some 2%Z) None)
     "10.0.0.1" "api.list"
     (after_requests (RateLimiter.__init__ (Some 2%Z) None)
        "10.0.0.1" "api.list" 2 (Examples.healthy ∅))).1
  = Ok false.
Proof.
  destruct (rate_limiter_admits_first_requests
              (RateLimiter.__init__ (Some 2%Z) None)
              "10.0.0.1" "api.list" (Examples.healthy ∅) 2)
    as (Hthird & _); [reflexivity|reflexivity|simpl; lia|].
  exact Hthird.
Defined.

(** ** Projects: create, read, delete *)

Lemma validate_project_title_nonempty title :
  validate_project_title title = Ok true → title ≠ "" ∧ strip title ≠ "".
Proof.
  unfold validate_project_title. case_bool_decide as Hempty; [done|].
  destruct (String.length (strip title) =? 0)%nat eqn:Hlen; [done|].
  intros _. split; [done|]. intros Hstrip. by rewrite Hstrip in Hlen.
Qed.

Lemma references_project (project : Project.t) (d : Database) :
  references project d = true
  ↔ ∃ user, user ∈ users d ∧ User.id user = Project.user_id project.
Proof.
  unfold references, Project_References. rewrite List.existsb_exists.
  split.
  - intros (user & Hin & Hid). exists user.
    split; [by apply list_elem_of_In|]. by apply bool_decide_eq_true in Hid.
  - intros (user & Hin & Hid). exists user.
    split; [by apply list_elem_of_In|]. by apply bool_decide_eq_true_2.
Qed.

(** X21.  With a working cache, a title the validator accepts, an
    unused id and a caller who has a row in [users], [create_project]
    stores the project with the trimmed title under the caller as its
    owner, caches its dump and returns it; [get_project] then returns that
    dump to the owner, raises [AuthorizationError] for anyone else, and
    the project comes last in the owner's listing.  For a caller without
    a row in [users] the foreign key refuses the insert: the call raises
    [DatabaseError] and neither the store nor the cache is written. *)
Theorem create_project_then_get (user_id : UUID)
    (project_data : ProjectCreateSchema.data) (new_id : UUID) (now : datetime)
    (d : Database) (es : gmap string json) :
  validate_project_title (ProjectCreateSchema.title project_data) = Ok true →
  select_pk new_id (projects d) = None →
  let project :=
    Project.mk new_id now now false
      (strip (ProjectCreateSchema.title project_data)) user_id in
  let w :=
    mkWorld d (RedisCache.mk es []) in
  let w' :=
    mkWorld
      (mkDatabase (users d) (projects d ++ [project]) (specifications d)
         (bullet_items d))
      (RedisCache.mk
         (<[make_project_key new_id := ProjectSchema.dump project]> es) []) in
  ((∃ user, user ∈ users d ∧ User.id user = user_id) →
   ProjectService.create_project user_id project_data new_id now w
   = (Ok (ProjectSchema.dump project), w')
   ∧ ProjectService.get_project new_id user_id w'
     = (Ok (ProjectSchema.dump project), w')
   ∧ (∀ other, other ≠ user_id →
        ProjectService.get_project new_id other w'
        = (Raise (AuthorizationError "PRJ002"), w'))
   ∧ ∃ listed,
       (ProjectService.list_user_projects user_id w).1 = Ok listed
       ∧ (ProjectService.list_user_projects user_id w').1
         = Ok (listed ++ [ProjectSchema.dump project])%list)
  ∧ ((∀ user, user ∈ users d → User.id user ≠ user_id) →
     ProjectService.create_project user_id project_data new_id now w
     = (Raise DatabaseError, w)).
Proof.
  intros Hvalid Hfresh project w w'.
  destruct (validate_project_title_nonempty _ Hvalid) as [Hne Hstrip].
  assert (ProjectService.create_project user_id project_data new_id now w
          = if references project d
            then (Ok (ProjectSchema.dump project), w')
            else (Raise DatabaseError, w)) as Hrun.
  { unfold ProjectService.create_project, ProjectCreateSchema.validate.
    unfold_m. rewrite Hvalid. cbn [fst snd negb].
    rewrite bool_decide_eq_true_2 by done. cbn [negb].
    unfold Project.__init__.
    rewrite (bool_decide_eq_false_2 (_ = "")) by done.
    rewrite (bool_decide_eq_false_2 (strip _ = "")) by done.
    cbn [orb]. unfold create_record.
    cbn [db cache w pk table set_table Project_Base Project.id].
    rewrite Hfresh. fold project.
    destruct (references project d); [|done].
    unfold CacheService.set_project, RedisCache.set, RedisCache.call.
    cbn [db cache RedisCache.faults RedisCache.entries Project.id].
    reflexivity. }
  split.
  2:{ intros Horphan. rewrite Hrun.
      destruct (references project d) eqn:Hparent; [|done].
      apply references_project in Hparent as (user & Hin & Hid).
      by destruct (Horphan user Hin). }
  intros Huser. rewrite Hrun.
  rewrite (proj2 (references_project project d)) by exact Huser.
  split; [done|]. split; [|split].
  - subst w'.
    rewrite (get_project_hit new_id user_id _ _
               [("id", JStr (Project.id project));
                ("title", JStr (Project.title project));
                ("user_id", JStr (Project.user_id project));
                ("created_at", JStr (Project.created_at project));
                ("updated_at", JStr (Project.updated_at project));
                ("is_deleted", JBool (Project.is_deleted project))]
               user_id).
    + by rewrite decide_True.
    + by rewrite lookup_insert_eq.
    + reflexivity.
  - intros other Hother. subst w'.
    rewrite (get_project_hit new_id other _ _
               [("id", JStr (Project.id project));
                ("title", JStr (Project.title project));
                ("user_id", JStr (Project.user_id project));
                ("created_at", JStr (Project.created_at project));
                ("updated_at", JStr (Project.updated_at project));
                ("is_deleted", JBool (Project.is_deleted project))]
               user_id).
    + by rewrite decide_False.
    + by rewrite lookup_insert_eq.
    + reflexivity.
  - eexists. split; [reflexivity|].
    unfold ProjectService.list_user_projects, list_records. unfold_m.
    cbn [fst snd db w w' table Project_Base projects].
    rewrite List.filter_app, fmap_app. do 2 f_equal.
    cbn [List.filter deleted Project_Base Project.is_deleted project
         Project.user_id forallb negb andb].
    by rewrite bool_decide_eq_true_2.
Qed.

Lemma create_project_then_get_witness :
  let project :=
    Project.mk "Q" Examples.now Examples.now false "Plan 9" "alice" in
  (ProjectService.create_project "alice" (ProjectCreateSchema.mk " Plan 9 ")
     "Q" Examples.now (mkWorld Examples.db3 (Examples.healthy ∅))).1
  = Ok (ProjectSchema.dump project).
Proof.
  intros project.
  destruct (create_project_then_get "alice" (ProjectCreateSchema.mk " Plan 9 ")
              "Q" Examples.now Examples.db3 ∅) as (Hcreate & _);
    [reflexivity|reflexivity|].
  destruct Hcreate as (Hcreate & _).
  { exists Examples.alice. split; [|reflexivity].
    unfold Examples.db3. cbn [users]. rewrite elem_of_cons. by left. }
  unfold Examples.healthy. by rewrite Hcreate.
Defined.

Lemma get_record_found `{Base T} record_id d (record : T) :
  (get_record record_id d).1 = Ok (Some record) →
  pk record = record_id ∧ deleted record = false
  ∧ select_pk (pk record) (table d) ≠ None.
Proof.
  unfold get_record, gets. cbn [fst]. intros [= Hfind].
  apply List.find_some in Hfind as [Hin [Hpk Hdel]%andb_true_iff].
  apply bool_decide_eq_true in Hpk. apply negb_true_iff in Hdel.
  split; [done|]. split; [done|]. unfold select_pk. intros Hnone.
  pose proof (List.find_none _ _ Hnone record Hin) as Hrecord.
  cbn beta in Hrecord. by rewrite bool_decide_eq_true_2 in Hrecord.
Qed.

(** X22.  [delete_project] refuses without writing: when it raises
    anything but [DatabaseError], the error is "not found" or "not the
    owner" and the store and the cache are as they were.  After it has
    succeeded, with a working cache, [get_project] on that id raises
    [ResourceNotFoundError] for every requester, the former owner
    included. *)
Theorem delete_project_then_gone (project_id user_id : UUID)
    (now : datetime) (w : World) :
  (∀ e,
     (ProjectService.delete_project project_id user_id now w).1 = Raise e →
     e ≠ DatabaseError →
     (ProjectService.delete_project project_id user_id now w).2 = w
     ∧ (e = ResourceNotFoundError "PRJ001" ∨ e = AuthorizationError "PRJ002"))
  ∧ (∀ w',
       ProjectService.delete_project project_id user_id now w = (Ok tt, w') →
       RedisCache.faults (cache w') = [] →
       ∀ requester,
         ProjectService.get_project project_id requester w'
         = (Raise (ResourceNotFoundError "PRJ001"), w')).
Proof.
  destruct w as [d c].
  unfold ProjectService.delete_project. unfold_m. cbn [db cache].
  destruct (get_record project_id d) as [[[project|]|e0] d0] eqn:Hget.
  2:{ unfold get_record, gets in Hget. injection Hget as _ <-.
      split; [|done]. intros e [= <-] _. by split; [|left]. }
  2:{ by unfold get_record, gets in Hget. }
  assert (d0 = d) as -> by (unfold get_record, gets in Hget; congruence).
  destruct (get_record_found project_id d project) as (Hpk & _ & Hrow).
  { by rewrite Hget. }
  cbn [fst snd db cache].
  destruct (negb (Project.validate_ownership project user_id)).
  { split; [|done]. intros e [= <-] _. by split; [|right]. }
  cbn beta. unfold delete_record. cbn [db cache].
  destruct (select_pk (pk project) (table d)) as [row|] eqn:Hsel; [|done].
  cbn [fst snd db cache].
  unfold CacheService.set_project, RedisCache.set, RedisCache.call.
  destruct (RedisCache.faults c) as [|[] rest] eqn:Hfaults;
    cbn [fst snd db cache].
  - split; [done|]. intros w' [= <-] _ requester.
    unfold ProjectService.get_project, CacheService.get_project,
      RedisCache.get, RedisCache.call. unfold_m.
    cbn [db cache RedisCache.faults RedisCache.entries].
    rewrite lookup_insert_eq. cbn [default from_option id truthy fst snd].
    unfold get_record, gets.
    cbn [db cache fst snd table Project_Base projects]. rewrite <- Hpk.
    by rewrite (find_update_where_pk_deleted (T := Project.t)).
  - split; [|done]. by intros e [= <-] He.
  - split; [done|]. intros w' [= <-]. cbn [cache RedisCache.faults].
    intros -> requester.
    unfold ProjectService.get_project, CacheService.get_project,
      RedisCache.get, RedisCache.call. unfold_m.
    cbn [db cache RedisCache.faults RedisCache.entries].
    rewrite lookup_insert_eq. cbn [default from_option id truthy fst snd].
    unfold get_record, gets.
    cbn [db cache fst snd table Project_Base projects]. rewrite <- Hpk.
    by rewrite (find_update_where_pk_deleted (T := Project.t)).
Qed.

Lemma delete_project_then_gone_witness :
  (ProjectService.delete_project "P" "bob" Examples.now
     (mkWorld Examples.db3 (Examples.healthy ∅))).2
  = mkWorld Examples.db3 (Examples.healthy ∅).
Proof.
  destruct (delete_project_then_gone "P" "bob" Examples.now
              (mkWorld Examples.db3 (Examples.healthy ∅))) as [Hrefused _].
  destruct (Hrefused (AuthorizationError "PRJ002")) as [Hsame _];
    [reflexivity|discriminate|].
  exact Hsame.
Defined.

(** X23.  The soft delete of [delete_project] is committed before the
    cache is told.  When the backend fails at that moment, the call raises
    [DatabaseError], the project is deleted in the store, and the cached
    dump stays: once the backend works again, [get_project] still returns
    the deleted project to its owner. *)
Theorem failed_invalidation_serves_deleted_project (project : Project.t)
    (now : datetime) (d : Database) (es : gmap string json) :
  (get_record (Project.id project) d).1 = Ok (Some project) →
  es !! make_project_key (Project.id project)
  = Some (ProjectSchema.dump project) →
  ∃ d',
    ProjectService.delete_project (Project.id project)
      (Project.user_id project) now (mkWorld d (RedisCache.mk es [true]))
    = (Raise DatabaseError, mkWorld d' (RedisCache.mk es []))
    ∧ (get_record (T := Project.t) (Project.id project) d').1 = Ok None
    ∧ ProjectService.get_project (Project.id project)
        (Project.user_id project) (mkWorld d' (RedisCache.mk es []))
      = (Ok (ProjectSchema.dump project), mkWorld d' (RedisCache.mk es [])).
Proof.
  intros Hget Hcached.
  destruct (get_record_found _ d project Hget) as (_ & _ & Hrow).
  eexists. split; [|split].
  - unfold ProjectService.delete_project. unfold_m. cbn [db cache].
    destruct (get_record (Project.id project) d) as [r d0] eqn:Hrec.
    cbn [fst] in Hget. subst r.
    assert (d0 = d) as -> by (unfold get_record, gets in Hrec; congruence).
    cbn [fst snd db cache]. unfold Project.validate_ownership.
    rewrite bool_decide_eq_true_2 by done. cbn [negb].
    unfold delete_record. cbn [db cache].
    destruct (select_pk (pk project) (table d)) as [row|]; [|done].
    cbn [fst snd db cache]. reflexivity.
  - unfold get_record, gets. cbn [fst]. rewrite table_set_table.
    by rewrite (find_update_where_pk_deleted (T := Project.t)).
  - rewrite (get_project_hit _ _ _ _
               [("id", JStr (Project.id project));
                ("title", JStr (Project.title project));
                ("user_id", JStr (Project.user_id project));
                ("created_at", JStr (Project.created_at project));
                ("updated_at", JStr (Project.updated_at project));
                ("is_deleted", JBool (Project.is_deleted project))]
               (Project.user_id project)); [|done|reflexivity].
    by rewrite decide_True.
Qed.

Lemma failed_invalidation_serves_deleted_project_witness :
  ∃ d',
    ProjectService.delete_project "P" "alice" Examples.now
      (mkWorld Examples.db3
         (RedisCache.mk
            {[ make_project_key "P"
               := ProjectSchema.dump Examples.alice_project ]} [true]))
    = (Raise DatabaseError,
       mkWorld d'
         (RedisCache.mk
            {[ make_project_key "P"
               := ProjectSchema.dump Examples.alice_project ]} []))
    ∧ (get_record (T := Project.t) "P" d').1 = Ok None.
Proof.
  destruct (failed_invalidation_serves_deleted_project Examples.alice_project
              Examples.now Examples.db3
              {[ make_project_key "P"
                 := ProjectSchema.dump Examples.alice_project ]})
    as (d' & Hdelete & Hgone & _); [reflexivity|reflexivity|].
  exists d'. split; [exact Hdelete|exact Hgone].
Defined.

(** ** Specifications and the cache they share with projects *)

(** X24.  [list_project_specifications] stores its result under the key
    of the project itself.  After it has succeeded, with a working cache,
    [get_project] on that project finds a payload without [user_id] and
    raises [KeyError] for every requester, the owner included, whatever
    the store holds. *)
Theorem list_project_specifications_hides_project
    (schema_dump : Specification.t → M Database json) (project_id : UUID)
    (w w' : World) (listed : list json) :
  SpecificationService.list_project_specifications schema_dump project_id w
  = (Ok listed, w') →
  RedisCache.faults (cache w') = [] →
  RedisCache.entries (cache w') !! make_project_key project_id
  = Some (JObj [("specifications", JArr listed)])
  ∧ ∀ requester,
      ProjectService.get_project project_id requester w'
      = (Raise (KeyError "user_id"), w').
Proof.
  destruct w as [d c].
  unfold SpecificationService.list_project_specifications. unfold_m.
  cbn [db cache].
  destruct (list_records _ d) as [[specs|e] d1]; [|done].
  cbn [fst snd db cache].
  destruct (mapM schema_dump specs d1) as [[specs_dict|e] d2]; [|done].
  cbn [fst snd db cache].
  unfold CacheService.set_project, RedisCache.set, RedisCache.call.
  assert (∀ es, ∀ requester,
            ProjectService.get_project project_id requester
              (mkWorld d2
                 (RedisCache.mk
                    (<[make_project_key project_id
                       := JObj [("specifications", JArr specs_dict)]]> es)
                    []))
            = (Raise (KeyError "user_id"),
               mkWorld d2
                 (RedisCache.mk
                    (<[make_project_key project_id
                       := JObj [("specifications", JArr specs_dict)]]> es)
                    []))) as Hread.
  { intros es requester.
    unfold ProjectService.get_project, CacheService.get_project,
      RedisCache.get, RedisCache.call. unfold_m.
    cbn [db cache RedisCache.faults RedisCache.entries].
    by rewrite lookup_insert_eq. }
  destruct (RedisCache.faults c) as [|[] rest]; cbn [fst snd]; [|done|].
  - intros [= <- <-] _. cbn [cache RedisCache.entries].
    split; [by rewrite lookup_insert_eq|]. apply Hread.
  - intros [= <- <-]. cbn [cache RedisCache.faults RedisCache.entries].
    intros ->. split; [by rewrite lookup_insert_eq|]. apply Hread.
Qed.

Lemma list_project_specifications_hides_project_witness :
  ProjectService.get_project "P" "alice"
    (SpecificationService.list_project_specifications
       (λ spec, mret (JStr (Specification.id spec))) "P"
       (mkWorld Examples.db3 (Examples.healthy ∅))).2
  = (Raise (KeyError "user_id"),
     (SpecificationService.list_project_specifications
        (λ spec, mret (JStr (Specification.id spec))) "P"
        (mkWorld Examples.db3 (Examples.healthy ∅))).2).
Proof.
  destruct (list_project_specifications_hides_project
              (λ spec, mret (JStr (Specification.id spec))) "P"
              (mkWorld Examples.db3 (Examples.healthy ∅))
              (SpecificationService.list_project_specifications
                 (λ spec, mret (JStr (Specification.id spec))) "P"
                 (mkWorld Examples.db3 (Examples.healthy ∅))).2
              [JStr "S"]) as [_ Hread]; [reflexivity|reflexivity|].
  apply Hread.
Defined.

(** X25.  [delete_specification] empties the whole cache, not the entry
    of the specification alone.  After it has succeeded the cache holds
    nothing: with a working backend, [get_specification] on that id raises
    [ResourceNotFoundError] whatever the serialiser, and every rate-limit
    counter starts again, so the next request of any client to any
    endpoint counts as its first. *)
Theorem delete_specification_empties_cache (spec_id : UUID) (now : datetime)
    (w w' : World) :
  SpecificationService.delete_specification spec_id now w = (Ok tt, w') →
  RedisCache.entries (cache w') = ∅
  ∧ (RedisCache.faults (cache w') = [] →
     (∀ schema_dump,
        (SpecificationService.get_specification schema_dump spec_id w').1
        = Raise (ResourceNotFoundError "SPEC001"))
     ∧ ∀ limiter user_id endpoint,
         (RateLimiter.check_rate_limit limiter user_id endpoint (cache w')).1
         = Ok (1 <=? RateLimiter.max_requests limiter)%Z).
Proof.
  destruct w as [d c].
  unfold SpecificationService.delete_specification. unfold_m.
  cbn [db cache].
  destruct (get_record spec_id d) as [[[spec|]|e0] d0] eqn:Hget; try done.
  assert (d0 = d) as -> by (unfold get_record, gets in Hget; congruence).
  destruct (get_record_found spec_id d spec) as (Hpk & _ & _).
  { by rewrite Hget. }
  cbn [fst snd db cache]. unfold delete_record. cbn [db cache].
  destruct (select_pk (pk spec) (table d)) as [row|]; [|done].
  cbn [fst snd db cache].
  unfold CacheService.clear_cache, RedisCache.clear, RedisCache.call.
  unfold_m.
  assert (∀ d' fs, fs = [] →
            (∀ schema_dump,
               (SpecificationService.get_specification schema_dump
                  (pk spec)
                  (mkWorld
                     (set_table
                        (update_where_pk (pk spec) (soft_delete now)
                           (table (T := Specification.t) d)) d')
                     (RedisCache.mk ∅ fs))).1
               = Raise (ResourceNotFoundError "SPEC001"))
            ∧ ∀ limiter user_id endpoint,
                (RateLimiter.check_rate_limit limiter user_id endpoint
                   (RedisCache.mk ∅ fs)).1
                = Ok (1 <=? RateLimiter.max_requests limiter)%Z) as Hafter.
  { intros d' fs ->. split.
    - intros schema_dump.
      unfold SpecificationService.get_specification,
        CacheService.get_specification, RedisCache.get, RedisCache.call.
      unfold_m. cbn [db cache RedisCache.faults RedisCache.entries].
      rewrite lookup_empty. cbn [default from_option truthy fst snd].
      unfold get_record, gets. cbn [db cache fst snd].
      rewrite (table_set_table (T := Specification.t)).
      by rewrite (find_update_where_pk_deleted (T := Specification.t)).
    - intros limiter user_id endpoint.
      unfold RateLimiter.check_rate_limit, RedisCache.increment,
        RedisCache.incr. unfold_m.
      cbn [RedisCache.faults RedisCache.entries].
      by rewrite lookup_empty. }
  rewrite <- Hpk.
  destruct (RedisCache.faults c) as [|[] rest]; cbn [fst snd]; [|done|].
  - intros [= <-]. cbn [cache RedisCache.entries RedisCache.faults].
    split; [done|]. intros _. by apply Hafter.
  - intros [= <-]. cbn [cache RedisCache.entries RedisCache.faults].
    split; [done|]. intros ->. by apply Hafter.
Qed.

Lemma delete_specification_empties_cache_witness :
  RedisCache.entries
    (cache
       (SpecificationService.delete_specification "S" Examples.now
          (mkWorld Examples.db3
             (Examples.healthy
                {[ make_rate_limit_key "10.0.0.1" "api.list" := JInt 100 ]}))).2)
  = ∅.
Proof.
  apply (delete_specification_empties_cache "S" Examples.now
           (mkWorld Examples.db3
              (Examples.healthy
                 {[ make_rate_limit_key "10.0.0.1" "api.list" := JInt 100 ]}))).
  reflexivity.
Defined.

(** ** More on validation and failure *)

(** X26.  The validators of titles and of specification contents raise
    with the codes the services use for a missing record: a refused
    project title comes with status 400 and the message ["Project not
    found"], a refused specification content with status 400 and the
    message ["Specification not found"].  A content is refused by
    [validate_specification_content] exactly when [validate_bullet_item]
    refuses it. *)
Theorem validators_reuse_not_found_codes :
  (∀ title e,
     validate_project_title title = Raise e →
     api_status_code e = Some 400%Z
     ∧ api_message e = Some "Project not found")
  ∧ (∀ content e,
       validate_specification_content content = Raise e →
       api_status_code e = Some 400%Z
       ∧ api_message e = Some "Specification not found")
  ∧ ∀ content,
      validate_specification_content content = Ok true
      ↔ validate_bullet_item content 0 = Ok true.
Proof.
  split; [|split].
  - intros title e. unfold validate_project_title.
    destruct (bool_decide _); [by intros [= <-]|].
    destruct (_ || _); [by intros [= <-]|].
    destruct (negb _); [by intros [= <-]|done].
  - intros content e. unfold validate_specification_content.
    destruct (bool_decide _); [by intros [= <-]|].
    destruct (_ =? _)%nat; [by intros [= <-]|].
    destruct (_ <? _)%Z; [by intros [= <-]|done].
  - intros content.
    unfold validate_specification_content, validate_bullet_item.
    destruct (bool_decide _); [done|].
    destruct (_ =? _)%nat; [done|].
    destruct (_ <? _)%Z; [done|]. done.
Qed.

Lemma validators_reuse_not_found_codes_witness :
  api_status_code
    (ValidationError "PRJ001" [("title", ["Title contains invalid characters"])])
  = Some 400%Z
  ∧ api_message
      (ValidationError "PRJ001"
         [("title", ["Title contains invalid characters"])])
    = Some "Project not found".
Proof.
  apply (proj1 validators_reuse_not_found_codes "a/b").
  reflexivity.
Defined.

Lemma load_update_Ok_valid data vd :
  BulletItemUpdateSchema.load data = Ok vd → vd = data ∧ valid_update data.
Proof.
  unfold BulletItemUpdateSchema.load, BulletItemUpdateSchema.validate_content,
    BulletItemUpdateSchema.validate_order, validate_bullet_item, valid_update.
  unfold_m.
  destruct (BulletItemUpdateSchema.content data) as [c|].
  - case_bool_decide as Hempty; [done|].
    destruct (String.length _ =? 0)%nat eqn:Hlen0; [done|].
    destruct (MAX_CONTENT_LENGTH <? _)%Z eqn:Hlen; [done|].
    destruct ((0 <? 0) || (MAX_BULLET_ITEMS <=? 0))%Z eqn:Hzero; [done|].
    apply Nat.eqb_neq in Hlen0. apply Z.ltb_ge in Hlen.
    unfold MAX_CONTENT_LENGTH in Hlen.
    assert (∀ c', Some c = Some c' →
              strip c' ≠ ""
              ∧ (Z.of_nat (String.length (strip c')) ≤ 5000)%Z) as Hcontent.
    { intros c' [= <-]. split; [|done]. intros Hstrip.
      by rewrite Hstrip in Hlen0. }
    destruct (BulletItemUpdateSchema.order data) as [o|].
    + destruct ((_ <? 0) || (9 <? _))%Z eqn:Horder; [done|].
      apply orb_false_iff in Horder as [Hlo%Z.ltb_ge Hhi%Z.ltb_ge].
      intros [= <-]. split; [done|]. split; [done|].
      intros o' [= <-]. lia.
    + intros [= <-]. split; [done|]. by split.
  - destruct (BulletItemUpdateSchema.order data) as [o|].
    + destruct ((_ <? 0) || (9 <? _))%Z eqn:Horder; [done|].
      apply orb_false_iff in Horder as [Hlo%Z.ltb_ge Hhi%Z.ltb_ge].
      intros [= <-]. split; [done|]. split; [done|].
      intros o' [= <-]. lia.
    + intros [= <-]. split; [done|]. by split.
Qed.

Lemma load_update_Raise data e :
  BulletItemUpdateSchema.load data = Raise e →
  (∃ errors, e = ValidationError "ITEM002" errors)
  ∨ (∃ messages, e = SchemaValidationError messages).
Proof.
  unfold BulletItemUpdateSchema.load,
    BulletItemUpdateSchema.validate_content,
    BulletItemUpdateSchema.validate_order, validate_bullet_item.
  unfold_m.
  destruct (BulletItemUpdateSchema.content data) as [c|].
  - destruct (bool_decide _); [intros [= <-]; left; by eexists|].
    destruct (String.length _ =? 0)%nat;
      [intros [= <-]; left; by eexists|].
    destruct (MAX_CONTENT_LENGTH <? _)%Z;
      [intros [= <-]; left; by eexists|].
    destruct ((0 <? 0) || (MAX_BULLET_ITEMS <=? 0))%Z eqn:Hzero; [done|].
    destruct (BulletItemUpdateSchema.order data) as [o|]; [|done].
    destruct ((_ <? 0) || (9 <? _))%Z; [|done].
    intros [= <-]. right. by eexists.
  - destruct (BulletItemUpdateSchema.order data) as [o|]; [|done].
    destruct ((_ <? 0) || (9 <? _))%Z; [|done].
    intros [= <-]. right. by eexists.
Qed.

(** X27.  [update_bullet_item] checks the data before it looks the item
    up: data that the schema refuses are refused with the schema's error,
    the application's [ValidationError] with code [ITEM002] (content) or
    marshmallow's [ValidationError] (order), whether the item exists or
    not.  Whenever the call raises, the store is as it was, and the error
    is one of these two, [ResourceNotFoundError] on data that pass, or
    the [DatabaseError] of the store. *)
Theorem update_bullet_item_fails_cleanly (item_id : UUID)
    (data : BulletItemUpdateSchema.data) (now : datetime) (d : Database) :
  (∀ e,
     BulletItemUpdateSchema.load data = Raise e →
     BulletItemService.update_bullet_item item_id data now d = (Raise e, d)
     ∧ ((∃ errors, e = ValidationError "ITEM002" errors)
        ∨ (∃ messages, e = SchemaValidationError messages)))
  ∧ (∀ e,
       (BulletItemService.update_bullet_item item_id data now d).1 = Raise e →
       (BulletItemService.update_bullet_item item_id data now d).2 = d
       ∧ ((∃ errors, e = ValidationError "ITEM002" errors)
          ∨ (∃ messages, e = SchemaValidationError messages)
          ∨ (e = NotFound ∧ valid_update data)
          ∨ e = DatabaseError)).
Proof.
  split.
  { intros e Hload. split; [|by apply (load_update_Raise data)].
    unfold BulletItemService.update_bullet_item. unfold_m.
    by rewrite Hload. }
  intros e.
  unfold BulletItemService.update_bullet_item. unfold_m.
  destruct (BulletItemUpdateSchema.load data) as [vd|e'] eqn:Hload.
  2:{ cbn [fst snd]. intros [= ->]. split; [done|].
      destruct (load_update_Raise data e Hload) as [?|?]; tauto. }
  apply load_update_Ok_valid in Hload as [-> Hvalid].
  unfold get_record, gets. cbn [fst snd].
  destruct (List.find _ _) as [item|] eqn:Hfind.
  2:{ intros [= <-]. split; [done|]. right. right. left. by split. }
  apply List.find_some in Hfind as [Hin _]. apply list_elem_of_In in Hin.
  unfold update_record. cbn [pk table set_table BulletItem_Base].
  pose proof (@elem_of_update_where_pk _ BulletItem_Base (BulletItem.id item)
    (flush_row now (BulletItemUpdateSchema.assign data)) (bullet_items d)
    item Hin eq_refl) as Hin'.
  destruct (find_is_Some
    (λ r : BulletItem.t, bool_decide (BulletItem.id r = BulletItem.id item))
    _ _ Hin') as (item' & Hsel & _).
  { apply bool_decide_eq_true_2.
    by destruct (same_identity_flush_row now
                   (BulletItemUpdateSchema.assign data) item
                   (same_identity_assign data item)) as (? & _). }
  unfold select_pk. cbn [pk BulletItem_Base]. by rewrite Hsel.
Qed.

Lemma update_bullet_item_fails_cleanly_witness :
  BulletItemService.update_bullet_item "a"
    (BulletItemUpdateSchema.mk (Some "  ") (Some 4%Z)) Examples.now
    Examples.db3
  = (Raise (ValidationError "ITEM002"
              [("content", ["Content cannot be empty"])]),
     Examples.db3).
Proof.
  apply (proj1 (update_bullet_item_fails_cleanly "a"
                  (BulletItemUpdateSchema.mk (Some "  ") (Some 4%Z))
                  Examples.now Examples.db3)).
  reflexivity.
Defined.
